(** * Community association document management: approval workflow,
    versioning, access control and slug generation.

    The repository holds two Django implementations of the same
    application: [apps/] (integer primary keys, role checks by equality)
    and [django_server/] (UUID primary keys, a role hierarchy).  Each is
    embedded in a module of its own; definitions keep the names of the
    Python functions they are translated from.  The user views of
    [django_server/], the category tree of both and the fillable PDF of
    [django_server/] follow in the modules [Accounts], [Categories] and
    [PdfUtils].

    Conventions of the embedding:
    - a database table is a finite map from primary keys to rows;
      a model instance in memory is a primary key together with a row;
      [save] writes the row back under its key;
    - [CharField]s (roles, statuses, slugs) are strings, compared as the
      source compares them;
    - a view returns the exception it raises or the response it builds,
      together with the database it leaves behind;
    - columns and tables no property below reads (timestamps kept by the
      database, tags, form fields outside the PDF generator) are left out;
    - third-party code (slugify, diff_match_patch, the PDF renderers) is
      the method of a class, instantiated only to run examples;
    - [timezone.now()] is an argument: the reading the call returns. *)

From stdpp Require Import gmap strings list fin_maps pretty sorting.

(** ** Shared vocabulary *)

(** [UserRole] (accounts/models.py in both trees). *)
Definition ADMIN : string := "ADMIN".
Definition PRESIDENT : string := "PRESIDENT".
Definition BOARD_MEMBER : string := "BOARD_MEMBER".
Definition COMMITTEE_MEMBER : string := "COMMITTEE_MEMBER".
Definition VOLUNTEER : string := "VOLUNTEER".
Definition PUBLIC : string := "PUBLIC".

(** [ApprovalStatus] and [DocumentStatus]. *)
Definition PENDING : string := "PENDING".
Definition APPROVED : string := "APPROVED".
Definition REJECTED : string := "REJECTED".
Definition CANCELLED : string := "CANCELLED".
Definition UNDER_REVIEW : string := "UNDER_REVIEW".
Definition LIVE : string := "LIVE".
Definition ARCHIVED : string := "ARCHIVED".

(** What a [DateTimeField] attribute of an instance can hold: nothing, a
    point in time, or (as [apps/approvals/models.py] assigns it) a
    [models.DateTimeField(auto_now=...)] field object. *)
Inductive dt_value :=
| DtNull
| DtTime (t : Z)
| DtFieldObject (auto_now : bool).

(** Python truthiness of an optional string ([if notes:]). *)
Definition truthy (s : option string) : bool :=
  match s with
  | Some x => negb (bool_decide (x = ""))
  | None => false
  end.

(** Exceptions the views raise. *)
Inductive Exn :=
| Http404
| PermissionDenied (detail : string)
| ValidationError (detail : string)
| KeyError (key : string)
| PermissionError (detail : string)
| DoesNotExist
| MultipleObjectsReturned.

(** A response built by a view: [Response({'error': ...}, status=...)] or
    a response carrying data. *)
Inductive Response (A : Type) :=
| ErrorResponse (status_code : nat) (error : string)
| DataResponse (status_code : nat) (data : A).
Arguments ErrorResponse {A} status_code error.
Arguments DataResponse {A} status_code data.

(** The HTTP status a client sees: Django REST Framework answers
    [Http404] with 404, [PermissionDenied] with 403, [ValidationError]
    with 400, and any other exception surfaces as 500. *)
Definition http_status {A} (r : Exn + Response A) : nat :=
  match r with
  | inl Http404 => 404
  | inl (PermissionDenied _) => 403
  | inl (ValidationError _) => 400
  | inl _ => 500
  | inr (ErrorResponse c _) => c
  | inr (DataResponse c _) => c
  end.

(** A model instance: primary key and column values. *)
Record Instance (A : Type) := MkInstance { pk : nat; row : A }.
Arguments MkInstance {A} pk row.
Arguments pk {A} i.
Arguments row {A} i.

(** [Model.save()] of an existing instance. *)
Definition save {A} (i : Instance A) (table : gmap nat A) : gmap nat A :=
  <[pk i := row i]> table.

(** [Model.objects.get(pk=k)] / the lookup of [get_object_or_404]. *)
Definition objects_get {A} (k : nat) (table : gmap nat A) : option (Instance A) :=
  MkInstance k <$> table !! k.

(** [Model.objects.create(...)]: the row is stored under a key not in use
    (keys start at 1). *)
Definition objects_create {A} (r : A) (table : gmap nat A) : Instance A * gmap nat A :=
  let k := fresh ({[0]} ∪ dom table) in (MkInstance k r, <[k := r]> table).

(** The rows of a queryset. *)
Definition rows {A} (table : gmap nat A) : list A := (map_to_list table).*2.

(** [QuerySet.order_by('-key')] on the rows and [QuerySet.first()]. *)
Definition desc_by {A} (key : A → nat) : relation A := λ x y, key y ≤ key x.

Global Instance desc_by_dec {A} (key : A → nat) : RelDecision (desc_by key) :=
  λ x y, decide (key y ≤ key x).

Definition order_by_desc {A} (key : A → nat) (l : list A) : list A :=
  merge_sort (desc_by key) l.

Definition first {A} (l : list A) : option A := head l.

(** [django.utils.text.slugify], the diff library and the PDF renderers
    are not part of the repository. *)
Class Slugify := { slugify : string → string }.

Class diff_match_patch := {
  Diffs : Type;
  diff_main : string → string → Diffs;
  diff_prettyHtml : Diffs → string
}.

(** [QuerySet.filter(...)] as a queryset (a sub-table). *)
Definition objects_filter {A} (p : A → bool) (table : gmap nat A) : gmap nat A :=
  filter (λ kv, p kv.2 = true) table.

(** [QuerySet.exists()]. *)
Definition exists_ {A} (q : gmap nat A) : bool := bool_decide (size q ≠ 0).

(** [QuerySet.get()] on a filtered queryset. *)
Definition get_unique {A} (q : gmap nat A) : Exn + Instance A :=
  match map_to_list q with
  | [] => inl DoesNotExist
  | [(k, r)] => inr (MkInstance k r)
  | _ => inl MultipleObjectsReturned
  end.

(** [QuerySet.exclude(id=k)]. *)
Definition exclude_id {A} (k : nat) (q : gmap nat A) : gmap nat A := delete k q.

(** The loop of both slug generators:
    [while <taken>(slug): slug = f"{base}-{counter}"; counter += 1],
    run for at most [fuel] tests of the condition. *)
Fixpoint slug_loop (taken : string → bool) (base : string) (fuel : nat)
    (slug : string) (counter : nat) : option string :=
  match fuel with
  | 0 => None
  | S fuel =>
    if taken slug then
      slug_loop taken base fuel (base +:+ "-" +:+ pretty counter) (S counter)
    else Some slug
  end.

(** ** Python string methods the code calls *)

(** [s.split(sep)] for a separator of one character: the pieces between
    the occurrences of [sep], in order.  The result of [split] is never
    empty, so it is given as its first piece and the list of the others. *)
Fixpoint str_split (sep : Ascii.ascii) (s : string) : string * list string :=
  match s with
  | EmptyString => ("", [])
  | String c s' =>
    let '(piece, pieces) := str_split sep s' in
    if bool_decide (c = sep) then ("", piece :: pieces)
    else (String c piece, pieces)
  end.

(** The separators the code splits on. *)
Definition comma : Ascii.ascii := Ascii.ascii_of_nat 44.
Definition space : Ascii.ascii := Ascii.ascii_of_nat 32.

(** [s.lower()] on the letters A to Z; other characters are left alone. *)
Definition ascii_lower (c : Ascii.ascii) : Ascii.ascii :=
  let n := Ascii.nat_of_ascii c in
  if bool_decide (65 ≤ n ∧ n ≤ 90) then Ascii.ascii_of_nat (n + 32) else c.

Fixpoint str_lower (s : string) : string :=
  match s with
  | EmptyString => EmptyString
  | String c s' => String (ascii_lower c) (str_lower s')
  end.

(** [c in s] for a character [c]. *)
Fixpoint str_contains (c : Ascii.ascii) (s : string) : bool :=
  match s with
  | EmptyString => false
  | String c' s' => bool_decide (c' = c) || str_contains c s'
  end.

(** [request.META]: the headers of a request. *)
Definition META := gmap string string.

(** [rest_framework.permissions.SAFE_METHODS]. *)
Definition SAFE_METHODS : list string := ["GET"; "HEAD"; "OPTIONS"].

(** ** The [apps/] tree: data model *)

Module Apps.

(** [apps/accounts/models.py]: [User]; two users are equal when their
    primary keys are. *)
Module User.
Record t := mk { id : nat; role : string; full_name : string }.

Definition has_role (self : t) (r : string) : bool :=
    bool_decide (role self = r).

Definition can_approve_documents (self : t) : bool :=
    bool_decide (role self ∈ [ADMIN; PRESIDENT; BOARD_MEMBER]).

Definition can_create_documents (self : t) : bool :=
    bool_decide (role self ∈
      [ADMIN; PRESIDENT; BOARD_MEMBER; COMMITTEE_MEMBER; VOLUNTEER]).

Definition can_view_all_documents (self : t) : bool :=
    bool_decide (role self ∈ [ADMIN; PRESIDENT; BOARD_MEMBER]).

Definition has_any_role (self : t) (roles : list string) : bool :=
    bool_decide (role self ∈ roles).

Definition can_manage_users (self : t) : bool :=
    bool_decide (role self ∈ [ADMIN; PRESIDENT]).
End User.

(** [apps/categories/models.py]: the columns of [DocumentCategory] the
    workflow reads. *)
Module DocumentCategory.
Record t := mk { name : string; required_approval_role : string }.
End DocumentCategory.

(** [apps/documents/models.py]: [Document].  Foreign keys to users hold
    the user's primary key; the category is carried with the row. *)
Module Document.
Record t := mk {
    title : string;
    slug : string;
    category : DocumentCategory.t;
    status : string;
    content_markdown : string;
    is_public : bool;
    has_fillable_fields : bool;
    author : nat;
    approved_by : option nat;
    approved_at : dt_value
  }.

Definition set_status (v : string) (d : t) : t :=
    mk (title d) (slug d) (category d) v (content_markdown d) (is_public d)
       (has_fillable_fields d) (author d) (approved_by d) (approved_at d).
Definition set_slug (v : string) (d : t) : t :=
    mk (title d) v (category d) (status d) (content_markdown d) (is_public d)
       (has_fillable_fields d) (author d) (approved_by d) (approved_at d).
Definition set_approved_by (v : option nat) (d : t) : t :=
    mk (title d) (slug d) (category d) (status d) (content_markdown d)
       (is_public d) (has_fillable_fields d) (author d) v (approved_at d).
Definition set_approved_at (v : dt_value) (d : t) : t :=
    mk (title d) (slug d) (category d) (status d) (content_markdown d)
       (is_public d) (has_fillable_fields d) (author d) (approved_by d) v.
Definition set_title (v : string) (d : t) : t :=
    mk v (slug d) (category d) (status d) (content_markdown d) (is_public d)
       (has_fillable_fields d) (author d) (approved_by d) (approved_at d).
Definition set_content_markdown (v : string) (d : t) : t :=
    mk (title d) (slug d) (category d) (status d) v (is_public d)
       (has_fillable_fields d) (author d) (approved_by d) (approved_at d).
Definition set_is_public (v : bool) (d : t) : t :=
    mk (title d) (slug d) (category d) (status d) (content_markdown d) v
       (has_fillable_fields d) (author d) (approved_by d) (approved_at d).
Definition set_has_fillable_fields (v : bool) (d : t) : t :=
    mk (title d) (slug d) (category d) (status d) (content_markdown d)
       (is_public d) v (author d) (approved_by d) (approved_at d).

Definition can_be_edited_by (self : t) (user : User.t) : bool :=
    if bool_decide (User.role user = ADMIN) then true
    else if bool_decide (User.id user = author self) then
      bool_decide (status self ∈ [PENDING; UNDER_REVIEW])
    else false.

Definition can_be_approved_by (self : t) (user : User.t) : bool :=
    if bool_decide (User.role user = ADMIN) then true
    else if bool_decide (User.role user = PRESIDENT) then true
    else if bool_decide (User.role user = BOARD_MEMBER) then
      bool_decide (DocumentCategory.required_approval_role (category self) ∈
        [BOARD_MEMBER; COMMITTEE_MEMBER; VOLUNTEER])
    else false.
End Document.

(** [DocumentVersion]: [document] is the foreign key. *)
Module DocumentVersion.
Record t := mk {
    document : nat;
    version_number : nat;
    content_markdown : string;
    change_description : option string;
    content_diff : option string;
    author : nat
  }.
End DocumentVersion.

(** [apps/approvals/models.py]: [ApprovalRequest].  [requested_by] is
    optional because [perform_create] saves the serializer without it. *)
Module ApprovalRequest.
Record t := mk {
    document : nat;
    requested_by : option nat;
    status : string;
    notes : option string;
    reviewed_by : option nat;
    reviewed_at : dt_value
  }.

Definition set_status (v : string) (r : t) : t :=
    mk (document r) (requested_by r) v (notes r) (reviewed_by r) (reviewed_at r).
Definition set_notes (v : option string) (r : t) : t :=
    mk (document r) (requested_by r) (status r) v (reviewed_by r) (reviewed_at r).
Definition set_reviewed_by (v : option nat) (r : t) : t :=
    mk (document r) (requested_by r) (status r) (notes r) v (reviewed_at r).
Definition set_reviewed_at (v : dt_value) (r : t) : t :=
    mk (document r) (requested_by r) (status r) (notes r) (reviewed_by r) v.
End ApprovalRequest.

(** The database. *)
Record Store := MkStore {
  documents : gmap nat Document.t;
  document_versions : gmap nat DocumentVersion.t;
  approval_requests : gmap nat ApprovalRequest.t
}.

Definition with_documents (v : gmap nat Document.t) (st : Store) : Store :=
  MkStore v (document_versions st) (approval_requests st).
Definition with_document_versions (v : gmap nat DocumentVersion.t) (st : Store) : Store :=
  MkStore (documents st) v (approval_requests st).
Definition with_approval_requests (v : gmap nat ApprovalRequest.t) (st : Store) : Store :=
  MkStore (documents st) (document_versions st) v.

(** ** The [apps/] tree: approval workflow *)

(** An approval request in memory with its related document, as
    [select_related('document')] loads it. *)
Record LoadedRequest := MkLoaded {
  request : Instance ApprovalRequest.t;
  request_document : Instance Document.t
}.

Definition load_request (k : nat) (r : ApprovalRequest.t) (st : Store)
  : option LoadedRequest :=
  MkLoaded (MkInstance k r) <$> objects_get (ApprovalRequest.document r) (documents st).

(** [ApprovalRequest.can_be_reviewed_by]. *)
Definition can_be_reviewed_by (self : LoadedRequest) (user : User.t) : bool :=
  if bool_decide (User.role user = ADMIN) then true
  else if bool_decide (User.role user = PRESIDENT) then true
  else if bool_decide (User.role user = BOARD_MEMBER) then
    bool_decide
      (DocumentCategory.required_approval_role
         (Document.category (row (request_document self))) ∈
       [BOARD_MEMBER; COMMITTEE_MEMBER; VOLUNTEER])
  else false.

Definition save_request (r : Instance ApprovalRequest.t) (st : Store) : Store :=
  with_approval_requests (save r (approval_requests st)) st.

(** [Document.save] ([apps/documents/models.py]): an empty slug is
    replaced by [slugify(self.title)] before the row is written. *)
Definition fill_slug `{!Slugify} (d : Document.t) : Document.t :=
  if bool_decide (Document.slug d = "") then
    Document.set_slug (slugify (Document.title d)) d
  else d.

Definition save_document `{!Slugify} (self : Instance Document.t) (st : Store)
  : Instance Document.t * Store :=
  let self := MkInstance (pk self) (fill_slug (row self)) in
  (self, with_documents (save self (documents st)) st).

(** [Document.objects.create(...)]: [save] of an instance without a key. *)
Definition create_document `{!Slugify} (d : Document.t) (st : Store)
  : Instance Document.t * Store :=
  let '(self, table) := objects_create (fill_slug d) (documents st) in
  (self, with_documents table st).

(** [ApprovalRequest.approve].  [reviewed_at] receives the object
    [models.DateTimeField(auto_now=True)]; [save] stores attribute values
    as they are. *)
Definition approve `{!Slugify} (self : LoadedRequest) (reviewer : User.t)
    (notes : option string) (st : Store) : LoadedRequest * Store :=
  let r := ApprovalRequest.set_status APPROVED (row (request self)) in
  let r := ApprovalRequest.set_reviewed_by (Some (User.id reviewer)) r in
  let r := ApprovalRequest.set_reviewed_at (DtFieldObject true) r in
  let r := if truthy notes then ApprovalRequest.set_notes notes r else r in
  let self_request := MkInstance (pk (request self)) r in
  let st := save_request self_request st in
  let d := Document.set_status APPROVED (row (request_document self)) in
  let d := Document.set_approved_by (Some (User.id reviewer)) d in
  let d := Document.set_approved_at (ApprovalRequest.reviewed_at r) d in
  let '(self_document, st) :=
    save_document (MkInstance (pk (request_document self)) d) st in
  (MkLoaded self_request self_document, st).

(** [ApprovalRequest.reject]. *)
Definition reject `{!Slugify} (self : LoadedRequest) (reviewer : User.t)
    (notes : option string) (st : Store) : LoadedRequest * Store :=
  let r := ApprovalRequest.set_status REJECTED (row (request self)) in
  let r := ApprovalRequest.set_reviewed_by (Some (User.id reviewer)) r in
  let r := ApprovalRequest.set_reviewed_at (DtFieldObject true) r in
  let r := if truthy notes then ApprovalRequest.set_notes notes r else r in
  let self_request := MkInstance (pk (request self)) r in
  let st := save_request self_request st in
  let d := Document.set_status PENDING (row (request_document self)) in
  let '(self_document, st) :=
    save_document (MkInstance (pk (request_document self)) d) st in
  (MkLoaded self_request self_document, st).

(** [ApprovalRequest.cancel]: nothing happens for other users. *)
Definition cancel `{!Slugify} (self : LoadedRequest) (user : User.t) (st : Store)
  : LoadedRequest * Store :=
  if bool_decide (Some (User.id user) = ApprovalRequest.requested_by (row (request self)))
     || bool_decide (User.role user = ADMIN) then
    let r := ApprovalRequest.set_status CANCELLED (row (request self)) in
    let r := ApprovalRequest.set_reviewed_by (Some (User.id user)) r in
    let r := ApprovalRequest.set_reviewed_at (DtFieldObject true) r in
    let self_request := MkInstance (pk (request self)) r in
    let st := save_request self_request st in
    let d := Document.set_status PENDING (row (request_document self)) in
    let '(self_document, st) :=
      save_document (MkInstance (pk (request_document self)) d) st in
    (MkLoaded self_request self_document, st)
  else (self, st).

(** The filter both approval views run:
    [ApprovalRequest.objects.filter(document=document, status='PENDING').exists()]. *)
Definition pending_request_exists (document : nat) (st : Store) : bool :=
  exists_
    (objects_filter
       (λ r, bool_decide (ApprovalRequest.document r = document)
             && bool_decide (ApprovalRequest.status r = PENDING))
       (approval_requests st)).

(** [request_approval] ([apps/approvals/views.py]). *)
Definition request_approval `{!Slugify} (user : User.t) (document_id : nat)
    (notes : option string) (st : Store)
  : (Exn + Response (Instance ApprovalRequest.t)) * Store :=
  match objects_get document_id (documents st) with
  | None => (inl Http404, st)
  | Some document =>
    if negb (Document.can_be_edited_by (row document) user) then
      (inl (PermissionDenied
         "You don't have permission to request approval for this document"), st)
    else if pending_request_exists (pk document) st then
      (inr (ErrorResponse 400
         "There is already a pending approval request for this document"), st)
    else
      let '(approval_request, table) :=
        objects_create
          (ApprovalRequest.mk (pk document) (Some (User.id user)) PENDING
             (Some (default "" notes)) None DtNull)
          (approval_requests st) in
      let st := with_approval_requests table st in
      let '(document, st) :=
        save_document
          (MkInstance (pk document) (Document.set_status UNDER_REVIEW (row document)))
          st in
      (inr (DataResponse 201 approval_request), st)
  end.

(** [ApprovalRequestCreateSerializer.validate_document]. *)
Module ApprovalRequestCreateSerializer.
Definition validate_document (value : Instance Document.t)
  : Exn + Instance Document.t :=
  if negb (bool_decide (Document.status (row value) ∈ [PENDING; UNDER_REVIEW])) then
    inl (ValidationError "Document is not in a state that can be approved")
  else inr value.
End ApprovalRequestCreateSerializer.

(** [ApprovalRequestReviewSerializer]: the validated data of a review.  A
    key of the payload may be absent; [notes] may be present and null. *)
Module ApprovalRequestReviewSerializer.
Record validated_data := mk {
  status : option string;
  notes : option (option string)
}.

Definition validate_status (value : string) : Exn + string :=
  if negb (bool_decide (value ∈ [APPROVED; REJECTED])) then
    inl (ValidationError "Status must be either APPROVED or REJECTED")
  else inr value.

(** [validated_data.get('notes')]. *)
Definition get_notes (vd : validated_data) : option string := mjoin (notes vd).
End ApprovalRequestReviewSerializer.

(** [ApprovalRequestListView]: POST. *)
Module ApprovalRequestListView.
(** [serializer.save()] creates the request from the serializer's fields
    [document] and [notes] only. *)
Definition perform_create (user : User.t) (document : Instance Document.t)
    (notes : option string) (st : Store)
  : (Exn + Instance ApprovalRequest.t) * Store :=
  if negb (Document.can_be_edited_by (row document) user) then
    (inl (PermissionDenied
       "You don't have permission to request approval for this document"), st)
  else if pending_request_exists (pk document) st then
    (inl (PermissionDenied
       "There is already a pending approval request for this document"), st)
  else
    let '(approval_request, table) :=
      objects_create
        (ApprovalRequest.mk (pk document) None PENDING notes None DtNull)
        (approval_requests st) in
    (inr approval_request, with_approval_requests table st).

(** [CreateModelMixin.create]: validation, then [perform_create]. *)
Definition create (user : User.t) (document_id : nat) (notes : option string)
    (st : Store) : (Exn + Instance ApprovalRequest.t) * Store :=
  match objects_get document_id (documents st) with
  | None => (inl (ValidationError "Invalid pk - object does not exist."), st)
  | Some document =>
    match ApprovalRequestCreateSerializer.validate_document document with
    | inl e => (inl e, st)
    | inr document => perform_create user document notes st
    end
  end.
End ApprovalRequestListView.

(** [ApprovalRequestDetailView]: PUT/PATCH (review) and DELETE (cancel). *)
Module ApprovalRequestDetailView.
Definition get_queryset (user : User.t) (st : Store) : gmap nat ApprovalRequest.t :=
  if User.can_approve_documents user then approval_requests st
  else
    objects_filter
      (λ r, bool_decide (ApprovalRequest.requested_by r = Some (User.id user)))
      (approval_requests st).

(** [get_object]: the queryset joins the document, so a request whose
    document is gone is not found either. *)
Definition get_object (user : User.t) (k : nat) (st : Store) : Exn + LoadedRequest :=
  match get_queryset user st !! k with
  | None => inl Http404
  | Some r =>
    match load_request k r st with
    | None => inl Http404
    | Some l => inr l
    end
  end.

Definition perform_update `{!Slugify} (user : User.t) (k : nat)
    (vd : ApprovalRequestReviewSerializer.validated_data) (st : Store)
  : (Exn + unit) * Store :=
  match get_object user k st with
  | inl e => (inl e, st)
  | inr approval_request =>
    if negb (can_be_reviewed_by approval_request user) then
      (inl (PermissionDenied
         "You don't have permission to review this approval request"), st)
    else if negb (bool_decide
              (ApprovalRequest.status (row (request approval_request)) = PENDING)) then
      (inl (PermissionDenied "This approval request has already been reviewed"), st)
    else
      (* serializer.save(reviewed_by=self.request.user) *)
      let i := row (request approval_request) in
      let i := from_option (λ s, ApprovalRequest.set_status s i) i
                 (ApprovalRequestReviewSerializer.status vd) in
      let i := from_option (λ n, ApprovalRequest.set_notes n i) i
                 (ApprovalRequestReviewSerializer.notes vd) in
      let i := ApprovalRequest.set_reviewed_by (Some (User.id user)) i in
      let st := save_request (MkInstance k i) st in
      match ApprovalRequestReviewSerializer.status vd with
      | None => (inl (KeyError "status"), st)
      | Some s =>
        let notes := ApprovalRequestReviewSerializer.get_notes vd in
        if bool_decide (s = APPROVED) then
          (inr (), (approve approval_request user notes st).2)
        else if bool_decide (s = REJECTED) then
          (inr (), (reject approval_request user notes st).2)
        else (inr (), st)
      end
  end.

(** [UpdateModelMixin.update]: fetch, validate, [perform_update]. *)
Definition update `{!Slugify} (user : User.t) (k : nat)
    (data : ApprovalRequestReviewSerializer.validated_data) (st : Store)
  : (Exn + unit) * Store :=
  match get_object user k st with
  | inl e => (inl e, st)
  | inr _ =>
    match ApprovalRequestReviewSerializer.status data with
    | Some s =>
      match ApprovalRequestReviewSerializer.validate_status s with
      | inl e => (inl e, st)
      | inr _ => perform_update user k data st
      end
    | None => perform_update user k data st
    end
  end.

Definition perform_destroy `{!Slugify} (user : User.t) (instance : LoadedRequest) (st : Store)
  : (Exn + unit) * Store :=
  if negb (bool_decide
             (ApprovalRequest.requested_by (row (request instance)) = Some (User.id user))
           || bool_decide (User.role user = ADMIN)) then
    (inl (PermissionDenied
       "You don't have permission to cancel this approval request"), st)
  else if negb (bool_decide
            (ApprovalRequest.status (row (request instance)) = PENDING)) then
    (inl (PermissionDenied "Only pending approval requests can be cancelled"), st)
  else (inr (), (cancel instance user st).2).

(** [DestroyModelMixin.destroy]. *)
Definition destroy `{!Slugify} (user : User.t) (k : nat) (st : Store) : (Exn + unit) * Store :=
  match get_object user k st with
  | inl e => (inl e, st)
  | inr instance => perform_destroy user instance st
  end.
End ApprovalRequestDetailView.

(** ** The [apps/] tree: documents *)

(** [apps/core/utils.py]. *)
Definition can_user_access_document (user : User.t) (document : Document.t) : bool :=
  if User.can_view_all_documents user then true
  else if Document.is_public document then true
  else if bool_decide (Document.author document = User.id user) then true
  else false.

Definition get_user_accessible_documents (user : User.t) (st : Store)
  : gmap nat Document.t :=
  if User.can_view_all_documents user then documents st
  else
    objects_filter
      (λ d, Document.is_public d || bool_decide (Document.author d = User.id user))
      (documents st).

(** [generate_slug(title, model_class, exclude_id)], for a model whose
    slug column is [slug_of]. *)
Definition generate_slug `{!Slugify} {A} (slug_of : A → string) (fuel : nat)
    (title : string) (table : gmap nat A) (exclude : option nat) : option string :=
  let base_slug := slugify title in
  slug_loop
    (λ slug,
       let query := objects_filter (λ r, bool_decide (slug_of r = slug)) table in
       let query :=
         match exclude with
         | Some k => if bool_decide (k = 0) then query else exclude_id k query
         | None => query
         end in
       exists_ query)
    base_slug fuel base_slug 1.

(** [DocumentUpdateSerializer.update] ([apps/documents/serializers.py]);
    the form-field rows it rewrites live in a table of their own and are
    left out. *)
Module DocumentUpdateSerializer.
Record validated_data := mk {
  title : option string;
  content_markdown : option string;
  is_public : option bool;
  has_fillable_fields : option bool;
  change_description : option string
}.

(** [instance.versions]. *)
Definition versions (instance : Instance Document.t) (st : Store)
  : gmap nat DocumentVersion.t :=
  objects_filter (λ v, bool_decide (DocumentVersion.document v = pk instance))
    (document_versions st).

Definition update `{!Slugify} (user : User.t) (instance : Instance Document.t)
    (vd : validated_data) (st : Store) : Instance Document.t * Store :=
  let description := default "" (change_description vd) in
  let st :=
    match content_markdown vd with
    | Some _ =>
      let last_version :=
        first (order_by_desc DocumentVersion.version_number
                 (rows (versions instance st))) in
      let version_number :=
        match last_version with
        | Some v => DocumentVersion.version_number v + 1
        | None => 1
        end in
      let '(_, table) :=
        objects_create
          (DocumentVersion.mk (pk instance) version_number
             (Document.content_markdown (row instance))
             (Some description) None (User.id user))
          (document_versions st) in
      with_document_versions table st
    | None => st
    end in
  (* super().update(instance, validated_data) *)
  let d := row instance in
  let d := from_option (λ v, Document.set_title v d) d (title vd) in
  let d := from_option (λ v, Document.set_content_markdown v d) d (content_markdown vd) in
  let d := from_option (λ v, Document.set_is_public v d) d (is_public vd) in
  let d := from_option (λ v, Document.set_has_fillable_fields v d) d
             (has_fillable_fields vd) in
  save_document (MkInstance (pk instance) d) st.
End DocumentUpdateSerializer.

(** [DocumentCreateSerializer.create] ([apps/documents/serializers.py]):
    the author is the caller; a key the request omits takes the default
    of the model; the status is the model's default and the slug is filled
    by [save].  Form-field rows are left out. *)
Module DocumentCreateSerializer.
Record validated_data := mk {
  title : string;
  category : DocumentCategory.t;
  content_markdown : string;
  is_public : option bool;
  has_fillable_fields : option bool
}.

Definition create `{!Slugify} (user : User.t) (vd : validated_data) (st : Store)
  : Instance Document.t * Store :=
  create_document
    (Document.mk (title vd) "" (category vd) PENDING (content_markdown vd)
       (default false (is_public vd)) (default false (has_fillable_fields vd))
       (User.id user) None DtNull)
    st.
End DocumentCreateSerializer.

(** [instance.delete()] of a document: the rows whose foreign key to the
    document is declared with [on_delete=CASCADE] (versions, approval
    requests) are deleted with it. *)
Definition delete_document (instance : Instance Document.t) (st : Store) : Store :=
  MkStore
    (delete (pk instance) (documents st))
    (objects_filter
       (λ v, negb (bool_decide (DocumentVersion.document v = pk instance)))
       (document_versions st))
    (objects_filter
       (λ r, negb (bool_decide (ApprovalRequest.document r = pk instance)))
       (approval_requests st)).

(** [DocumentListView]. *)
Module DocumentListView.
Definition get_queryset (user : User.t) (st : Store) : gmap nat Document.t :=
  if User.can_view_all_documents user then documents st
  else
    objects_filter
      (λ d, Document.is_public d || bool_decide (Document.author d = User.id user))
      (documents st).

Definition perform_create `{!Slugify} (user : User.t)
    (vd : DocumentCreateSerializer.validated_data) (st : Store)
  : (Exn + Instance Document.t) * Store :=
  if negb (User.can_create_documents user) then
    (inl (PermissionDenied "You don't have permission to create documents"), st)
  else
    let '(document, st) := DocumentCreateSerializer.create user vd st in
    (inr document, st).
End DocumentListView.

(** [DocumentDetailView.get_queryset] and the lookup of [get_object]. *)
Module DocumentDetailView.
Definition get_queryset (user : User.t) (st : Store) : gmap nat Document.t :=
  if User.can_view_all_documents user then documents st
  else
    objects_filter
      (λ d, Document.is_public d || bool_decide (Document.author d = User.id user))
      (documents st).

Definition get_object (user : User.t) (k : nat) (st : Store)
  : Exn + Instance Document.t :=
  match objects_get k (get_queryset user st) with
  | None => inl Http404
  | Some d => inr d
  end.

Definition perform_update `{!Slugify} (user : User.t) (instance : Instance Document.t)
    (vd : DocumentUpdateSerializer.validated_data) (st : Store)
  : (Exn + Instance Document.t) * Store :=
  match get_object user (pk instance) st with
  | inl e => (inl e, st)
  | inr document =>
    if negb (Document.can_be_edited_by (row document) user) then
      (inl (PermissionDenied "You don't have permission to edit this document"), st)
    else
      let '(document, st) := DocumentUpdateSerializer.update user instance vd st in
      (inr document, st)
  end.

(** [UpdateModelMixin.update]: fetch, validate, [perform_update]. *)
Definition update `{!Slugify} (user : User.t) (k : nat)
    (vd : DocumentUpdateSerializer.validated_data) (st : Store)
  : (Exn + Instance Document.t) * Store :=
  match get_object user k st with
  | inl e => (inl e, st)
  | inr instance => perform_update user instance vd st
  end.

Definition perform_destroy (user : User.t) (instance : Instance Document.t) (st : Store)
  : (Exn + unit) * Store :=
  if negb (Document.can_be_edited_by (row instance) user) then
    (inl (PermissionDenied "You don't have permission to delete this document"), st)
  else (inr (), delete_document instance st).

(** [DestroyModelMixin.destroy]. *)
Definition destroy (user : User.t) (k : nat) (st : Store) : (Exn + unit) * Store :=
  match get_object user k st with
  | inl e => (inl e, st)
  | inr instance => perform_destroy user instance st
  end.
End DocumentDetailView.

(** [DocumentVersionListView] and [DocumentVersionDetailView]: the
    versions of the document the URL names. *)
Module DocumentVersionListView.
Definition get_queryset (user : User.t) (document_id : nat) (st : Store)
  : Exn + gmap nat DocumentVersion.t :=
  match objects_get document_id (documents st) with
  | None => inl Http404
  | Some document =>
    if negb (User.can_view_all_documents user
             || Document.is_public (row document)
             || bool_decide (Document.author (row document) = User.id user)) then
      inl (PermissionDenied "You don't have permission to view this document")
    else
      inr (objects_filter
             (λ v, bool_decide (DocumentVersion.document v = pk document))
             (document_versions st))
  end.
End DocumentVersionListView.

Module DocumentVersionDetailView.
Definition get_queryset (user : User.t) (document_id : nat) (st : Store)
  : Exn + gmap nat DocumentVersion.t :=
  match objects_get document_id (documents st) with
  | None => inl Http404
  | Some document =>
    if negb (User.can_view_all_documents user
             || Document.is_public (row document)
             || bool_decide (Document.author (row document) = User.id user)) then
      inl (PermissionDenied "You don't have permission to view this document")
    else
      inr (objects_filter
             (λ v, bool_decide (DocumentVersion.document v = pk document))
             (document_versions st))
  end.

(** [get_object]: the version whose key is the [pk] of the URL, looked up
    in the queryset. *)
Definition get_object (user : User.t) (document_id k : nat) (st : Store)
  : Exn + Instance DocumentVersion.t :=
  match get_queryset user document_id st with
  | inl e => inl e
  | inr queryset =>
    match objects_get k queryset with
    | None => inl Http404
    | Some version => inr version
    end
  end.
End DocumentVersionDetailView.

(** [document_diff] ([apps/documents/views.py]). *)
Record VersionData := MkVersionData {
  vd_id : nat;
  vd_version_number : nat;
  vd_content : string
}.

Record DiffData := MkDiffData {
  version1 : VersionData;
  version2 : VersionData;
  diff : bool
}.

(** [get_object_or_404(DocumentVersion, id=k, document=document)]. *)
Definition get_version_or_404 (k : nat) (document : Instance Document.t) (st : Store)
  : option (Instance DocumentVersion.t) :=
  objects_get k
    (objects_filter (λ v, bool_decide (DocumentVersion.document v = pk document))
       (document_versions st)).

Definition document_diff (user : User.t) (document_id version1_id version2_id : nat)
    (st : Store) : Exn + Response DiffData :=
  match objects_get document_id (documents st) with
  | None => inl Http404
  | Some document =>
    if negb (User.can_view_all_documents user
             || Document.is_public (row document)
             || bool_decide (Document.author (row document) = User.id user)) then
      inl (PermissionDenied "You don't have permission to view this document")
    else
      match get_version_or_404 version1_id document st with
      | None => inl Http404
      | Some version1 =>
        match get_version_or_404 version2_id document st with
        | None => inl Http404
        | Some version2 =>
          let content1 := DocumentVersion.content_markdown (row version1) in
          let content2 := DocumentVersion.content_markdown (row version2) in
          inr (DataResponse 200
            (MkDiffData
               (MkVersionData (pk version1)
                  (DocumentVersion.version_number (row version1)) content1)
               (MkVersionData (pk version2)
                  (DocumentVersion.version_number (row version2)) content2)
               (negb (bool_decide (content1 = content2)))))
        end
      end
  end.

(** [apps/documents/pdf_generator.py]: the renderers return the bytes of
    the PDF or raise; [inl msg] stands for an exception [e] with
    [str(e) = msg]. *)
Class PDFGenerator := {
  generate_simple_pdf : Document.t → string + string;
  generate_fillable_pdf : Document.t → string + string
}.

Record PdfFile := MkPdfFile {
  content : string;
  content_type : string;
  filename : string
}.

(** [generate_pdf_response]: the file is sent as an attachment under
    [filename]. *)
Definition generate_pdf_response (pdf_content file_name : string) : Response PdfFile :=
  DataResponse 200 (MkPdfFile pdf_content "application/pdf" file_name).

(** [apps/documents/pdf_views.py]. *)
Module pdf_views.
Definition generate_pdf `{!PDFGenerator} (user : User.t) (document_id : nat)
    (st : Store) : Exn + Response PdfFile :=
  match objects_get document_id (documents st) with
  | None => inl Http404
  | Some document =>
    if negb (can_user_access_document user (row document)) then
      inr (ErrorResponse 403 "You do not have permission to access this document")
    else
      match generate_simple_pdf (row document) with
      | inr pdf_content =>
        inr (generate_pdf_response pdf_content
               (Document.slug (row document) +:+ ".pdf"))
      | inl e => inr (ErrorResponse 500 ("Failed to generate PDF: " +:+ e))
      end
  end.

Definition generate_fillable_pdf `{!PDFGenerator} (user : User.t) (document_id : nat)
    (st : Store) : Exn + Response PdfFile :=
  match objects_get document_id (documents st) with
  | None => inl Http404
  | Some document =>
    if negb (can_user_access_document user (row document)) then
      inr (ErrorResponse 403 "You do not have permission to access this document")
    else if negb (Document.has_fillable_fields (row document)) then
      inr (ErrorResponse 400 "This document does not have fillable fields")
    else
      match Apps.generate_fillable_pdf (row document) with
      | inr pdf_content =>
        inr (generate_pdf_response pdf_content
               (Document.slug (row document) +:+ "_fillable.pdf"))
      | inl e => inr (ErrorResponse 500 ("Failed to generate fillable PDF: " +:+ e))
      end
  end.
End pdf_views.

(** ** The [apps/] tree: permission classes and request helpers *)

(** [apps/core/permissions.py].  [request.user] is [None] for a request
    that is not authenticated; the object permissions are those of an
    authenticated user. *)
Module permissions.
Module IsAdminOrPresident.
Definition has_permission (user : option User.t) : bool :=
  match user with
  | Some user => bool_decide (User.role user ∈ [ADMIN; PRESIDENT])
  | None => false
  end.
End IsAdminOrPresident.

Module IsAdminOrPresidentOrBoardMember.
Definition has_permission (user : option User.t) : bool :=
  match user with
  | Some user => bool_decide (User.role user ∈ [ADMIN; PRESIDENT; BOARD_MEMBER])
  | None => false
  end.
End IsAdminOrPresidentOrBoardMember.

Module CanCreateDocuments.
Definition has_permission (user : option User.t) : bool :=
  match user with
  | Some user => User.can_create_documents user
  | None => false
  end.
End CanCreateDocuments.

Module CanApproveDocuments.
Definition has_permission (user : option User.t) : bool :=
  match user with
  | Some user => User.can_approve_documents user
  | None => false
  end.
End CanApproveDocuments.

Module CanManageUsers.
Definition has_permission (user : option User.t) : bool :=
  match user with
  | Some user => User.can_manage_users user
  | None => false
  end.
End CanManageUsers.

Module CanViewAllDocuments.
Definition has_permission (user : option User.t) : bool :=
  match user with
  | Some user => User.can_view_all_documents user
  | None => false
  end.
End CanViewAllDocuments.

Module IsOwnerOrReadOnly.
Definition has_object_permission (method : string) (user : User.t) (obj : Document.t)
  : bool :=
  if bool_decide (method ∈ SAFE_METHODS) then true
  else bool_decide (Document.author obj = User.id user).
End IsOwnerOrReadOnly.

Module IsDocumentOwnerOrCanApprove.
Definition has_object_permission (method : string) (user : User.t) (obj : Document.t)
  : bool :=
  if bool_decide (method ∈ SAFE_METHODS) then
    bool_decide (Document.author obj = User.id user)
    || Document.is_public obj
    || User.can_view_all_documents user
  else
    bool_decide (Document.author obj = User.id user)
    || User.can_approve_documents user.
End IsDocumentOwnerOrCanApprove.

Module IsApprovalRequesterOrReviewer.
Definition has_object_permission (method : string) (user : User.t) (obj : LoadedRequest)
  : bool :=
  if bool_decide (method ∈ SAFE_METHODS) then
    bool_decide (ApprovalRequest.requested_by (row (request obj)) = Some (User.id user))
    || can_be_reviewed_by obj user
  else if bool_decide (method ∈ ["PUT"; "PATCH"]) then
    can_be_reviewed_by obj user
  else if bool_decide (method = "DELETE") then
    bool_decide (ApprovalRequest.requested_by (row (request obj)) = Some (User.id user))
    || bool_decide (User.role user = ADMIN)
  else false.
End IsApprovalRequesterOrReviewer.
End permissions.

(** [get_client_ip] ([apps/core/utils.py]). *)
Definition get_client_ip (meta : META) : option string :=
  let x_forwarded_for := meta !! "HTTP_X_FORWARDED_FOR" in
  if truthy x_forwarded_for then
    Some (str_split comma (default "" x_forwarded_for)).1
  else meta !! "REMOTE_ADDR".

(** [JWTAuthentication.get_token_from_request]
    ([apps/accounts/authentication.py]): unpacking the result of [split]
    into two names raises [ValueError] unless there are exactly two
    pieces. *)
Module JWTAuthentication.
Definition get_token_from_request (meta : META) : option string :=
  let auth_header := meta !! "HTTP_AUTHORIZATION" in
  if negb (truthy auth_header) then None
  else
    match str_split space (default "" auth_header) with
    | (prefix, [token]) =>
      if negb (bool_decide (str_lower prefix = "bearer")) then None
      else Some token
    | _ => None
    end.
End JWTAuthentication.

End Apps.

(** ** The [django_server/] tree: data model *)

Module DjangoServer.

(** [django_server/accounts/models.py]: [User]. *)
Module User.
Record t := mk { id : nat; role : string; full_name : string }.

Definition role_hierarchy : gmap string nat :=
  list_to_map
    [(PUBLIC, 0); (VOLUNTEER, 1); (COMMITTEE_MEMBER, 2);
     (BOARD_MEMBER, 3); (PRESIDENT, 4); (ADMIN, 5)].

(** [role_hierarchy.get(r, 0)]. *)
Definition rank (r : string) : nat := default 0 (role_hierarchy !! r).

Definition has_role (self : t) (r : string) : bool :=
  bool_decide (rank r ≤ rank (role self)).

Definition can_approve_documents (self : t) : bool :=
  bool_decide (role self ∈ [ADMIN; PRESIDENT; BOARD_MEMBER]).

Definition can_create_documents (self : t) : bool :=
  negb (bool_decide (role self = PUBLIC)).
End User.

(** [django_server/documents/models.py]. *)
Module DocumentCategory.
Record t := mk { name : string; required_approval_role : string }.
End DocumentCategory.

Module Document.
Record t := mk {
  title : string;
  slug : string;
  category : DocumentCategory.t;
  status : string;
  content_markdown : string;
  is_public : bool;
  has_fillable_fields : bool;
  author : nat;
  approved_by : option nat;
  approved_at : dt_value
}.

Definition set_title (v : string) (d : t) : t :=
  mk v (slug d) (category d) (status d) (content_markdown d) (is_public d)
     (has_fillable_fields d) (author d) (approved_by d) (approved_at d).
Definition set_slug (v : string) (d : t) : t :=
  mk (title d) v (category d) (status d) (content_markdown d) (is_public d)
     (has_fillable_fields d) (author d) (approved_by d) (approved_at d).
Definition set_category (v : DocumentCategory.t) (d : t) : t :=
  mk (title d) (slug d) v (status d) (content_markdown d) (is_public d)
     (has_fillable_fields d) (author d) (approved_by d) (approved_at d).
Definition set_status (v : string) (d : t) : t :=
  mk (title d) (slug d) (category d) v (content_markdown d) (is_public d)
     (has_fillable_fields d) (author d) (approved_by d) (approved_at d).
Definition set_content_markdown (v : string) (d : t) : t :=
  mk (title d) (slug d) (category d) (status d) v (is_public d)
     (has_fillable_fields d) (author d) (approved_by d) (approved_at d).
Definition set_is_public (v : bool) (d : t) : t :=
  mk (title d) (slug d) (category d) (status d) (content_markdown d) v
     (has_fillable_fields d) (author d) (approved_by d) (approved_at d).
Definition set_has_fillable_fields (v : bool) (d : t) : t :=
  mk (title d) (slug d) (category d) (status d) (content_markdown d)
     (is_public d) v (author d) (approved_by d) (approved_at d).
Definition set_approved_by (v : option nat) (d : t) : t :=
  mk (title d) (slug d) (category d) (status d) (content_markdown d)
     (is_public d) (has_fillable_fields d) (author d) v (approved_at d).
Definition set_approved_at (v : dt_value) (d : t) : t :=
  mk (title d) (slug d) (category d) (status d) (content_markdown d)
     (is_public d) (has_fillable_fields d) (author d) (approved_by d) v.

Definition can_user_edit (self : t) (user : User.t) : bool :=
  if bool_decide (User.role user ∈ [ADMIN; PRESIDENT]) then true
  else if bool_decide (author self = User.id user) then true
  else if bool_decide (User.role user = BOARD_MEMBER) then true
  else if bool_decide (User.role user = COMMITTEE_MEMBER)
          && bool_decide (status self = PENDING) then true
  else false.

(** [can_user_view]: the views pass Python's [None] for a request that is
    not authenticated; for a document that is not public the method then
    reads [user.is_authenticated] and raises [AttributeError], which is
    the result [None] here.  Every [User] is authenticated. *)
Definition can_user_view (self : t) (user : option User.t) : option bool :=
  if is_public self then Some true
  else
    match user with
    | Some user =>
      if negb (bool_decide (User.role user = PUBLIC)) then Some true else Some false
    | None => None
    end.
End Document.

Module DocumentVersion.
Record t := mk {
  document : nat;
  version_number : nat;
  content_markdown : string;
  change_description : option string;
  content_diff : option string;
  author : nat
}.
End DocumentVersion.

(** [django_server/approvals/models.py]. *)
Module ApprovalRequest.
Record t := mk {
  document : nat;
  requested_by : nat;
  status : string;
  notes : string;
  reviewed_by : option nat;
  reviewed_at : dt_value;
  priority : string;
  due_date : dt_value
}.

Definition set_status (v : string) (r : t) : t :=
  mk (document r) (requested_by r) v (notes r) (reviewed_by r) (reviewed_at r)
     (priority r) (due_date r).
Definition set_notes (v : string) (r : t) : t :=
  mk (document r) (requested_by r) (status r) v (reviewed_by r) (reviewed_at r)
     (priority r) (due_date r).
Definition set_reviewed_by (v : option nat) (r : t) : t :=
  mk (document r) (requested_by r) (status r) (notes r) v (reviewed_at r)
     (priority r) (due_date r).
Definition set_reviewed_at (v : dt_value) (r : t) : t :=
  mk (document r) (requested_by r) (status r) (notes r) (reviewed_by r) v
     (priority r) (due_date r).
End ApprovalRequest.

Module ApprovalNotification.
Record t := mk {
  approval_request : nat;
  recipient : nat;
  notification_type : string;
  message : string;
  is_read : bool
}.

Definition set_is_read (v : bool) (n : t) : t :=
  mk (approval_request n) (recipient n) (notification_type n) (message n) v.
End ApprovalNotification.

Module ActivityLog.
Record t := mk {
  user : nat;
  action : string;
  entity_type : string;
  entity_id : nat
}.
End ActivityLog.

Record Store := MkStore {
  documents : gmap nat Document.t;
  document_versions : gmap nat DocumentVersion.t;
  approval_requests : gmap nat ApprovalRequest.t;
  approval_notifications : gmap nat ApprovalNotification.t;
  activity_logs : gmap nat ActivityLog.t
}.

Definition with_documents (v : gmap nat Document.t) (st : Store) : Store :=
  MkStore v (document_versions st) (approval_requests st)
    (approval_notifications st) (activity_logs st).
Definition with_document_versions (v : gmap nat DocumentVersion.t) (st : Store) : Store :=
  MkStore (documents st) v (approval_requests st)
    (approval_notifications st) (activity_logs st).
Definition with_approval_requests (v : gmap nat ApprovalRequest.t) (st : Store) : Store :=
  MkStore (documents st) (document_versions st) v
    (approval_notifications st) (activity_logs st).
Definition with_approval_notifications (v : gmap nat ApprovalNotification.t)
    (st : Store) : Store :=
  MkStore (documents st) (document_versions st) (approval_requests st)
    v (activity_logs st).
Definition with_activity_logs (v : gmap nat ActivityLog.t) (st : Store) : Store :=
  MkStore (documents st) (document_versions st) (approval_requests st)
    (approval_notifications st) v.

(** ** The [django_server/] tree: documents and versions *)

(** [Document.generate_unique_slug]. *)
Definition generate_unique_slug `{!Slugify} (fuel : nat) (self : Document.t)
    (table : gmap nat Document.t) : option string :=
  let slug := slugify (Document.title self) in
  slug_loop
    (λ unique_slug,
       exists_ (objects_filter (λ d, bool_decide (Document.slug d = unique_slug)) table))
    slug fuel slug 1.

(** [Document.save]: an empty slug is replaced by a generated one.  The
    loop is given one more test than there are documents. *)
Definition fill_slug `{!Slugify} (d : Document.t) (table : gmap nat Document.t)
  : option Document.t :=
  if bool_decide (Document.slug d = "") then
    (λ s, Document.set_slug s d) <$> generate_unique_slug (S (size table)) d table
  else Some d.

Definition save_document `{!Slugify} (self : Instance Document.t) (st : Store)
  : option (Instance Document.t * Store) :=
  d ← fill_slug (row self) (documents st);
  let self := MkInstance (pk self) d in
  Some (self, with_documents (save self (documents st)) st).

(** [Document.objects.create(...)]. *)
Definition create_document `{!Slugify} (d : Document.t) (st : Store)
  : option (Instance Document.t * Store) :=
  d ← fill_slug d (documents st);
  let '(self, table) := objects_create d (documents st) in
  Some (self, with_documents table st).

(** [self.versions]. *)
Definition versions (self : Instance Document.t) (st : Store)
  : gmap nat DocumentVersion.t :=
  objects_filter (λ v, bool_decide (DocumentVersion.document v = pk self))
    (document_versions st).


(** [Document.create_version]. *)
Definition create_version `{!diff_match_patch} (self : Instance Document.t)
    (author : nat) (change_description : option string) (st : Store)
  : Instance DocumentVersion.t * Store :=
  let last_version :=
    first (order_by_desc DocumentVersion.version_number (rows (versions self st))) in
  let version_number :=
    match last_version with
    | Some v => DocumentVersion.version_number v + 1
    | None => 1
    end in
  let content_diff :=
    match last_version with
    | Some v =>
      let diffs := diff_main (DocumentVersion.content_markdown v)
                     (Document.content_markdown (row self)) in
      Some (diff_prettyHtml diffs)
    | None => None
    end in
  let '(version, table) :=
    objects_create
      (DocumentVersion.mk (pk self) version_number
         (Document.content_markdown (row self)) change_description content_diff author)
      (document_versions st) in
  (version, with_document_versions table st).

(** [DocumentCreateSerializer.create] ([django_server/documents/serializers.py]);
    form fields, tags and metadata are left out. *)
Module DocumentCreateSerializer.
Record validated_data := mk {
  title : string;
  category : DocumentCategory.t;
  content_markdown : string;
  is_public : bool;
  has_fillable_fields : bool;
  author : nat
}.

Definition create `{!Slugify, !diff_match_patch} (vd : validated_data) (st : Store)
  : option (Instance Document.t * Store) :=
  '(document, st) ←
    create_document
      (Document.mk (title vd) "" (category vd) PENDING (content_markdown vd)
         (is_public vd) (has_fillable_fields vd) (author vd) None DtNull) st;
  let '(_, st) := create_version document (author vd) (Some "Initial version") st in
  Some (document, st).
End DocumentCreateSerializer.

(** [DocumentUpdateSerializer.update]. *)
Module DocumentUpdateSerializer.
Record validated_data := mk {
  title : option string;
  category : option DocumentCategory.t;
  content_markdown : option string;
  is_public : option bool;
  has_fillable_fields : option bool;
  status : option string;
  change_description : option string
}.

Definition update `{!Slugify, !diff_match_patch} (user : User.t)
    (instance : Instance Document.t) (vd : validated_data) (st : Store)
  : option (Instance Document.t * Store) :=
  let content_changed :=
    match content_markdown vd with
    | Some c => negb (bool_decide (c = Document.content_markdown (row instance)))
    | None => false
    end in
  let d := row instance in
  let d := from_option (λ v, Document.set_title v d) d (title vd) in
  let d := from_option (λ v, Document.set_category v d) d (category vd) in
  let d := from_option (λ v, Document.set_content_markdown v d) d (content_markdown vd) in
  let d := from_option (λ v, Document.set_is_public v d) d (is_public vd) in
  let d := from_option (λ v, Document.set_has_fillable_fields v d) d
             (has_fillable_fields vd) in
  let d := from_option (λ v, Document.set_status v d) d (status vd) in
  '(instance, st) ← save_document (MkInstance (pk instance) d) st;
  if content_changed then
    let description :=
      if truthy (change_description vd) then change_description vd
      else Some "Content updated" in
    let '(_, st) := create_version instance (User.id user) description st in
    Some (instance, st)
  else Some (instance, st).
End DocumentUpdateSerializer.

(** The [diff] action of [DocumentViewSet], from the document it has
    looked up; [v1] and [v2] are the query parameters. *)
Record DiffData := MkDiffData {
  version1 : Instance DocumentVersion.t;
  version2 : Instance DocumentVersion.t;
  diff_html : string
}.

Definition get_version (document : Instance Document.t) (number : nat) (st : Store)
  : Exn + Instance DocumentVersion.t :=
  get_unique
    (objects_filter (λ v, bool_decide (DocumentVersion.version_number v = number))
       (versions document st)).

Definition diff `{!diff_match_patch} (document : Instance Document.t)
    (version1_id version2_id : option nat) (st : Store) : Exn + Response DiffData :=
  match version1_id, version2_id with
  | Some n1, Some n2 =>
    match get_version document n1 st with
    | inl DoesNotExist => inr (ErrorResponse 404 "Version not found")
    | inl e => inl e
    | inr v1 =>
      match get_version document n2 st with
      | inl DoesNotExist => inr (ErrorResponse 404 "Version not found")
      | inl e => inl e
      | inr v2 =>
        let diffs := diff_main (DocumentVersion.content_markdown (row v1))
                       (DocumentVersion.content_markdown (row v2)) in
        inr (DataResponse 200 (MkDiffData v1 v2 (diff_prettyHtml diffs)))
      end
    end
  | _, _ => inr (ErrorResponse 400 "Both v1 and v2 parameters are required")
  end.

(** ** The [django_server/] tree: approval workflow *)

Record LoadedRequest := MkLoaded {
  request : Instance ApprovalRequest.t;
  request_document : Instance Document.t
}.

Definition load_request (k : nat) (r : ApprovalRequest.t) (st : Store)
  : option LoadedRequest :=
  MkLoaded (MkInstance k r) <$> objects_get (ApprovalRequest.document r) (documents st).

Definition save_request (r : Instance ApprovalRequest.t) (st : Store) : Store :=
  with_approval_requests (save r (approval_requests st)) st.

Definition create_notification (n : ApprovalNotification.t) (st : Store) : Store :=
  with_approval_notifications (objects_create n (approval_notifications st)).2 st.

Definition create_activity_log (l : ActivityLog.t) (st : Store) : Store :=
  with_activity_logs (objects_create l (activity_logs st)).2 st.

Definition dquote : string := String (Ascii.ascii_of_nat 34) "".

(** [ApprovalRequest.can_user_review]. *)
Definition can_user_review (self : LoadedRequest) (user : User.t) : bool :=
  if negb (bool_decide (ApprovalRequest.status (row (request self)) = PENDING)) then false
  else
    let required_role :=
      DocumentCategory.required_approval_role
        (Document.category (row (request_document self))) in
    User.has_role user required_role.

(** [ApprovalRequest.approve]; [now_review] and [now_document] are what
    the first and the second call of [timezone.now()] return. *)
Definition approve `{!Slugify} (self : LoadedRequest) (user : User.t) (notes : string)
    (now_review now_document : Z) (st : Store) : option (LoadedRequest * Store) :=
  let r := ApprovalRequest.set_status APPROVED (row (request self)) in
  let r := ApprovalRequest.set_reviewed_by (Some (User.id user)) r in
  let r := ApprovalRequest.set_reviewed_at (DtTime now_review) r in
  let r := if truthy (Some notes) then ApprovalRequest.set_notes notes r else r in
  let self_request := MkInstance (pk (request self)) r in
  let st := save_request self_request st in
  let d := Document.set_status APPROVED (row (request_document self)) in
  let d := Document.set_approved_by (Some (User.id user)) d in
  let d := Document.set_approved_at (DtTime now_document) d in
  '(self_document, st) ← save_document (MkInstance (pk (request_document self)) d) st;
  let st :=
    create_notification
      (ApprovalNotification.mk (pk self_request) (ApprovalRequest.requested_by r)
         APPROVED
         ("Your document " +:+ dquote +:+ Document.title (row self_document) +:+ dquote
          +:+ " has been approved by " +:+ User.full_name user)
         false) st in
  Some (MkLoaded self_request self_document, st).

(** [ApprovalRequest.reject]. *)
Definition reject `{!Slugify} (self : LoadedRequest) (user : User.t) (notes : string)
    (now_review : Z) (st : Store) : option (LoadedRequest * Store) :=
  let r := ApprovalRequest.set_status REJECTED (row (request self)) in
  let r := ApprovalRequest.set_reviewed_by (Some (User.id user)) r in
  let r := ApprovalRequest.set_reviewed_at (DtTime now_review) r in
  let r := ApprovalRequest.set_notes notes r in
  let self_request := MkInstance (pk (request self)) r in
  let st := save_request self_request st in
  let d := Document.set_status PENDING (row (request_document self)) in
  '(self_document, st) ← save_document (MkInstance (pk (request_document self)) d) st;
  let st :=
    create_notification
      (ApprovalNotification.mk (pk self_request) (ApprovalRequest.requested_by r)
         REJECTED
         ("Your document " +:+ dquote +:+ Document.title (row self_document) +:+ dquote
          +:+ " has been rejected by " +:+ User.full_name user)
         false) st in
  Some (MkLoaded self_request self_document, st).

(** [ApprovalRequest.cancel]: the only test is on who cancels. *)
Definition cancel (self : LoadedRequest) (user : User.t) (now : Z) (st : Store)
  : Exn + LoadedRequest * Store :=
  if negb (bool_decide (User.id user = ApprovalRequest.requested_by (row (request self))))
     && negb (bool_decide (User.role user ∈ [ADMIN; PRESIDENT])) then
    inl (PermissionError "You don't have permission to cancel this request")
  else
    let r := ApprovalRequest.set_status CANCELLED (row (request self)) in
    let r := ApprovalRequest.set_reviewed_at (DtTime now) r in
    let self_request := MkInstance (pk (request self)) r in
    inr (MkLoaded self_request (request_document self), save_request self_request st).

(** [ApprovalReviewSerializer]. *)
Module ApprovalReviewSerializer.
Record data := mk { action : string; notes : option string }.

Definition validate (attrs : data) : Exn + data :=
  if negb (bool_decide (action attrs ∈ ["approve"; "reject"])) then
    inl (ValidationError "not a valid choice")
  else if bool_decide (action attrs = "reject") && negb (truthy (notes attrs)) then
    inl (ValidationError "Notes are required when rejecting an approval request")
  else inr attrs.
End ApprovalReviewSerializer.

(** The rows of the table of users ([django_server/accounts/models.py])
    and the user a row stands for. *)
Module UserRow.
Record t := mk {
  email : string;
  first_name : string;
  last_name : string;
  role : string;
  is_active : bool;
  is_staff : bool
}.

Definition full_name (self : t) : string := first_name self +:+ " " +:+ last_name self.

Definition set_is_active (v : bool) (u : t) : t :=
  mk (email u) (first_name u) (last_name u) (role u) v (is_staff u).
End UserRow.

Definition user_of (k : nat) (r : UserRow.t) : User.t :=
  User.mk k (UserRow.role r) (UserRow.full_name r).

(** [ApprovalRequestCreateSerializer]
    ([django_server/approvals/serializers.py]). *)
Module ApprovalRequestCreateSerializer.
Record validated_data := mk {
  document : Instance Document.t;
  notes : option string;
  priority : option string;
  due_date : dt_value
}.

Definition validate_document (value : Instance Document.t) (st : Store)
  : Exn + Instance Document.t :=
  if bool_decide (Document.status (row value) ∈ [APPROVED; LIVE]) then
    inl (ValidationError "This document is already approved")
  else if exists_
            (objects_filter
               (λ r, bool_decide (ApprovalRequest.document r = pk value)
                     && bool_decide (ApprovalRequest.status r = PENDING))
               (approval_requests st)) then
    inl (ValidationError
           "There is already a pending approval request for this document")
  else inr value.

Definition role_hierarchy : gmap string (list string) :=
  list_to_map
    [(PUBLIC, [ADMIN; PRESIDENT; BOARD_MEMBER; COMMITTEE_MEMBER; VOLUNTEER]);
     (VOLUNTEER, [ADMIN; PRESIDENT; BOARD_MEMBER; COMMITTEE_MEMBER]);
     (COMMITTEE_MEMBER, [ADMIN; PRESIDENT; BOARD_MEMBER]);
     (BOARD_MEMBER, [ADMIN; PRESIDENT; BOARD_MEMBER]);
     (PRESIDENT, [ADMIN; PRESIDENT]);
     (ADMIN, [ADMIN])].

Definition _get_approval_roles (required_role : string) : list string :=
  default [ADMIN] (role_hierarchy !! required_role).

(** The users to notify: active, with one of the roles, the requester
    excluded. *)
Definition approvers (required_role : string) (requested_by : nat)
    (users : gmap nat UserRow.t) : gmap nat UserRow.t :=
  exclude_id requested_by
    (objects_filter
       (λ u, bool_decide (UserRow.role u ∈ _get_approval_roles required_role)
             && bool_decide (UserRow.is_active u = true))
       users).

(** [create]: the keys of the request that the model gives a default
    take it when absent. *)
Definition create `{!Slugify} (user : User.t) (users : gmap nat UserRow.t)
    (vd : validated_data) (st : Store)
  : option (Instance ApprovalRequest.t * Store) :=
  let '(approval_request, table) :=
    objects_create
      (ApprovalRequest.mk (pk (document vd)) (User.id user) PENDING
         (default "" (notes vd)) None DtNull (default "MEDIUM" (priority vd))
         (due_date vd))
      (approval_requests st) in
  let st := with_approval_requests table st in
  '(document, st) ←
    save_document
      (MkInstance (pk (document vd))
         (Document.set_status UNDER_REVIEW (row (document vd)))) st;
  let required_role :=
    DocumentCategory.required_approval_role (Document.category (row document)) in
  let st :=
    foldl
      (λ st approver,
         create_notification
           (ApprovalNotification.mk (pk approval_request) approver.1 "REQUESTED"
              ("New approval request for " +:+ dquote +:+ Document.title (row document)
               +:+ dquote +:+ " from " +:+ User.full_name user)
              false) st)
      st (map_to_list (approvers required_role (User.id user) users)) in
  Some (approval_request, st).
End ApprovalRequestCreateSerializer.

(** [ApprovalPermission] and [ApprovalRequestViewSet]
    ([django_server/approvals/views.py]); requests carry no query
    parameters. *)
Module ApprovalRequestViewSet.
(** [has_permission] for a POST. *)
Definition has_permission_post (user : User.t) : bool :=
  User.can_create_documents user.

Definition has_object_permission (user : User.t) (obj : LoadedRequest) : bool :=
  if bool_decide (ApprovalRequest.requested_by (row (request obj)) = User.id user) then true
  else if can_user_review obj user then true
  else bool_decide (User.role user = ADMIN).

Definition role_map : gmap string (list string) :=
  list_to_map
    [(COMMITTEE_MEMBER, [PUBLIC; VOLUNTEER]);
     (BOARD_MEMBER, [PUBLIC; VOLUNTEER; COMMITTEE_MEMBER; BOARD_MEMBER]);
     (PRESIDENT, [PUBLIC; VOLUNTEER; COMMITTEE_MEMBER; BOARD_MEMBER; PRESIDENT]);
     (ADMIN, [PUBLIC; VOLUNTEER; COMMITTEE_MEMBER; BOARD_MEMBER; PRESIDENT; ADMIN])].

Definition _get_reviewable_roles (user : User.t) : list string :=
  default [] (role_map !! User.role user).

Definition get_queryset (user : User.t) (st : Store) : gmap nat ApprovalRequest.t :=
  if negb (bool_decide (User.role user ∈ [ADMIN; PRESIDENT])) then
    objects_filter
      (λ r,
         bool_decide (ApprovalRequest.requested_by r = User.id user)
         || match documents st !! ApprovalRequest.document r with
            | Some d =>
              bool_decide
                (DocumentCategory.required_approval_role (Document.category d)
                 ∈ _get_reviewable_roles user)
            | None => false
            end)
      (approval_requests st)
  else approval_requests st.

(** [get_object] of a POST action: permission to post, lookup in the
    queryset, object permission. *)
Definition get_object (user : User.t) (k : nat) (st : Store) : Exn + LoadedRequest :=
  if negb (has_permission_post user) then
    inl (PermissionDenied "You do not have permission to perform this action.")
  else
    match get_queryset user st !! k with
    | None => inl Http404
    | Some r =>
      match load_request k r st with
      | None => inl Http404
      | Some obj =>
        if has_object_permission user obj then inr obj
        else inl (PermissionDenied "You do not have permission to perform this action.")
      end
    end.

Definition review `{!Slugify} (user : User.t) (k : nat)
    (data : ApprovalReviewSerializer.data) (now_review now_document : Z) (st : Store)
  : option ((Exn + Response LoadedRequest) * Store) :=
  match get_object user k st with
  | inl e => Some (inl e, st)
  | inr approval_request =>
    if negb (can_user_review approval_request user) then
      Some (inr (ErrorResponse 403
              "You do not have permission to review this request"), st)
    else
      match ApprovalReviewSerializer.validate data with
      | inl e => Some (inl e, st)
      | inr vd =>
        let notes := default "" (ApprovalReviewSerializer.notes vd) in
        '(approval_request, st, action_type) ←
          (if bool_decide (ApprovalReviewSerializer.action vd = "approve") then
             (λ x, (x, "APPROVAL_APPROVED")) <$>
               approve approval_request user notes now_review now_document st
           else
             (λ x, (x, "APPROVAL_REJECTED")) <$>
               reject approval_request user notes now_review st);
        let st :=
          create_activity_log
            (ActivityLog.mk (User.id user) action_type "ApprovalRequest"
               (pk (request approval_request))) st in
        Some (inr (DataResponse 200 approval_request), st)
      end
  end.

Definition cancel (user : User.t) (k : nat) (now : Z) (st : Store)
  : (Exn + Response LoadedRequest) * Store :=
  match get_object user k st with
  | inl e => (inl e, st)
  | inr approval_request =>
    match DjangoServer.cancel approval_request user now st with
    | inl (PermissionError e) => (inr (ErrorResponse 403 e), st)
    | inl e => (inl e, st)
    | inr (approval_request, st) =>
      let st :=
        create_activity_log
          (ActivityLog.mk (User.id user) "APPROVAL_CANCELLED" "ApprovalRequest"
             (pk (request approval_request))) st in
      (inr (DataResponse 200 approval_request), st)
    end
  end.

Definition perform_create `{!Slugify} (user : User.t) (users : gmap nat UserRow.t)
    (vd : ApprovalRequestCreateSerializer.validated_data) (st : Store)
  : option (Instance ApprovalRequest.t * Store) :=
  '(approval_request, st) ← ApprovalRequestCreateSerializer.create user users vd st;
  Some (approval_request,
        create_activity_log
          (ActivityLog.mk (User.id user) "APPROVAL_REQUESTED" "ApprovalRequest"
             (pk approval_request)) st).

(** [CreateModelMixin.create]: permission to post, validation of the
    fields, [perform_create]. *)
Definition create `{!Slugify} (user : User.t) (users : gmap nat UserRow.t)
    (document_id : nat) (notes priority : option string) (due_date : dt_value)
    (st : Store)
  : option ((Exn + Response (Instance ApprovalRequest.t)) * Store) :=
  if negb (has_permission_post user) then
    Some (inl (PermissionDenied "You do not have permission to perform this action."),
          st)
  else
    match objects_get document_id (documents st) with
    | None => Some (inl (ValidationError "Invalid pk - object does not exist."), st)
    | Some document =>
      match ApprovalRequestCreateSerializer.validate_document document st with
      | inl e => Some (inl e, st)
      | inr document =>
        '(approval_request, st) ←
          perform_create user users
            (ApprovalRequestCreateSerializer.mk document notes priority due_date) st;
        Some (inr (DataResponse 201 approval_request), st)
      end
    end.
End ApprovalRequestViewSet.

(** [ApprovalNotification.mark_as_read]; the time of reading is a column
    the row type does not carry. *)
Definition mark_as_read (self : Instance ApprovalNotification.t) (st : Store) : Store :=
  if negb (ApprovalNotification.is_read (row self)) then
    with_approval_notifications
      (save (MkInstance (pk self) (ApprovalNotification.set_is_read true (row self)))
         (approval_notifications st))
      st
  else st.

(** [ApprovalNotificationView] and [MarkNotificationReadView]. *)
Module ApprovalNotificationView.
Definition get_queryset (user : User.t) (query_params : gmap string string) (st : Store)
  : gmap nat ApprovalNotification.t :=
  let queryset :=
    objects_filter
      (λ n, bool_decide (ApprovalNotification.recipient n = User.id user))
      (approval_notifications st) in
  let queryset :=
    match query_params !! "is_read" with
    | Some is_read =>
      objects_filter
        (λ n, bool_decide (ApprovalNotification.is_read n
                           = bool_decide (str_lower is_read = "true")))
        queryset
    | None => queryset
    end in
  let notification_type := query_params !! "type" in
  if truthy notification_type then
    objects_filter
      (λ n, bool_decide (Some (ApprovalNotification.notification_type n)
                         = notification_type))
      queryset
  else queryset.
End ApprovalNotificationView.

Module MarkNotificationReadView.
Definition update (user : User.t) (k : nat) (st : Store)
  : (Exn + Response string) * Store :=
  match objects_get k (approval_notifications st) with
  | None => (inl Http404, st)
  | Some notification =>
    if negb (bool_decide
               (ApprovalNotification.recipient (row notification) = User.id user)) then
      (inr (ErrorResponse 403 "You can only mark your own notifications as read"), st)
    else
      (inr (DataResponse 200 "Notification marked as read"),
       mark_as_read notification st)
  end.
End MarkNotificationReadView.

(** ** The [django_server/] tree: the document views *)

(** How looking up the object of a request can fail: the permission class
    refuses, no row or several rows match, or the code raises
    [AttributeError]. *)
Inductive lookup_failure :=
| permission_denied
| not_found
| multiple_objects
| attribute_error.

(** [DocumentPermission] ([django_server/documents/views.py]);
    [request.user] is [None] for a request that is not authenticated. *)
Module DocumentPermission.
Definition has_permission (method : string) (user : option User.t) : bool :=
  if bool_decide (method ∈ SAFE_METHODS) then true
  else if bool_decide (method = "POST") then
    match user with
    | Some user => User.can_create_documents user
    | None => false
    end
  else bool_decide (is_Some user).

(** [None]: the method called raises [AttributeError]. *)
Definition has_object_permission (method : string) (user : option User.t)
    (obj : Document.t) : option bool :=
  if bool_decide (method ∈ SAFE_METHODS) then Document.can_user_view obj user
  else Document.can_user_edit obj <$> user.
End DocumentPermission.

(** [instance.delete()] of a document: versions and approval requests
    refer to it with [on_delete=CASCADE], notifications refer to approval
    requests with [on_delete=CASCADE]. *)
Definition delete_document (instance : Instance Document.t) (st : Store) : Store :=
  let requests :=
    objects_filter
      (λ r, negb (bool_decide (ApprovalRequest.document r = pk instance)))
      (approval_requests st) in
  MkStore
    (delete (pk instance) (documents st))
    (objects_filter
       (λ v, negb (bool_decide (DocumentVersion.document v = pk instance)))
       (document_versions st))
    requests
    (objects_filter
       (λ n, bool_decide (is_Some (requests !! ApprovalNotification.approval_request n)))
       (approval_notifications st))
    (activity_logs st).

(** [DocumentViewSet]; requests carry no query parameters, and form
    fields, tags and metadata are left out. *)
Module DocumentViewSet.
Definition get_queryset (user : option User.t) (st : Store) : gmap nat Document.t :=
  match user with
  | None =>
    objects_filter
      (λ d, Document.is_public d && bool_decide (Document.status d = LIVE))
      (documents st)
  | Some user =>
    if bool_decide (User.role user = PUBLIC) then
      objects_filter
        (λ d, Document.is_public d && bool_decide (Document.status d = LIVE)
              || bool_decide (Document.author d = User.id user))
        (documents st)
    else documents st
  end.

(** [get_object]: the permission to make the request, the row of the
    queryset with the slug of the URL, the permission on that row. *)
Definition get_object (method : string) (user : option User.t) (slug : string)
    (st : Store) : lookup_failure + Instance Document.t :=
  if negb (DocumentPermission.has_permission method user) then inl permission_denied
  else
    match get_unique
            (objects_filter (λ d, bool_decide (Document.slug d = slug))
               (get_queryset user st)) with
    | inl MultipleObjectsReturned => inl multiple_objects
    | inl _ => inl not_found
    | inr obj =>
      match DocumentPermission.has_object_permission method user (row obj) with
      | Some true => inr obj
      | Some false => inl permission_denied
      | None => inl attribute_error
      end
    end.

(** [perform_create]: [serializer.save(author=self.request.user)]. *)
Definition perform_create `{!Slugify, !diff_match_patch} (user : User.t)
    (vd : DocumentCreateSerializer.validated_data) (st : Store)
  : option (Instance Document.t * Store) :=
  '(document, st) ←
    DocumentCreateSerializer.create
      (DocumentCreateSerializer.mk
         (DocumentCreateSerializer.title vd) (DocumentCreateSerializer.category vd)
         (DocumentCreateSerializer.content_markdown vd)
         (DocumentCreateSerializer.is_public vd)
         (DocumentCreateSerializer.has_fillable_fields vd) (User.id user)) st;
  Some (document,
        create_activity_log
          (ActivityLog.mk (User.id user) "DOCUMENT_CREATED" "Document" (pk document)) st).

Definition destroy (user : User.t) (slug : string) (st : Store)
  : (lookup_failure + Response unit) * Store :=
  match get_object "DELETE" (Some user) slug st with
  | inl e => (inl e, st)
  | inr instance =>
    if negb (bool_decide (Document.status (row instance) ∈ [PENDING; ARCHIVED])) then
      (inr (ErrorResponse 400 "Can only delete draft or archived documents"), st)
    else
      let st :=
        create_activity_log
          (ActivityLog.mk (User.id user) "DOCUMENT_DELETED" "Document" (pk instance))
          st in
      (inr (DataResponse 204 ()), delete_document instance st)
  end.

(** The [versions] action. *)
Definition versions_action (user : option User.t) (slug : string) (st : Store)
  : lookup_failure + Response (gmap nat DocumentVersion.t) :=
  match get_object "GET" user slug st with
  | inl e => inl e
  | inr document => inr (DataResponse 200 (versions document st))
  end.

End DocumentViewSet.

End DjangoServer.

(** * Users and activity logs of [django_server/]

    [django_server/accounts/views.py]; [request.user] is the user of the
    request, [users] the table of users. *)
Module Accounts.

Module IsOwnerOrAdmin.
Definition has_object_permission (user : DjangoServer.User.t)
    (obj : Instance DjangoServer.UserRow.t) : bool :=
  if bool_decide (DjangoServer.User.role user = ADMIN) then true
  else bool_decide (pk obj = DjangoServer.User.id user).
End IsOwnerOrAdmin.

Module UserListView.
Definition get_queryset (user : DjangoServer.User.t) (query_params : gmap string string)
    (users : gmap nat DjangoServer.UserRow.t) : gmap nat DjangoServer.UserRow.t :=
  let queryset := users in
  let role := query_params !! "role" in
  let queryset :=
    if truthy role then
      objects_filter (λ u, bool_decide (Some (DjangoServer.UserRow.role u) = role))
        queryset
    else queryset in
  let queryset :=
    match query_params !! "active" with
    | Some is_active =>
      objects_filter
        (λ u, bool_decide (DjangoServer.UserRow.is_active u
                           = bool_decide (str_lower is_active = "true")))
        queryset
    | None => queryset
    end in
  if negb (bool_decide (DjangoServer.User.role user = ADMIN)) then
    objects_filter DjangoServer.UserRow.is_active queryset
  else queryset.
End UserListView.

Module UserDetailView.
Definition get_object (user : DjangoServer.User.t) (k : nat)
    (users : gmap nat DjangoServer.UserRow.t) : Exn + Instance DjangoServer.UserRow.t :=
  match objects_get k users with
  | None => inl Http404
  | Some obj =>
    if IsOwnerOrAdmin.has_object_permission user obj then inr obj
    else inl (PermissionDenied "You do not have permission to perform this action.")
  end.

(** [destroy]: the account is switched off, not deleted. *)
Definition destroy (user : DjangoServer.User.t) (k : nat)
    (users : gmap nat DjangoServer.UserRow.t) (st : DjangoServer.Store)
  : (Exn + Response unit) * gmap nat DjangoServer.UserRow.t * DjangoServer.Store :=
  match get_object user k users with
  | inl e => (inl e, users, st)
  | inr instance =>
    if bool_decide (pk instance = DjangoServer.User.id user) then
      (inr (ErrorResponse 400 "You cannot delete your own account"), users, st)
    else
      let instance :=
        MkInstance (pk instance)
          (DjangoServer.UserRow.set_is_active false (row instance)) in
      let users := save instance users in
      let st :=
        DjangoServer.create_activity_log
          (DjangoServer.ActivityLog.mk (DjangoServer.User.id user) "USER_DEACTIVATED"
             "User" (pk instance)) st in
      (inr (DataResponse 204 ()), users, st)
  end.
End UserDetailView.

(** [ActivityLogView]; requests carry no [user_id] and no [entity_id]
    parameter. *)
Module ActivityLogView.
Definition get_queryset (user : DjangoServer.User.t) (query_params : gmap string string)
    (st : DjangoServer.Store) : gmap nat DjangoServer.ActivityLog.t :=
  let queryset := DjangoServer.activity_logs st in
  let queryset :=
    if negb (bool_decide (DjangoServer.User.role user = ADMIN)) then
      objects_filter
        (λ l, bool_decide (DjangoServer.ActivityLog.user l = DjangoServer.User.id user))
        queryset
    else queryset in
  let entity_type := query_params !! "entity_type" in
  let queryset :=
    if truthy entity_type then
      objects_filter
        (λ l, bool_decide (Some (DjangoServer.ActivityLog.entity_type l) = entity_type))
        queryset
    else queryset in
  let action := query_params !! "action" in
  if truthy action then
    objects_filter (λ l, bool_decide (Some (DjangoServer.ActivityLog.action l) = action))
      queryset
  else queryset.
End ActivityLogView.

End Accounts.

(** * Categories

    Both trees keep the categories of documents in a tree
    ([apps/categories/models.py], [django_server/documents/models.py]): a
    row names its parent.  Descriptions and time stamps are left out. *)
Module Categories.

Module DocumentCategory.
Record t := mk {
  name : string;
  parent : option nat;
  required_approval_role : string
}.

Definition set_name (v : string) (c : t) : t :=
  mk v (parent c) (required_approval_role c).
Definition set_parent (v : option nat) (c : t) : t :=
  mk (name c) v (required_approval_role c).
Definition set_required_approval_role (v : string) (c : t) : t :=
  mk (name c) (parent c) v.

(** Reading [self.parent] loads the row the foreign key names and raises
    [DoesNotExist] when there is none.  In the results, [None] stands for
    a computation that needs more than [fuel] nested calls or turns of
    its loop. *)

(** The property [full_path] of [apps/]. *)
Fixpoint full_path (fuel : nat) (table : gmap nat t) (self : t) : option (Exn + string) :=
  match fuel with
  | 0 => None
  | S fuel =>
    match parent self with
    | Some p =>
      match table !! p with
      | Some self_parent =>
        match full_path fuel table self_parent with
        | Some (inr path) => Some (inr (path +:+ " > " +:+ name self))
        | other => other
        end
      | None => Some (inl DoesNotExist)
      end
    | None => Some (inr (name self))
    end
  end.

(** [get_ancestors] of [apps/]: [while current: ...]. *)
Fixpoint ancestors_loop (fuel : nat) (table : gmap nat t) (current : option nat)
    (ancestors : list (Instance t)) : option (Exn + list (Instance t)) :=
  match fuel with
  | 0 => None
  | S fuel =>
    match current with
    | Some p =>
      match table !! p with
      | Some r => ancestors_loop fuel table (parent r) (ancestors ++ [MkInstance p r])
      | None => Some (inl DoesNotExist)
      end
    | None => Some (inr ancestors)
    end
  end.

Definition get_ancestors (fuel : nat) (table : gmap nat t) (self : t)
  : option (Exn + list (Instance t)) :=
  ancestors_loop fuel table (parent self) [].

(** [get_full_path] of [django_server/]: [while parent: path.insert(0, ...)],
    then [' > '.join(path)]. *)
Fixpoint path_loop (fuel : nat) (table : gmap nat t) (current : option nat)
    (path : list string) : option (Exn + list string) :=
  match fuel with
  | 0 => None
  | S fuel =>
    match current with
    | Some p =>
      match table !! p with
      | Some r => path_loop fuel table (parent r) (name r :: path)
      | None => Some (inl DoesNotExist)
      end
    | None => Some (inr path)
    end
  end.

Definition get_full_path (fuel : nat) (table : gmap nat t) (self : t)
  : option (Exn + string) :=
  match path_loop fuel table (parent self) [name self] with
  | Some (inr path) => Some (inr (String.concat " > " path))
  | Some (inl e) => Some (inl e)
  | None => None
  end.
End DocumentCategory.

(** The tables the category views read and write: the categories and, of
    every document, the [category] column. *)
Record Store := MkStore {
  categories : gmap nat DocumentCategory.t;
  documents : gmap nat nat
}.

(** [self.documents] and [self.children] of the category [k]. *)
Definition documents_of (k : nat) (st : Store) : gmap nat nat :=
  objects_filter (λ c, bool_decide (c = k)) (documents st).

Definition children (k : nat) (st : Store) : gmap nat DocumentCategory.t :=
  objects_filter (λ c, bool_decide (DocumentCategory.parent c = Some k)) (categories st).

(** [instance.delete()] of a category: the row goes, with the rows the
    collector finds through the foreign keys that name it, its children
    and (in [apps/], where the key is [CASCADE]) its documents.  The views
    call it only when there are neither. *)
Definition delete_category (k : nat) (st : Store) : Store :=
  MkStore
    (objects_filter (λ c, negb (bool_decide (DocumentCategory.parent c = Some k)))
       (delete k (categories st)))
    (objects_filter (λ c, negb (bool_decide (c = k))) (documents st)).

(** [apps/categories/serializers.py]; the data are the validated fields,
    a parent being the instance the field has looked up. *)
Module DocumentCategoryCreateSerializer.
Record validated_data := mk {
  name : string;
  parent : option (Instance DocumentCategory.t);
  required_approval_role : option string
}.

(** [validate_parent]: on creation [self.instance] is [None]. *)
Definition validate_parent (value : option (Instance DocumentCategory.t))
  : Exn + option (Instance DocumentCategory.t) :=
  inr value.

Definition create (vd : validated_data) (st : Store)
  : Instance DocumentCategory.t * Store :=
  let '(instance, table) :=
    objects_create
      (DocumentCategory.mk (name vd) (pk <$> parent vd)
         (default PRESIDENT (required_approval_role vd)))
      (categories st) in
  (instance, MkStore table (documents st)).
End DocumentCategoryCreateSerializer.

Module DocumentCategoryUpdateSerializer.
Record validated_data := mk {
  name : option string;
  parent : option (option (Instance DocumentCategory.t));
  required_approval_role : option string
}.

(** [validate_parent]: two instances are equal when their keys are. *)
Definition validate_parent (instance : Instance DocumentCategory.t)
    (value : option (Instance DocumentCategory.t))
  : Exn + option (Instance DocumentCategory.t) :=
  match value with
  | Some v =>
    if bool_decide (pk v = pk instance) then
      inl (ValidationError "A category cannot be its own parent")
    else inr value
  | None => inr value
  end.

Definition update (instance : Instance DocumentCategory.t) (vd : validated_data)
    (st : Store) : Instance DocumentCategory.t * Store :=
  let c := row instance in
  let c := from_option (λ v, DocumentCategory.set_name v c) c (name vd) in
  let c := from_option (λ v, DocumentCategory.set_parent (pk <$> v) c) c (parent vd) in
  let c := from_option (λ v, DocumentCategory.set_required_approval_role v c) c
             (required_approval_role vd) in
  let instance := MkInstance (pk instance) c in
  (instance, MkStore (save instance (categories st)) (documents st)).
End DocumentCategoryUpdateSerializer.

(** [apps/categories/views.py]. *)
Module DocumentCategoryListView.
Definition perform_create (user : Apps.User.t)
    (vd : DocumentCategoryCreateSerializer.validated_data) (st : Store)
  : (Exn + Instance DocumentCategory.t) * Store :=
  if negb (Apps.User.can_manage_users user) then
    (inl (PermissionDenied "You don't have permission to create categories"), st)
  else
    let '(instance, st) := DocumentCategoryCreateSerializer.create vd st in
    (inr instance, st).
End DocumentCategoryListView.

Module DocumentCategoryDetailView.
Definition get_object (k : nat) (st : Store) : Exn + Instance DocumentCategory.t :=
  match objects_get k (categories st) with
  | Some instance => inr instance
  | None => inl Http404
  end.

Definition perform_update (user : Apps.User.t) (instance : Instance DocumentCategory.t)
    (vd : DocumentCategoryUpdateSerializer.validated_data) (st : Store)
  : (Exn + Instance DocumentCategory.t) * Store :=
  if negb (Apps.User.can_manage_users user) then
    (inl (PermissionDenied "You don't have permission to update categories"), st)
  else
    let '(instance, st) := DocumentCategoryUpdateSerializer.update instance vd st in
    (inr instance, st).

(** [UpdateModelMixin.update]: the object, the validation of the fields,
    [perform_update]. *)
Definition update (user : Apps.User.t) (k : nat)
    (vd : DocumentCategoryUpdateSerializer.validated_data) (st : Store)
  : (Exn + Response (Instance DocumentCategory.t)) * Store :=
  match get_object k st with
  | inl e => (inl e, st)
  | inr instance =>
    let validated :=
      match DocumentCategoryUpdateSerializer.parent vd with
      | Some value =>
        match DocumentCategoryUpdateSerializer.validate_parent instance value with
        | inl e => inl e
        | inr _ => inr vd
        end
      | None => inr vd
      end in
    match validated with
    | inl e => (inl e, st)
    | inr vd =>
      match perform_update user instance vd st with
      | (inl e, st) => (inl e, st)
      | (inr instance, st) => (inr (DataResponse 200 instance), st)
      end
    end
  end.

(** [perform_destroy]; every test looks the object up again. *)
Definition perform_destroy (user : Apps.User.t) (k : nat) (st : Store)
  : (Exn + unit) * Store :=
  if negb (Apps.User.can_manage_users user) then
    (inl (PermissionDenied "You don't have permission to delete categories"), st)
  else
    match get_object k st with
    | inl e => (inl e, st)
    | inr obj =>
      if exists_ (documents_of (pk obj) st) then
        (inl (PermissionDenied "Cannot delete category with existing documents"), st)
      else
        match get_object k st with
        | inl e => (inl e, st)
        | inr obj =>
          if exists_ (children (pk obj) st) then
            (inl (PermissionDenied "Cannot delete category with child categories"), st)
          else
            match get_object k st with
            | inl e => (inl e, st)
            | inr obj => (inr (), delete_category (pk obj) st)
            end
        end
    end.

(** [DestroyModelMixin.destroy]. *)
Definition destroy (user : Apps.User.t) (k : nat) (st : Store)
  : (Exn + Response unit) * Store :=
  match get_object k st with
  | inl e => (inl e, st)
  | inr _ =>
    match perform_destroy user k st with
    | (inl e, st) => (inl e, st)
    | (inr _, st) => (inr (DataResponse 204 ()), st)
    end
  end.
End DocumentCategoryDetailView.

(** [DocumentCategoryViewSet.destroy] of [django_server/documents/views.py],
    for a request that is authenticated. *)
Module DocumentCategoryViewSet.
Definition destroy (k : nat) (st : Store) : (Exn + Response unit) * Store :=
  match DocumentCategoryDetailView.get_object k st with
  | inl e => (inl e, st)
  | inr instance =>
    if exists_ (documents_of (pk instance) st) then
      (inr (ErrorResponse 400 "Cannot delete category with existing documents"), st)
    else if exists_ (children (pk instance) st) then
      (inr (ErrorResponse 400 "Cannot delete category with subcategories"), st)
    else
      match DocumentCategoryDetailView.get_object k st with
      | inl e => (inl e, st)
      | inr instance => (inr (DataResponse 204 ()), delete_category (pk instance) st)
      end
  end.
End DocumentCategoryViewSet.

End Categories.

(** * The fillable PDF of [django_server/]

    [PDFGenerator.generate_fillable_pdf] of
    [django_server/documents/pdf_utils.py] draws on a reportlab canvas; the
    model keeps the calls it makes, in order.  Coordinates are points on a
    letter page, 612 by 792; the colours and border styles of the widgets,
    which are constants, are left out. *)
Module PdfUtils.

(** The columns of [FormField] the generator reads; [options] is what
    [get_options_list] returns. *)
Module FormField.
Record t := mk {
  field_name : string;
  field_type : string;
  required : bool;
  placeholder_text : string;
  options : list string
}.
End FormField.

Inductive canvas_call :=
| setFont (name : string) (size : Z)
| setFillColor (colour : string)
| drawCentredString (x y : Z) (text : string)
| drawString (x y : Z) (text : string)
| textfield (name tooltip : string) (x y width height : Z) (multiline : bool)
| checkbox (name tooltip : string) (x y size : Z)
| choice (name tooltip value : string) (x y width height : Z) (options : list string)
| line (x1 y1 x2 y2 : Z)
| showPage
| save_canvas.

(** Python's [a or b] on strings. *)
Definition str_or (a b : string) : string := if bool_decide (a = "") then b else a.

(** One turn of the loop over the form fields: the calls it makes and the
    [y_position] it leaves. *)
Definition draw_field (field : FormField.t) (y_position : Z) : list canvas_call * Z :=
  let label :=
    [setFont "Helvetica" 12;
     drawString 72 y_position
       (FormField.field_name field +:+ (if FormField.required field then "*" else ""))] in
  let y_position := (y_position - 25)%Z in
  let '(widget, y_position) :=
    if bool_decide (FormField.field_type field = "TEXT") then
      ([textfield (FormField.field_name field)
          (str_or (FormField.placeholder_text field) (FormField.field_name field))
          72 y_position 400 20 false],
       (y_position - 30)%Z)
    else if bool_decide (FormField.field_type field = "TEXTAREA") then
      ([textfield (FormField.field_name field)
          (str_or (FormField.placeholder_text field) (FormField.field_name field))
          72 (y_position - 60) 400 80 true],
       (y_position - 90)%Z)
    else if bool_decide (FormField.field_type field = "CHECKBOX") then
      ([checkbox (FormField.field_name field)
          (str_or (FormField.placeholder_text field) (FormField.field_name field))
          72 y_position 15;
        drawString 92 y_position
          (str_or (FormField.placeholder_text field) "Check if applicable")],
       (y_position - 30)%Z)
    else if bool_decide (FormField.field_type field = "SELECT") then
      let options := FormField.options field in
      ((match options with
        | [] => []
        | first_option :: _ =>
          [choice (FormField.field_name field)
             (str_or (FormField.placeholder_text field) (FormField.field_name field))
             first_option 72 y_position 400 20 options]
        end),
       (y_position - 30)%Z)
    else if bool_decide (FormField.field_type field = "DATE") then
      ([textfield (FormField.field_name field) "Enter date (MM/DD/YYYY)"
          72 y_position 120 20 false],
       (y_position - 30)%Z)
    else if bool_decide (FormField.field_type field = "SIGNATURE") then
      ([drawString 72 y_position "Signature:"; line 150 y_position 400 y_position],
       (y_position - 30)%Z)
    else ([], y_position) in
  if bool_decide (y_position < 100)%Z then
    (label ++ widget ++ [showPage], 692%Z)
  else (label ++ widget, y_position).

(** [for field in ...: ...], from the [y_position] the loop starts with. *)
Fixpoint draw_fields (fields : list FormField.t) (y_position : Z) : list canvas_call :=
  match fields with
  | [] => []
  | field :: fields =>
    let '(calls, y_position) := draw_field field y_position in
    calls ++ draw_fields fields y_position
  end.

(** [generate_fillable_pdf]; [category], [author] and [date] are the
    full path of the category, the full name of the author and the
    formatted day of creation, [now] the formatted time of the call, and
    [fields] the rows of [form_fields.all().order_by('position')]. *)
Definition generate_fillable_pdf (title category author date now : string)
    (fields : list FormField.t) : list canvas_call :=
  [setFont "Helvetica-Bold" 24;
   setFillColor "#1976d2";
   drawCentredString 306 692 title;
   setFont "Helvetica" 10;
   setFillColor "black";
   drawString 72 642 ("Category: " +:+ category);
   drawString 72 622 ("Author: " +:+ author);
   drawString 72 602 ("Date: " +:+ date)]
  ++ draw_fields fields 562
  ++ [setFont "Helvetica" 9;
      setFillColor "grey";
      drawCentredString 306 50 ("Generated on " +:+ now);
      save_canvas].
End PdfUtils.

(** ** The conditions the specification states, and sample data *)

(** The role comparison of the specification: administrators and the
    president always, board members for categories whose required role is
    board member, committee member or volunteer. *)
Definition may_approve (role required : string) : Prop :=
  role = ADMIN ∨ role = PRESIDENT ∨
  (role = BOARD_MEMBER ∧ required ∈ [BOARD_MEMBER; COMMITTEE_MEMBER; VOLUNTEER]).

(** A document a user can reach only through a view-all role. *)
Definition hidden_from (user : Apps.User.t) (d : Apps.Document.t) : Prop :=
  Apps.Document.is_public d = false ∧ Apps.Document.author d ≠ Apps.User.id user.



(** The same for the requests of [django_server/]. *)
Definition ds_at_most_one_pending (requests : gmap nat DjangoServer.ApprovalRequest.t)
  : Prop :=
  ∀ i j r1 r2,
    requests !! i = Some r1 → requests !! j = Some r2 →
    DjangoServer.ApprovalRequest.document r1 = DjangoServer.ApprovalRequest.document r2 →
    DjangoServer.ApprovalRequest.status r1 = PENDING →
    DjangoServer.ApprovalRequest.status r2 = PENDING →
    i = j.

(** The chain of ancestors of a category, nearest first, when following
    the parents ends at a root. *)
Inductive ancestor_chain (table : gmap nat Categories.DocumentCategory.t)
  : option nat → list (Instance Categories.DocumentCategory.t) → Prop :=
| chain_root : ancestor_chain table None []
| chain_step p r l :
    table !! p = Some r →
    ancestor_chain table (Categories.DocumentCategory.parent r) l →
    ancestor_chain table (Some p) (MkInstance p r :: l).

(** Following the parents from the category [k] leads to the category
    [a]. *)
Inductive reaches (table : gmap nat Categories.DocumentCategory.t) : nat → nat → Prop :=
| reaches_here k : reaches table k k
| reaches_parent k r p a :
    table !! k = Some r → Categories.DocumentCategory.parent r = Some p →
    reaches table p a → reaches table k a.

(** Every parent is a stored category. *)
Definition parents_stored (table : gmap nat Categories.DocumentCategory.t) : Prop :=
  ∀ k r p, table !! k = Some r → Categories.DocumentCategory.parent r = Some p →
           is_Some (table !! p).

(** Every parent and every category of a document is a stored category. *)
Definition references_stored (st : Categories.Store) : Prop :=
  parents_stored (Categories.categories st) ∧
  ∀ d c, Categories.documents st !! d = Some c → is_Some (Categories.categories st !! c).







(** The steps of the approval workflow of [apps/]: one call of one of its
    four entry points. *)
Inductive apps_step `{!Slugify} : Apps.Store → Apps.Store → Prop :=
| step_request_approval user document_id notes st :
    apps_step st (Apps.request_approval user document_id notes st).2
| step_create user document_id notes st :
    apps_step st (Apps.ApprovalRequestListView.create user document_id notes st).2
| step_update user k data st :
    apps_step st (Apps.ApprovalRequestDetailView.update user k data st).2
| step_destroy user k st :
    apps_step st (Apps.ApprovalRequestDetailView.destroy user k st).2.

(** How one step may change the table of approval requests: not at all;
    by a new pending request for a document that has none; or by
    rewriting a pending request, for the same document. *)
Definition requests_change (rq rq' : gmap nat Apps.ApprovalRequest.t) : Prop :=
  rq' = rq ∨
  (∃ k r,
     rq !! k = None ∧ Apps.ApprovalRequest.status r = PENDING ∧
     (∀ j r', rq !! j = Some r' →
              Apps.ApprovalRequest.document r' = Apps.ApprovalRequest.document r →
              Apps.ApprovalRequest.status r' ≠ PENDING) ∧
     rq' = <[k := r]> rq) ∨
  (∃ k r r',
     rq !! k = Some r ∧ Apps.ApprovalRequest.status r = PENDING ∧
     Apps.ApprovalRequest.document r' = Apps.ApprovalRequest.document r ∧
     Apps.ApprovalRequest.status r' ∈ [PENDING; APPROVED; REJECTED; CANCELLED] ∧
     rq' = <[k := r']> rq).

(** The slug with the integer suffix [-n]. *)
Definition suffixed (base : string) (n : nat) : string := base +:+ "-" +:+ pretty n.

(** A slug some row of the table carries. *)
Definition slug_used {A} (slug_of : A → string) (table : gmap nat A) (s : string) : Prop :=
  ∃ k r, table !! k = Some r ∧ slug_of r = s.

(** No two rows of the table carry the same slug. *)
Definition unique_slugs {A} (slug_of : A → string) (table : gmap nat A) : Prop :=
  ∀ i j r1 r2,
    table !! i = Some r1 → table !! j = Some r2 → slug_of r1 = slug_of r2 → i = j.

(** The rows [generate_slug] compares with: all of them, without the row
    [exclude_id] names when it is given and not zero. *)
Definition compared_rows {A} (table : gmap nat A) (exclude : option nat) : gmap nat A :=
  match exclude with
  | Some k => if bool_decide (k = 0) then table else delete k table
  | None => table
  end.





Module Samples.

(** Stand-ins for the third-party functions, to run the model. *)
Definition slugify_id : Slugify := {| slugify := λ s, s |}.

Definition renderer : Apps.PDFGenerator :=
  {| Apps.generate_simple_pdf := λ d, inr ("%PDF-simple " +:+ Apps.Document.title d);
     Apps.generate_fillable_pdf := λ d, inr ("%PDF-form " +:+ Apps.Document.title d) |}.

Definition broken_renderer : Apps.PDFGenerator :=
  {| Apps.generate_simple_pdf := λ _, inl "no font";
     Apps.generate_fillable_pdf := λ _, inl "no font" |}.

(** Users of the [django_server/] tree. *)
Definition ds_carol : DjangoServer.User.t :=
  DjangoServer.User.mk 7 COMMITTEE_MEMBER "Carol Committee".
Definition ds_vera : DjangoServer.User.t :=
  DjangoServer.User.mk 8 VOLUNTEER "Vera Volunteer".
Definition ds_paul : DjangoServer.User.t :=
  DjangoServer.User.mk 9 PRESIDENT "Paul President".

Definition ds_newsletter : DjangoServer.Document.t :=
  DjangoServer.Document.mk "Newsletter" "newsletter"
    (DjangoServer.DocumentCategory.mk "News" VOLUNTEER)
    UNDER_REVIEW "Spring issue" false false 8 None DtNull.

Definition ds_request (status : string) : DjangoServer.ApprovalRequest.t :=
  DjangoServer.ApprovalRequest.mk 1 8 status "" None DtNull "MEDIUM" DtNull.

Definition ds_loaded (status : string) : DjangoServer.LoadedRequest :=
  DjangoServer.MkLoaded (MkInstance 1 (ds_request status)) (MkInstance 1 ds_newsletter).

Definition ds_store (status : string) : DjangoServer.Store :=
  DjangoServer.MkStore {[ 1 := ds_newsletter ]} ∅ {[ 1 := ds_request status ]} ∅ ∅.

(** A document not saved yet, titled like the slug of the newsletter. *)
Definition ds_reprint : DjangoServer.Document.t :=
  DjangoServer.Document.mk "newsletter" ""
    (DjangoServer.DocumentCategory.mk "News" VOLUNTEER)
    PENDING "Spring issue, reprinted" false false 8 None DtNull.

(** Users and documents of the [apps/] tree. *)
Definition alice : Apps.User.t := Apps.User.mk 1 ADMIN "Alice Admin".
Definition vic : Apps.User.t := Apps.User.mk 2 VOLUNTEER "Vic Volunteer".
Definition wendy : Apps.User.t := Apps.User.mk 3 VOLUNTEER "Wendy Volunteer".

Definition governance : Apps.DocumentCategory.t :=
  Apps.DocumentCategory.mk "Governance" PRESIDENT.

(** A private draft by Vic, a public notice by Alice, a private memo by
    Alice. *)
Definition draft : Apps.Document.t :=
  Apps.Document.mk "Bylaws" "bylaws" governance PENDING "Article 1" false false
    2 None DtNull.
Definition notice : Apps.Document.t :=
  Apps.Document.mk "Notice" "notice" governance LIVE "Meeting on Monday" true true
    1 None DtNull.
Definition memo : Apps.Document.t :=
  Apps.Document.mk "Memo" "memo" governance PENDING "Budget" false false
    1 None DtNull.

Definition library : Apps.Store :=
  Apps.MkStore {[ 1 := draft; 2 := notice; 3 := memo ]} ∅ ∅.

(** The draft under review: Vic has asked for its approval. *)
Definition submitted : Apps.Document.t := Apps.Document.set_status UNDER_REVIEW draft.

Definition vic_request : Apps.ApprovalRequest.t :=
  Apps.ApprovalRequest.mk 1 (Some 2) PENDING (Some "") None DtNull.



(** The draft with three stored versions. *)
Definition archive : Apps.Store :=
  Apps.MkStore {[ 1 := draft; 2 := notice; 3 := memo ]}
    {[ 1 := Apps.DocumentVersion.mk 1 1 "Article 1" (Some "") None 2;
       2 := Apps.DocumentVersion.mk 1 2 "Article 2" (Some "") None 2;
       3 := Apps.DocumentVersion.mk 1 3 "Article 3" (Some "") None 2 ]}
    ∅.



(** The office after the request has been approved. *)
Definition settled : Apps.Store :=
  Apps.MkStore
    {[ 1 := Apps.Document.set_status APPROVED submitted; 2 := notice; 3 := memo ]} ∅
    {[ 1 := Apps.ApprovalRequest.set_status APPROVED vic_request ]}.


(** The members of the association, as rows of the table of users of
    [django_server/]. *)
Definition ds_members : gmap nat DjangoServer.UserRow.t :=
  {[ 7 := DjangoServer.UserRow.mk "carol@example.org" "Carol" "Committee"
            COMMITTEE_MEMBER true false;
     8 := DjangoServer.UserRow.mk "vera@example.org" "Vera" "Volunteer"
            VOLUNTEER true false;
     9 := DjangoServer.UserRow.mk "paul@example.org" "Paul" "President"
            PRESIDENT true true;
     10 := DjangoServer.UserRow.mk "bob@example.org" "Bob" "Board"
            BOARD_MEMBER true false ]}.

(** The payload of a rejecting review. *)
Definition ds_rejection : DjangoServer.ApprovalReviewSerializer.data :=
  DjangoServer.ApprovalReviewSerializer.mk "reject" (Some "Too long").


(** A desk with the newsletter and a leaflet Vera is drafting, their first
    versions, a pending request for the newsletter, a cancelled one for
    the leaflet, and the notifications sent to Paul. *)
Definition ds_leaflet : DjangoServer.Document.t :=
  DjangoServer.Document.mk "Leaflet" "leaflet"
    (DjangoServer.DocumentCategory.mk "News" VOLUNTEER)
    PENDING "Open day" false false 8 None DtNull.

Definition ds_desk : DjangoServer.Store :=
  DjangoServer.MkStore
    {[ 1 := ds_newsletter; 2 := ds_leaflet ]}
    {[ 1 := DjangoServer.DocumentVersion.mk 1 1 "Spring issue" (Some "Initial version")
              None 8;
       2 := DjangoServer.DocumentVersion.mk 2 1 "Open day" (Some "Initial version")
              None 8 ]}
    {[ 1 := ds_request PENDING;
       2 := DjangoServer.ApprovalRequest.mk 2 8 CANCELLED "" None DtNull "MEDIUM" DtNull ]}
    {[ 1 := DjangoServer.ApprovalNotification.mk 1 9 "REQUESTED" "Newsletter" false;
       2 := DjangoServer.ApprovalNotification.mk 2 9 "REQUESTED" "Leaflet" false ]}
    ∅.


(** Three shelves of categories, one below the other, and a document on
    the lowest. *)
Definition policies : Categories.DocumentCategory.t :=
  Categories.DocumentCategory.mk "Policies" None PRESIDENT.
Definition finance : Categories.DocumentCategory.t :=
  Categories.DocumentCategory.mk "Finance" (Some 1) BOARD_MEMBER.
Definition budgets : Categories.DocumentCategory.t :=
  Categories.DocumentCategory.mk "Budgets" (Some 2) BOARD_MEMBER.

Definition shelves : Categories.Store :=
  Categories.MkStore {[ 1 := policies; 2 := finance; 3 := budgets ]} {[ 1 := 3 ]}.

End Samples.

(** * Properties *)

(** ** Querysets *)

Lemma exists_filter_true {A} (p : A → bool) (table : gmap nat A) :
  exists_ (objects_filter p table) = true ↔ ∃ k r, table !! k = Some r ∧ p r = true.
Proof.
  unfold exists_, objects_filter. rewrite bool_decide_eq_true, map_size_ne_0_lookup.
  split.
  - intros (k & [r Hr]). apply map_lookup_filter_Some in Hr as [Hk Hp]. eauto.
  - intros (k & r & Hk & Hp). exists k, r. by apply map_lookup_filter_Some.
Qed.

Lemma exists_filter_false {A} (p : A → bool) (table : gmap nat A) :
  exists_ (objects_filter p table) = false ↔ ∀ k r, table !! k = Some r → p r = false.
Proof.
  rewrite <- not_true_iff_false, exists_filter_true. split.
  - intros H k r Hk. destruct (p r) eqn:E; [|done]. exfalso. eauto.
  - intros H (k & r & Hk & Hp). rewrite (H _ _ Hk) in Hp. done.
Qed.

Lemma fresh_key_unused {A} (table : gmap nat A) :
  table !! fresh ({[0]} ∪ dom table) = None.
Proof.
  apply not_elem_of_dom. intros H.
  apply (is_fresh ({[0]} ∪ dom table)). set_solver.
Qed.

Lemma objects_create_pk_fresh {A} (r : A) (table : gmap nat A) :
  table !! pk (objects_create r table).1 = None.
Proof. apply fresh_key_unused. Qed.

Lemma objects_create_table {A} (r : A) (table : gmap nat A) :
  (objects_create r table).2 = <[pk (objects_create r table).1 := r]> table.
Proof. done. Qed.

Lemma objects_create_row {A} (r : A) (table : gmap nat A) :
  row (objects_create r table).1 = r.
Proof. done. Qed.

Lemma objects_get_Some {A} (k : nat) (table : gmap nat A) (i : Instance A) :
  objects_get k table = Some i ↔ pk i = k ∧ table !! k = Some (row i).
Proof.
  unfold objects_get. destruct (table !! k) as [r|] eqn:E; simpl.
  - split.
    + intros [= <-]. done.
    + intros [<- [= ->]]. by destruct i.
  - split; [done|]. by intros [_ ?].
Qed.

Lemma objects_filter_lookup_Some {A} (p : A → bool) (table : gmap nat A) k r :
  objects_filter p table !! k = Some r ↔ table !! k = Some r ∧ p r = true.
Proof. unfold objects_filter. by rewrite map_lookup_filter_Some. Qed.

Lemma objects_filter_lookup_None {A} (p : A → bool) (table : gmap nat A) k :
  objects_filter p table !! k = None ↔ ∀ r, table !! k = Some r → p r = false.
Proof.
  unfold objects_filter. rewrite map_lookup_filter_None. split.
  - intros [H|H] r Hr; [congruence|]. specialize (H r Hr). simpl in H.
    by destruct (p r).
  - intros H. destruct (table !! k) as [r|] eqn:E; [right|by left].
    intros r' [= <-]. simpl. rewrite (H r); done.
Qed.

Lemma objects_filter_delete_hidden {A} (p : A → bool) (table : gmap nat A) k :
  (∀ r, table !! k = Some r → p r = false) →
  objects_filter p (delete k table) = objects_filter p table.
Proof.
  intros H. unfold objects_filter. rewrite map_filter_delete.
  apply delete_id. by apply objects_filter_lookup_None.
Qed.

Lemma objects_filter_insert_hidden {A} (p : A → bool) (table : gmap nat A) k r' :
  (∀ r, table !! k = Some r → p r = false) → p r' = false →
  objects_filter p (<[k := r']> table) = objects_filter p table.
Proof.
  intros H H'. apply map_eq. intros j.
  destruct (objects_filter p table !! j) as [x|] eqn:E.
  - apply objects_filter_lookup_Some in E as [E Hp].
    apply objects_filter_lookup_Some. split; [|done].
    destruct (decide (k = j)) as [->|Hne].
    + rewrite (H _ E) in Hp. done.
    + by rewrite lookup_insert_ne.
  - apply objects_filter_lookup_None. intros r Hr.
    destruct (decide (k = j)) as [->|Hne].
    + rewrite lookup_insert_eq in Hr. by injection Hr as <-.
    + rewrite lookup_insert_ne in Hr by done.
      by eapply objects_filter_lookup_None in E.
Qed.

(** ** Who may approve (C5) *)

Lemma apps_can_be_approved_by_iff (d : Apps.Document.t) (u : Apps.User.t) :
  Apps.Document.can_be_approved_by d u = true ↔
  may_approve (Apps.User.role u)
    (Apps.DocumentCategory.required_approval_role (Apps.Document.category d)).
Proof.
  unfold Apps.Document.can_be_approved_by, may_approve.
  repeat case_bool_decide; simpl; intuition congruence.
Qed.

Lemma apps_can_be_reviewed_by_iff (l : Apps.LoadedRequest) (u : Apps.User.t) :
  Apps.can_be_reviewed_by l u = true ↔
  may_approve (Apps.User.role u)
    (Apps.DocumentCategory.required_approval_role
       (Apps.Document.category (row (Apps.request_document l)))).
Proof.
  unfold Apps.can_be_reviewed_by, may_approve.
  repeat case_bool_decide; simpl; intuition congruence.
Qed.

Lemma ds_can_user_review_iff (l : DjangoServer.LoadedRequest) (u : DjangoServer.User.t) :
  DjangoServer.can_user_review l u = true ↔
  DjangoServer.ApprovalRequest.status (row (DjangoServer.request l)) = PENDING ∧
  DjangoServer.User.rank
    (DjangoServer.DocumentCategory.required_approval_role
       (DjangoServer.Document.category (row (DjangoServer.request_document l))))
  ≤ DjangoServer.User.rank (DjangoServer.User.role u).
Proof.
  unfold DjangoServer.can_user_review, DjangoServer.User.has_role.
  repeat case_bool_decide; simpl; intuition congruence.
Qed.

(** C5, as stated, fails on [django_server]'s [can_user_review]: a
    committee member may review a pending request for a document whose
    category requires the volunteer role, although the role is none of
    administrator, president or board member. *)
Lemma C5_committee_member_reviews :
  DjangoServer.User.role Samples.ds_carol = COMMITTEE_MEMBER ∧
  DjangoServer.can_user_review (Samples.ds_loaded PENDING) Samples.ds_carol = true ∧
  ¬ may_approve (DjangoServer.User.role Samples.ds_carol)
      (DjangoServer.DocumentCategory.required_approval_role
         (DjangoServer.Document.category
            (row (DjangoServer.request_document (Samples.ds_loaded PENDING))))).
Proof.
  split; [done|]. split; [by vm_compute|].
  unfold may_approve. simpl. intros [H|[H|[H _]]]; discriminate H.
Qed.

(** C5, amended: the two checks of [apps/] ([Document.can_be_approved_by]
    and [ApprovalRequest.can_be_reviewed_by]) return True exactly for an
    administrator, the president, or a board member when the category
    requires board member, committee member or volunteer; the check of
    [django_server/] ([can_user_review]) returns True exactly when the
    request is pending and the user's rank in the hierarchy
    PUBLIC < VOLUNTEER < COMMITTEE_MEMBER < BOARD_MEMBER < PRESIDENT < ADMIN
    is at least the rank of the category's required role. *)
Theorem C5_approval_permission_checks :
  (∀ (d : Apps.Document.t) (u : Apps.User.t),
     Apps.Document.can_be_approved_by d u = true ↔
     may_approve (Apps.User.role u)
       (Apps.DocumentCategory.required_approval_role (Apps.Document.category d))) ∧
  (∀ (l : Apps.LoadedRequest) (u : Apps.User.t),
     Apps.can_be_reviewed_by l u = true ↔
     may_approve (Apps.User.role u)
       (Apps.DocumentCategory.required_approval_role
          (Apps.Document.category (row (Apps.request_document l))))) ∧
  (∀ (l : DjangoServer.LoadedRequest) (u : DjangoServer.User.t),
     DjangoServer.can_user_review l u = true ↔
     DjangoServer.ApprovalRequest.status (row (DjangoServer.request l)) = PENDING ∧
     DjangoServer.User.rank
       (DjangoServer.DocumentCategory.required_approval_role
          (DjangoServer.Document.category (row (DjangoServer.request_document l))))
     ≤ DjangoServer.User.rank (DjangoServer.User.role u)) ∧
  DjangoServer.User.rank PUBLIC = 0 ∧ DjangoServer.User.rank VOLUNTEER = 1 ∧
  DjangoServer.User.rank COMMITTEE_MEMBER = 2 ∧ DjangoServer.User.rank BOARD_MEMBER = 3 ∧
  DjangoServer.User.rank PRESIDENT = 4 ∧ DjangoServer.User.rank ADMIN = 5.
Proof.
  split; [exact apps_can_be_approved_by_iff|].
  split; [exact apps_can_be_reviewed_by_iff|].
  split; [exact ds_can_user_review_iff|].
  by vm_compute.
Qed.

(** ** What a user without the view-all roles can see (C9) *)

Lemma visible_false_iff (user : Apps.User.t) (d : Apps.Document.t) :
  Apps.Document.is_public d
  || bool_decide (Apps.Document.author d = Apps.User.id user) = false ↔
  hidden_from user d.
Proof.
  unfold hidden_from. rewrite orb_false_iff, bool_decide_eq_false. done.
Qed.

Lemma can_view_all_documents_false (user : Apps.User.t) :
  Apps.User.role user ≠ ADMIN → Apps.User.role user ≠ PRESIDENT →
  Apps.User.role user ≠ BOARD_MEMBER →
  Apps.User.can_view_all_documents user = false.
Proof.
  intros H1 H2 H3. unfold Apps.User.can_view_all_documents.
  apply bool_decide_eq_false. rewrite !elem_of_cons, elem_of_nil. tauto.
Qed.

(** C9: for a user whose role is none of ADMIN, PRESIDENT, BOARD_MEMBER,
    every document in the result of the list query, of the detail query
    and of [get_user_accessible_documents] is public or authored by the
    user; the detail lookup finds only such documents; and deleting a
    document that is neither public nor the user's, or replacing it by
    another such document, leaves the three query results unchanged. *)
Theorem C9_restricted_user_sees_public_or_own
    (user : Apps.User.t) (st : Apps.Store)
    (Hadmin : Apps.User.role user ≠ ADMIN)
    (Hpresident : Apps.User.role user ≠ PRESIDENT)
    (Hboard : Apps.User.role user ≠ BOARD_MEMBER) :
  (∀ k d,
     Apps.DocumentListView.get_queryset user st !! k = Some d
     ∨ Apps.DocumentDetailView.get_queryset user st !! k = Some d
     ∨ Apps.get_user_accessible_documents user st !! k = Some d →
     Apps.Document.is_public d = true ∨ Apps.Document.author d = Apps.User.id user) ∧
  (∀ k i,
     Apps.DocumentDetailView.get_object user k st = inr i →
     Apps.Document.is_public (row i) = true
     ∨ Apps.Document.author (row i) = Apps.User.id user) ∧
  (∀ k d st',
     Apps.documents st !! k = Some d → hidden_from user d →
     st' = Apps.with_documents (delete k (Apps.documents st)) st
     ∨ (∃ d', hidden_from user d' ∧
              st' = Apps.with_documents (<[k := d']> (Apps.documents st)) st) →
     Apps.DocumentListView.get_queryset user st'
       = Apps.DocumentListView.get_queryset user st ∧
     Apps.DocumentDetailView.get_queryset user st'
       = Apps.DocumentDetailView.get_queryset user st ∧
     Apps.get_user_accessible_documents user st'
       = Apps.get_user_accessible_documents user st).
Proof.
  pose proof (can_view_all_documents_false user Hadmin Hpresident Hboard) as Hv.
  unfold Apps.DocumentDetailView.get_object, Apps.DocumentListView.get_queryset,
    Apps.DocumentDetailView.get_queryset, Apps.get_user_accessible_documents.
  rewrite Hv. split; [|split].
  - intros k d H.
    assert (objects_filter
      (λ d, Apps.Document.is_public d
            || bool_decide (Apps.Document.author d = Apps.User.id user))
      (Apps.documents st) !! k = Some d) as Hk by tauto.
    apply objects_filter_lookup_Some in Hk as [_ Hk].
    apply orb_true_iff in Hk as [Hk|Hk]; [by left|right].
    by apply bool_decide_eq_true in Hk.
  - intros k i H.
    destruct (objects_get k _) as [j|] eqn:E; [|done]. injection H as ->.
    apply objects_get_Some in E as [_ E].
    apply objects_filter_lookup_Some in E as [_ Hk].
    apply orb_true_iff in Hk as [Hk|Hk]; [by left|right].
    by apply bool_decide_eq_true in Hk.
  - intros k d st' Hk Hd Hst'.
    assert (objects_filter
      (λ d, Apps.Document.is_public d
            || bool_decide (Apps.Document.author d = Apps.User.id user))
      (Apps.documents st')
      = objects_filter
      (λ d, Apps.Document.is_public d
            || bool_decide (Apps.Document.author d = Apps.User.id user))
      (Apps.documents st)) as Heq.
    { destruct Hst' as [->|(d' & Hd' & ->)]; simpl.
      - apply objects_filter_delete_hidden. intros r Hr.
        rewrite Hk in Hr. injection Hr as <-. by apply visible_false_iff.
      - apply objects_filter_insert_hidden.
        + intros r Hr. rewrite Hk in Hr. injection Hr as <-.
          by apply visible_false_iff.
        + by apply visible_false_iff. }
    by rewrite Heq.
Qed.

(** C9 at work: Wendy, a volunteer, sees the same list after Vic's private
    draft is deleted. *)
Lemma C9_restricted_user_witness :
  Apps.DocumentListView.get_queryset Samples.wendy
    (Apps.with_documents (delete 1 (Apps.documents Samples.library)) Samples.library)
  = Apps.DocumentListView.get_queryset Samples.wendy Samples.library.
Proof.
  assert (Apps.User.role Samples.wendy ≠ ADMIN) as H1 by discriminate.
  assert (Apps.User.role Samples.wendy ≠ PRESIDENT) as H2 by discriminate.
  assert (Apps.User.role Samples.wendy ≠ BOARD_MEMBER) as H3 by discriminate.
  destruct (C9_restricted_user_sees_public_or_own
              Samples.wendy Samples.library H1 H2 H3) as (_ & _ & H).
  apply (H 1 Samples.draft).
  - reflexivity.
  - split; [reflexivity|discriminate].
  - left. reflexivity.
Defined.

(** ** PDF export (C7) *)

Lemma can_user_access_document_false (user : Apps.User.t) (d : Apps.Document.t) :
  Apps.can_user_access_document user d = false ↔
  Apps.User.can_view_all_documents user = false ∧ hidden_from user d.
Proof.
  unfold Apps.can_user_access_document, hidden_from.
  destruct (Apps.User.can_view_all_documents user), (Apps.Document.is_public d);
    simpl; try case_bool_decide; intuition congruence.
Qed.

(** C7, as stated, fails: for a document without fillable fields that the
    user cannot access, the fillable export answers 403, not 400; and when
    the renderer raises, an accessible document yields 500, not a PDF. *)
Lemma C7_forbidden_before_bad_request :
  Apps.documents Samples.library !! 3 = Some Samples.memo ∧
  Apps.Document.has_fillable_fields Samples.memo = false ∧
  http_status
    (@Apps.pdf_views.generate_fillable_pdf Samples.renderer
       Samples.wendy 3 Samples.library) = 403 ∧
  Apps.can_user_access_document Samples.wendy Samples.notice = true ∧
  Apps.Document.has_fillable_fields Samples.notice = true ∧
  http_status
    (@Apps.pdf_views.generate_fillable_pdf Samples.broken_renderer
       Samples.wendy 2 Samples.library) = 500.
Proof. repeat split; by vm_compute. Qed.

(** C7, amended: for an existing document, both exports answer 403 when
    the user cannot access it (no view-all role, document not public,
    user not its author); otherwise the fillable export answers 400 when
    [has_fillable_fields] is False; otherwise, when the renderer returns
    the PDF, the answer is that PDF as an attachment named
    [<slug>_fillable.pdf] (fillable) or [<slug>.pdf] (plain), and when the
    renderer raises the answer is 500. *)
Theorem C7_pdf_export `{!Apps.PDFGenerator}
    (user : Apps.User.t) (document_id : nat) (st : Apps.Store) (d : Apps.Document.t)
    (Hdoc : Apps.documents st !! document_id = Some d) :
  (Apps.can_user_access_document user d = false ↔
   Apps.User.can_view_all_documents user = false ∧ hidden_from user d) ∧
  (Apps.can_user_access_document user d = false →
   http_status (Apps.pdf_views.generate_fillable_pdf user document_id st) = 403 ∧
   http_status (Apps.pdf_views.generate_pdf user document_id st) = 403) ∧
  (Apps.can_user_access_document user d = true →
   (Apps.Document.has_fillable_fields d = false →
    http_status (Apps.pdf_views.generate_fillable_pdf user document_id st) = 400) ∧
   (Apps.Document.has_fillable_fields d = true →
    ∀ pdf, Apps.generate_fillable_pdf d = inr pdf →
    Apps.pdf_views.generate_fillable_pdf user document_id st
    = inr (DataResponse 200
        (Apps.MkPdfFile pdf "application/pdf"
           (Apps.Document.slug d +:+ "_fillable.pdf")))) ∧
   (∀ pdf, Apps.generate_simple_pdf d = inr pdf →
    Apps.pdf_views.generate_pdf user document_id st
    = inr (DataResponse 200
        (Apps.MkPdfFile pdf "application/pdf" (Apps.Document.slug d +:+ ".pdf")))) ∧
   (Apps.Document.has_fillable_fields d = true →
    ∀ e, Apps.generate_fillable_pdf d = inl e →
    http_status (Apps.pdf_views.generate_fillable_pdf user document_id st) = 500) ∧
   (∀ e, Apps.generate_simple_pdf d = inl e →
    http_status (Apps.pdf_views.generate_pdf user document_id st) = 500)).
Proof.
  unfold Apps.pdf_views.generate_fillable_pdf, Apps.pdf_views.generate_pdf,
    objects_get.
  rewrite Hdoc. simpl.
  split; [apply can_user_access_document_false|].
  split.
  - intros ->. done.
  - intros ->. simpl. repeat split.
    + intros ->. done.
    + intros -> pdf ->. done.
    + intros pdf ->. done.
    + intros -> e ->. done.
    + intros e ->. done.
Qed.

(** C7 at work: Wendy exports the public notice as a fillable PDF. *)
Lemma C7_pdf_export_witness :
  @Apps.pdf_views.generate_fillable_pdf Samples.renderer
    Samples.wendy 2 Samples.library
  = inr (DataResponse 200
      (Apps.MkPdfFile "%PDF-form Notice" "application/pdf" "notice_fillable.pdf")).
Proof.
  destruct (@C7_pdf_export Samples.renderer
              Samples.wendy 2 Samples.library Samples.notice eq_refl)
    as (_ & _ & H).
  destruct (H eq_refl) as (_ & Hpdf & _).
  exact (Hpdf eq_refl _ eq_refl).
Defined.

(** ** Version numbers (C2) *)

Global Instance desc_by_total {A} (key : A → nat) : Total (desc_by key).
Proof. intros x y. unfold desc_by. lia. Qed.

Global Instance desc_by_trans {A} (key : A → nat) : Transitive (desc_by key).
Proof. intros x y z. unfold desc_by. lia. Qed.









Lemma apps_update_keeps_versions `{!Slugify} user instance vd st :
  Apps.DocumentUpdateSerializer.content_markdown vd = None →
  Apps.document_versions (Apps.DocumentUpdateSerializer.update user instance vd st).2
  = Apps.document_versions st.
Proof. intros Hc. unfold Apps.DocumentUpdateSerializer.update. by rewrite Hc. Qed.







(** ** Slug generation (C10) *)

Lemma string_length_app (s1 s2 : string) :
  String.length (s1 +:+ s2) = String.length s1 + String.length s2.
Proof.
  induction s1 as [|a s1 IH]; [done|].
  change (S (String.length (s1 +:+ s2)) = S (String.length s1 + String.length s2)).
  by rewrite IH.
Qed.

Lemma suffixed_ne_base (base : string) (n : nat) : suffixed base n ≠ base.
Proof.
  intros H. apply (f_equal String.length) in H.
  unfold suffixed in H. rewrite !string_length_app in H. simpl in H. lia.
Qed.

Global Instance suffixed_inj (base : string) : Inj (=) (=) (suffixed base).
Proof.
  intros n m H. unfold suffixed in H.
  apply (inj (String.app base)), (inj (String.app "-")) in H.
  by apply (inj pretty) in H.
Qed.

(** What the loop returns is not taken; it is the slug it started from, or
    a suffixed slug all of whose predecessors from [counter] on are taken. *)
Lemma slug_loop_sound taken base fuel slug counter s :
  slug_loop taken base fuel slug counter = Some s →
  taken s = false ∧
  (s = slug ∨
   taken slug = true ∧
   ∃ n, counter ≤ n ∧ s = suffixed base n ∧
        ∀ j, counter ≤ j → j < n → taken (suffixed base j) = true).
Proof.
  revert slug counter. induction fuel as [|fuel IH]; intros slug counter; [done|].
  simpl. destruct (taken slug) eqn:Ht.
  - intros H. apply IH in H as [Hs H]. split; [done|]. right. split; [done|].
    destruct H as [->|(Hc & n & Hn & -> & Hall)].
    + exists counter. split; [done|]. split; [done|]. intros j ??. lia.
    + exists n. split; [lia|]. split; [done|].
      intros j Hj1 Hj2. destruct (decide (j = counter)) as [->|]; [done|].
      apply Hall; lia.
  - intros [= <-]. split; [done|]. by left.
Qed.

(** The loop returns within [fuel] tests unless the slug it starts from and
    the next [fuel - 1] suffixed slugs are all taken. *)
Lemma slug_loop_is_Some taken base fuel slug counter :
  ¬ (taken slug = true ∧
     ∀ j, counter ≤ j → j < counter + (fuel - 1) → taken (suffixed base j) = true) →
  0 < fuel →
  is_Some (slug_loop taken base fuel slug counter).
Proof.
  revert slug counter. induction fuel as [|fuel IH]; intros slug counter H Hf; [lia|].
  simpl. destruct (taken slug) eqn:Ht; [|by eexists].
  destruct fuel as [|fuel].
  - exfalso. apply H. split; [done|]. intros j ??. lia.
  - apply IH; [|lia]. intros [Hc Hall]. apply H. split; [done|].
    intros j Hj1 Hj2. destruct (decide (j = counter)) as [->|]; [done|].
    apply Hall; simpl in *; lia.
Qed.

(** More fuel does not change a result. *)
Lemma slug_loop_more_fuel taken base fuel fuel' slug counter s :
  slug_loop taken base fuel slug counter = Some s → fuel ≤ fuel' →
  slug_loop taken base fuel' slug counter = Some s.
Proof.
  revert fuel' slug counter.
  induction fuel as [|fuel IH]; intros fuel' slug counter; [done|].
  intros H Hle. destruct fuel' as [|fuel']; [lia|].
  simpl in *. destruct (taken slug); [|done]. apply IH; [done|lia].
Qed.

(** Pigeonhole: when every taken slug is one of [taken_slugs], the start
    slug and the suffixed slugs [base-1 .. base-n], [n] the number of
    taken slugs, cannot all be taken. *)
Lemma not_all_taken (taken : string → bool) (taken_slugs : list string) base :
  (∀ s, taken s = true → s ∈ taken_slugs) →
  ¬ (taken base = true ∧
     ∀ j, 1 ≤ j → j < 1 + length taken_slugs → taken (suffixed base j) = true).
Proof.
  intros Hin [Hb Hall].
  assert (NoDup (base :: (suffixed base <$> seq 1 (length taken_slugs)))) as Hnd.
  { apply NoDup_cons. split.
    - intros ([|?] & H & _)%list_elem_of_fmap; by apply symmetry, suffixed_ne_base in H.
    - apply NoDup_fmap_2; [apply _|apply NoDup_seq]. }
  assert (base :: (suffixed base <$> seq 1 (length taken_slugs)) ⊆+ taken_slugs) as Hsub.
  { apply NoDup_submseteq; [done|]. intros x [->|Hx]%elem_of_cons; [by apply Hin|].
    apply list_elem_of_fmap in Hx as (j & -> & Hj). apply elem_of_seq in Hj.
    apply Hin, Hall; lia. }
  apply submseteq_length in Hsub. simpl in Hsub.
  rewrite length_fmap, length_seq in Hsub. lia.
Qed.

Lemma slug_loop_on_table {A} (slug_of : A → string) (table : gmap nat A)
    (taken : string → bool) (base : string) (fuel : nat) :
  (∀ s, taken s = true ↔ slug_used slug_of table s) →
  size table < fuel →
  ∃ s,
    slug_loop taken base fuel base 1 = Some s ∧
    ¬ slug_used slug_of table s ∧
    (¬ slug_used slug_of table base → s = base) ∧
    (slug_used slug_of table base →
     ∃ n, 1 ≤ n ∧ s = suffixed base n ∧
          ∀ j, 1 ≤ j → j < n → slug_used slug_of table (suffixed base j)).
Proof.
  intros Htaken Hfuel.
  destruct (slug_loop_is_Some taken base fuel base 1) as [s Hs]; [|lia|].
  { intros [Hb Hall].
    apply (not_all_taken taken (slug_of <$> rows table) base).
    - intros x (k & r & Hk & <-)%Htaken. apply list_elem_of_fmap. exists r.
      split; [done|]. unfold rows. apply list_elem_of_fmap. exists (k, r).
      split; [done|]. by apply elem_of_map_to_list.
    - split; [done|]. intros j Hj1 Hj2. apply Hall; [done|].
      unfold rows in Hj2. rewrite !length_fmap, length_map_to_list in Hj2. lia. }
  exists s. split; [done|].
  apply slug_loop_sound in Hs as [Hfree Hs].
  split; [|split].
  - rewrite <- Htaken. by rewrite Hfree.
  - intros Hb. destruct Hs as [->|[Hb' _]]; [done|]. by apply Htaken in Hb'.
  - intros Hb. destruct Hs as [->|[_ (n & Hn & -> & Hall)]].
    + apply Htaken in Hb. congruence.
    + exists n. split; [done|]. split; [done|].
      intros j ??. apply Htaken. by apply Hall.
Qed.

(** [django_server]'s [generate_unique_slug] returns once it has more fuel
    than there are documents; the slug is unused, it is [slugify(title)]
    when that is unused, and otherwise [slugify(title)-n] for the smallest
    [n >= 1] that is unused. *)
Lemma ds_generate_unique_slug_spec `{!Slugify} (fuel : nat)
    (self : DjangoServer.Document.t) (table : gmap nat DjangoServer.Document.t) :
  size table < fuel →
  ∃ s,
    DjangoServer.generate_unique_slug fuel self table = Some s ∧
    ¬ slug_used DjangoServer.Document.slug table s ∧
    (¬ slug_used DjangoServer.Document.slug table
         (slugify (DjangoServer.Document.title self)) →
     s = slugify (DjangoServer.Document.title self)) ∧
    (slug_used DjangoServer.Document.slug table
       (slugify (DjangoServer.Document.title self)) →
     ∃ n, 1 ≤ n ∧ s = suffixed (slugify (DjangoServer.Document.title self)) n ∧
          ∀ j, 1 ≤ j → j < n →
               slug_used DjangoServer.Document.slug table
                 (suffixed (slugify (DjangoServer.Document.title self)) j)).
Proof.
  intros Hfuel. unfold DjangoServer.generate_unique_slug.
  apply slug_loop_on_table; [|done].
  intros s. rewrite exists_filter_true. unfold slug_used.
  by setoid_rewrite bool_decide_eq_true.
Qed.

Lemma size_compared_rows {A} (table : gmap nat A) (exclude : option nat) :
  size (compared_rows table exclude) ≤ size table.
Proof.
  unfold compared_rows. destruct exclude as [k|]; [|done].
  case_bool_decide; [done|]. apply map_subseteq_size, delete_subseteq.
Qed.

(** [apps]'s [generate_slug]: the same, among the rows it compares with. *)
Lemma apps_generate_slug_spec `{!Slugify} {A} (slug_of : A → string) (fuel : nat)
    (title : string) (table : gmap nat A) (exclude : option nat) :
  size table < fuel →
  ∃ s,
    Apps.generate_slug slug_of fuel title table exclude = Some s ∧
    ¬ slug_used slug_of (compared_rows table exclude) s ∧
    (¬ slug_used slug_of (compared_rows table exclude) (slugify title) →
     s = slugify title) ∧
    (slug_used slug_of (compared_rows table exclude) (slugify title) →
     ∃ n, 1 ≤ n ∧ s = suffixed (slugify title) n ∧
          ∀ j, 1 ≤ j → j < n →
               slug_used slug_of (compared_rows table exclude)
                 (suffixed (slugify title) j)).
Proof.
  intros Hfuel. unfold Apps.generate_slug.
  apply slug_loop_on_table.
  - intros s.
    assert (match exclude with
            | Some k =>
              if bool_decide (k = 0)
              then objects_filter (λ r, bool_decide (slug_of r = s)) table
              else exclude_id k (objects_filter (λ r, bool_decide (slug_of r = s)) table)
            | None => objects_filter (λ r, bool_decide (slug_of r = s)) table
            end
            = objects_filter (λ r, bool_decide (slug_of r = s))
                (compared_rows table exclude)) as ->.
    { unfold compared_rows, exclude_id, objects_filter.
      destruct exclude as [k|]; [|done]. case_bool_decide; [done|].
      by rewrite map_filter_delete. }
    rewrite exists_filter_true. unfold slug_used.
    by setoid_rewrite bool_decide_eq_true.
  - pose proof (size_compared_rows table exclude). lia.
Qed.

(** [Document.save] of [django_server] always completes: the loop it may
    run has enough fuel. *)
Lemma ds_fill_slug_is_Some `{!Slugify} (d : DjangoServer.Document.t)
    (table : gmap nat DjangoServer.Document.t) :
  ∃ d', DjangoServer.fill_slug d table = Some d' ∧
        ∀ v, DjangoServer.Document.set_slug v d' = DjangoServer.Document.set_slug v d.
Proof.
  unfold DjangoServer.fill_slug. case_bool_decide; [|by eexists].
  destruct (ds_generate_unique_slug_spec (S (size table)) d table) as (s & -> & _);
    [lia|].
  by eexists.
Qed.

Lemma ds_save_document_is_Some `{!Slugify} (self : Instance DjangoServer.Document.t)
    (st : DjangoServer.Store) :
  ∃ d',
    DjangoServer.save_document self st
    = Some (MkInstance (pk self) d',
            DjangoServer.with_documents (<[pk self := d']> (DjangoServer.documents st)) st)
    ∧ ∀ v, DjangoServer.Document.set_slug v d'
           = DjangoServer.Document.set_slug v (row self).
Proof.
  unfold DjangoServer.save_document.
  destruct (ds_fill_slug_is_Some (row self) (DjangoServer.documents st))
    as (d' & -> & Hd').
  by exists d'.
Qed.







(** ** Stored diffs (C3) *)





(** ** The diff between two versions (C6) *)

Lemma get_unique_inr {A} (q : gmap nat A) (i : Instance A) :
  get_unique q = inr i → q !! pk i = Some (row i).
Proof.
  unfold get_unique.
  destruct (map_to_list q) as [|[k r] [|]] eqn:E; intros [= <-].
  apply elem_of_map_to_list. rewrite E. left.
Qed.

Lemma archive_diff_1_2 :
  Apps.document_diff Samples.vic 1 1 2 Samples.archive
  = inr (DataResponse 200
      (Apps.MkDiffData (Apps.MkVersionData 1 1 "Article 1")
         (Apps.MkVersionData 2 2 "Article 2") true)).
Proof. by vm_compute. Qed.

Lemma archive_diff_1_3 :
  Apps.document_diff Samples.vic 1 1 3 Samples.archive
  = inr (DataResponse 200
      (Apps.MkDiffData (Apps.MkVersionData 1 1 "Article 1")
         (Apps.MkVersionData 3 3 "Article 3") true)).
Proof. by vm_compute. Qed.

(** C6, as stated, fails on [document_diff] of [apps/]: comparing version
    1 with version 2 and with version 3, whose contents differ from one
    another, yields the same [diff], the flag True. *)
Lemma C6_apps_diff_is_a_flag :
  Apps.document_diff Samples.vic 1 1 2 Samples.archive
  = inr (DataResponse 200
      (Apps.MkDiffData (Apps.MkVersionData 1 1 "Article 1")
         (Apps.MkVersionData 2 2 "Article 2") true)) ∧
  Apps.document_diff Samples.vic 1 1 3 Samples.archive
  = inr (DataResponse 200
      (Apps.MkDiffData (Apps.MkVersionData 1 1 "Article 1")
         (Apps.MkVersionData 3 3 "Article 3") true)).
Proof. split; [exact archive_diff_1_2|exact archive_diff_1_3]. Qed.

(** C6, amended: when [document_diff] of [apps/] answers with data, the
    status is 200, the data carry the contents of the two versions of the
    document, and [diff] is the boolean that is True exactly when the two
    contents are different strings; no diff library is involved.  The
    [diff] action of [django_server/] answers with [diff_html], the diff
    library's [diff_prettyHtml] of [diff_main] of the contents of the
    document's versions numbered [v1] and [v2]. *)
Theorem C6_version_diff `{!diff_match_patch} :
  (∀ user document_id version1_id version2_id st status r,
     Apps.document_diff user document_id version1_id version2_id st
     = inr (DataResponse status r) →
     status = 200 ∧
     (∃ v1 v2,
        Apps.document_versions st !! version1_id = Some v1 ∧
        Apps.document_versions st !! version2_id = Some v2 ∧
        Apps.DocumentVersion.document v1 = document_id ∧
        Apps.DocumentVersion.document v2 = document_id ∧
        Apps.vd_content (Apps.version1 r) = Apps.DocumentVersion.content_markdown v1 ∧
        Apps.vd_content (Apps.version2 r) = Apps.DocumentVersion.content_markdown v2) ∧
     (Apps.diff r = true ↔
      Apps.vd_content (Apps.version1 r) ≠ Apps.vd_content (Apps.version2 r))) ∧
  (∀ document n1 n2 st status r,
     DjangoServer.diff document (Some n1) (Some n2) st = inr (DataResponse status r) →
     status = 200 ∧
     DjangoServer.versions document st !! pk (DjangoServer.version1 r)
     = Some (row (DjangoServer.version1 r)) ∧
     DjangoServer.versions document st !! pk (DjangoServer.version2 r)
     = Some (row (DjangoServer.version2 r)) ∧
     DjangoServer.DocumentVersion.version_number (row (DjangoServer.version1 r)) = n1 ∧
     DjangoServer.DocumentVersion.version_number (row (DjangoServer.version2 r)) = n2 ∧
     DjangoServer.diff_html r
     = diff_prettyHtml
         (diff_main
            (DjangoServer.DocumentVersion.content_markdown (row (DjangoServer.version1 r)))
            (DjangoServer.DocumentVersion.content_markdown
               (row (DjangoServer.version2 r))))).
Proof.
  split.
  - intros user document_id version1_id version2_id st status r.
    unfold Apps.document_diff, Apps.get_version_or_404, objects_get.
    destruct (Apps.documents st !! document_id) as [d|]; [simpl|done].
    destruct (negb _); [done|].
    destruct (objects_filter _ _ !! version1_id) as [v1|] eqn:E1; [simpl|done].
    destruct (objects_filter _ _ !! version2_id) as [v2|] eqn:E2; [simpl|done].
    intros [= <- <-].
    apply objects_filter_lookup_Some in E1 as [E1 D1].
    apply objects_filter_lookup_Some in E2 as [E2 D2].
    apply bool_decide_eq_true in D1, D2. simpl in D1, D2.
    split; [done|]. split.
    + exists v1, v2. done.
    + simpl. rewrite negb_true_iff, bool_decide_eq_false. done.
  - intros document n1 n2 st status r. unfold DjangoServer.diff.
    destruct (DjangoServer.get_version document n1 st) as [[]|v1] eqn:E1; try done.
    destruct (DjangoServer.get_version document n2 st) as [[]|v2] eqn:E2; try done.
    intros [= <- <-]. simpl.
    apply get_unique_inr, objects_filter_lookup_Some in E1 as [E1 N1].
    apply get_unique_inr, objects_filter_lookup_Some in E2 as [E2 N2].
    apply bool_decide_eq_true in N1, N2. done.
Qed.

(** C6 at work: the flag for versions 1 and 2 of the draft. *)
Lemma C6_version_diff_witness :
  Apps.diff
    (Apps.MkDiffData (Apps.MkVersionData 1 1 "Article 1")
       (Apps.MkVersionData 2 2 "Article 2") true) = true ↔
  "Article 1" ≠ "Article 2".
Proof.
  pose proof (@C6_version_diff
                {| Diffs := string; diff_main := λ a b, b; diff_prettyHtml := id |})
    as [H _].
  exact (proj2 (proj2 (H Samples.vic 1 1 2 Samples.archive 200 _ archive_diff_1_2))).
Defined.

(** ** Approving a request (C1) *)





(** ** Requesting approval (C4) *)

Lemma pending_request_exists_true (document : nat) (st : Apps.Store) :
  Apps.pending_request_exists document st = true ↔
  ∃ k r, Apps.approval_requests st !! k = Some r ∧
         Apps.ApprovalRequest.document r = document ∧
         Apps.ApprovalRequest.status r = PENDING.
Proof.
  unfold Apps.pending_request_exists. rewrite exists_filter_true.
  setoid_rewrite andb_true_iff. by setoid_rewrite bool_decide_eq_true.
Qed.

Lemma pending_request_exists_false (document : nat) (st : Apps.Store) :
  Apps.pending_request_exists document st = false ↔
  ∀ k r, Apps.approval_requests st !! k = Some r →
         Apps.ApprovalRequest.document r = document →
         Apps.ApprovalRequest.status r ≠ PENDING.
Proof.
  rewrite <- not_true_iff_false, pending_request_exists_true. split.
  - intros H k r Hk Hd Hs. apply H. eauto.
  - intros H (k & r & Hk & Hd & Hs). by eapply H.
Qed.


Lemma requests_change_transition rq rq' k r :
  requests_change rq rq' → rq !! k = Some r →
  ∃ r', rq' !! k = Some r' ∧
        (r' = r ∨
         Apps.ApprovalRequest.status r = PENDING ∧
         Apps.ApprovalRequest.status r' ∈ [PENDING; APPROVED; REJECTED; CANCELLED]).
Proof.
  intros [->|[(k' & x & Hk' & _ & _ & ->)|(k' & x & x' & Hk' & Hs & _ & Hs' & ->)]] Hk.
  - exists r. by split; [|left].
  - exists r. split; [|by left]. rewrite lookup_insert_ne; [done|]. congruence.
  - destruct (decide (k' = k)) as [->|Hne].
    + exists x'. rewrite lookup_insert_eq. split; [done|]. right.
      rewrite Hk in Hk'. injection Hk' as ->. done.
    + exists r. rewrite lookup_insert_ne by done. by split; [|left].
Qed.

Lemma apps_get_object_inr user k st l :
  Apps.ApprovalRequestDetailView.get_object user k st = inr l →
  pk (Apps.request l) = k ∧
  Apps.approval_requests st !! k = Some (row (Apps.request l)).
Proof.
  unfold Apps.ApprovalRequestDetailView.get_object, Apps.load_request.
  destruct (Apps.ApprovalRequestDetailView.get_queryset user st !! k) as [r|] eqn:E;
    [|done].
  destruct (objects_get _ _) as [d|]; [|done]. intros [= <-]. split; [done|]. simpl.
  unfold Apps.ApprovalRequestDetailView.get_queryset in E.
  destruct (Apps.User.can_approve_documents user); [done|].
  by apply objects_filter_lookup_Some in E as [E _].
Qed.

Lemma apps_approve_requests `{!Slugify} self reviewer notes st :
  ∃ r',
    Apps.approval_requests (Apps.approve self reviewer notes st).2
    = <[pk (Apps.request self) := r']> (Apps.approval_requests st) ∧
    Apps.ApprovalRequest.status r' = APPROVED ∧
    Apps.ApprovalRequest.document r'
    = Apps.ApprovalRequest.document (row (Apps.request self)).
Proof. unfold Apps.approve. destruct (truthy notes); by eexists. Qed.

Lemma apps_reject_requests `{!Slugify} self reviewer notes st :
  ∃ r',
    Apps.approval_requests (Apps.reject self reviewer notes st).2
    = <[pk (Apps.request self) := r']> (Apps.approval_requests st) ∧
    Apps.ApprovalRequest.status r' = REJECTED ∧
    Apps.ApprovalRequest.document r'
    = Apps.ApprovalRequest.document (row (Apps.request self)).
Proof. unfold Apps.reject. destruct (truthy notes); by eexists. Qed.

Lemma apps_cancel_requests `{!Slugify} self user st :
  Apps.approval_requests (Apps.cancel self user st).2 = Apps.approval_requests st ∨
  ∃ r',
    Apps.approval_requests (Apps.cancel self user st).2
    = <[pk (Apps.request self) := r']> (Apps.approval_requests st) ∧
    Apps.ApprovalRequest.status r' = CANCELLED ∧
    Apps.ApprovalRequest.document r'
    = Apps.ApprovalRequest.document (row (Apps.request self)).
Proof. unfold Apps.cancel. destruct (_ || _); [right; by eexists|by left]. Qed.

Lemma apps_request_approval_change `{!Slugify} user document_id notes st :
  requests_change (Apps.approval_requests st)
    (Apps.approval_requests (Apps.request_approval user document_id notes st).2).
Proof.
  unfold Apps.request_approval, objects_get.
  destruct (Apps.documents st !! document_id) as [d|]; [simpl|by left].
  destruct (negb _); [by left|].
  destruct (Apps.pending_request_exists document_id st) eqn:E; [by left|].
  right; left. eexists _, _. split; [apply fresh_key_unused|].
  split; [|split]; [| |reflexivity]; [done|].
  intros j r' Hj Hd. by eapply pending_request_exists_false.
Qed.

Lemma apps_create_change user document_id notes st :
  requests_change (Apps.approval_requests st)
    (Apps.approval_requests
       (Apps.ApprovalRequestListView.create user document_id notes st).2).
Proof.
  unfold Apps.ApprovalRequestListView.create, objects_get.
  destruct (Apps.documents st !! document_id) as [d|]; [simpl|by left].
  destruct (Apps.ApprovalRequestCreateSerializer.validate_document _) as [e|i] eqn:Ev;
    [by left|].
  assert (pk i = document_id) as Hpk.
  { unfold Apps.ApprovalRequestCreateSerializer.validate_document in Ev.
    destruct (negb _); [done|]. by injection Ev as <-. }
  unfold Apps.ApprovalRequestListView.perform_create.
  destruct (negb _); [by left|].
  destruct (Apps.pending_request_exists (pk i) st) eqn:E; [by left|].
  right; left. eexists _, _. split; [apply fresh_key_unused|].
  split; [|split]; [| |reflexivity]; [done|].
  intros j r' Hj Hd. by eapply pending_request_exists_false.
Qed.

Lemma apps_update_change `{!Slugify} user k data st :
  requests_change (Apps.approval_requests st)
    (Apps.approval_requests
       (Apps.ApprovalRequestDetailView.update user k data st).2).
Proof.
  unfold Apps.ApprovalRequestDetailView.update.
  destruct (Apps.ApprovalRequestDetailView.get_object user k st) as [e|l] eqn:Eg;
    [by left|].
  assert (requests_change (Apps.approval_requests st)
            (Apps.approval_requests
               (Apps.ApprovalRequestDetailView.perform_update user k data st).2)
          ∨ ∃ s, Apps.ApprovalRequestReviewSerializer.status data = Some s ∧
                 s ∉ [APPROVED; REJECTED]) as [Hc|(s & Hs & Hbad)].
  { unfold Apps.ApprovalRequestDetailView.perform_update. rewrite Eg.
    destruct (apps_get_object_inr _ _ _ _ Eg) as [Hpk Hk].
    destruct (negb (Apps.can_be_reviewed_by l user)); [by left; left|].
    destruct (negb (bool_decide _)) eqn:Ep; [by left; left|].
    apply negb_false_iff, bool_decide_eq_true in Ep.
    destruct (Apps.ApprovalRequestReviewSerializer.status data) as [s|] eqn:Es.
    - destruct (decide (s ∈ [APPROVED; REJECTED])) as [Hin|Hnin]; [|right; eauto].
      left. right; right. cbn [from_option].
      apply elem_of_cons in Hin as [->|Hin].
      + rewrite bool_decide_eq_true_2 by done. cbv zeta.
        match goal with
        | |- context [Apps.approve ?a ?b ?c ?d] =>
          destruct (apps_approve_requests a b c d) as (r' & Heq & Hs' & Hd')
        end.
        exists k, (row (Apps.request l)), r'. split; [done|]. split; [done|].
        split; [done|]. split; [rewrite Hs'; set_solver|].
        cbn [snd]. rewrite Heq, Hpk. unfold Apps.save_request, save. simpl.
        by rewrite insert_insert_eq.
      + apply list_elem_of_singleton in Hin as ->.
        rewrite bool_decide_eq_false_2 by done.
        rewrite bool_decide_eq_true_2 by done. cbv zeta.
        match goal with
        | |- context [Apps.reject ?a ?b ?c ?d] =>
          destruct (apps_reject_requests a b c d) as (r' & Heq & Hs' & Hd')
        end.
        exists k, (row (Apps.request l)), r'. split; [done|]. split; [done|].
        split; [done|]. split; [rewrite Hs'; set_solver|].
        cbn [snd]. rewrite Heq, Hpk. unfold Apps.save_request, save. simpl.
        by rewrite insert_insert_eq.
    - left. right; right. cbn [from_option].
      eexists k, (row (Apps.request l)), _. split; [done|]. split; [done|].
      split; [|split]; [| |reflexivity].
      + by destruct (Apps.ApprovalRequestReviewSerializer.notes data).
      + destruct (Apps.ApprovalRequestReviewSerializer.notes data); simpl;
          rewrite Ep; set_solver. }
  - destruct (Apps.ApprovalRequestReviewSerializer.status data) as [s|]; [|done].
    destruct (Apps.ApprovalRequestReviewSerializer.validate_status s); [by left|done].
  - rewrite Hs. unfold Apps.ApprovalRequestReviewSerializer.validate_status.
    rewrite bool_decide_eq_false_2 by done. by left.
Qed.

Lemma apps_destroy_change `{!Slugify} user k st :
  requests_change (Apps.approval_requests st)
    (Apps.approval_requests (Apps.ApprovalRequestDetailView.destroy user k st).2).
Proof.
  unfold Apps.ApprovalRequestDetailView.destroy.
  destruct (Apps.ApprovalRequestDetailView.get_object user k st) as [e|l] eqn:Eg;
    [by left|].
  destruct (apps_get_object_inr _ _ _ _ Eg) as [Hpk Hk].
  unfold Apps.ApprovalRequestDetailView.perform_destroy.
  destruct (negb (_ || _)); [by left|].
  destruct (negb (bool_decide _)) eqn:Ep; [by left|].
  apply negb_false_iff, bool_decide_eq_true in Ep.
  cbn [snd].
  destruct (apps_cancel_requests l user st) as [->|(r' & -> & Hs' & Hd')]; [by left|].
  right; right. exists k, (row (Apps.request l)), r'.
  split; [done|]. split; [done|]. split; [done|]. split; [rewrite Hs'; set_solver|].
  by rewrite Hpk.
Qed.

Lemma apps_step_change `{!Slugify} st st' :
  apps_step st st' →
  requests_change (Apps.approval_requests st) (Apps.approval_requests st').
Proof.
  intros [user d notes s|user d notes s|user k data s|user k s].
  - apply apps_request_approval_change.
  - apply apps_create_change.
  - apply apps_update_change.
  - apply apps_destroy_change.
Qed.





(** ** Requests that have been decided (C8) *)

(** [apps/]: review and cancellation refuse a request that is not
    pending, and leave the database as it was. *)
Lemma apps_perform_update_refuses `{!Slugify} user k vd st l :
  Apps.ApprovalRequestDetailView.get_object user k st = inr l →
  Apps.ApprovalRequest.status (row (Apps.request l)) ≠ PENDING →
  ∃ detail,
    Apps.ApprovalRequestDetailView.perform_update user k vd st
    = (inl (PermissionDenied detail), st).
Proof.
  intros Hg Hs. unfold Apps.ApprovalRequestDetailView.perform_update. rewrite Hg.
  destruct (negb (Apps.can_be_reviewed_by l user)); [by eexists|].
  rewrite bool_decide_eq_false_2 by done. by eexists.
Qed.

Lemma apps_perform_destroy_refuses `{!Slugify} user l st :
  Apps.ApprovalRequest.status (row (Apps.request l)) ≠ PENDING →
  ∃ detail,
    Apps.ApprovalRequestDetailView.perform_destroy user l st
    = (inl (PermissionDenied detail), st).
Proof.
  intros Hs. unfold Apps.ApprovalRequestDetailView.perform_destroy.
  destruct (negb (_ || _)); [by eexists|].
  rewrite bool_decide_eq_false_2 by done. by eexists.
Qed.

(** [apps/]: over any sequence of calls of the approval views, a request
    that is not pending stays as it is, and a step changes a status only
    from PENDING. *)
Lemma apps_decided_request_is_final `{!Slugify} st st' k r :
  rtc apps_step st st' →
  Apps.approval_requests st !! k = Some r →
  Apps.ApprovalRequest.status r ≠ PENDING →
  Apps.approval_requests st' !! k = Some r.
Proof.
  induction 1 as [|st1 st2 st3 Hstep _ IH]; [done|]. intros Hk Hs. apply IH; [|done].
  apply apps_step_change in Hstep.
  destruct (requests_change_transition _ _ k r Hstep Hk) as (r' & Hk' & [->|[? _]]);
    done.
Qed.

Lemma apps_status_changes_from_pending `{!Slugify} st st' k r :
  apps_step st st' →
  Apps.approval_requests st !! k = Some r →
  ∃ r', Apps.approval_requests st' !! k = Some r' ∧
        (r' = r ∨
         Apps.ApprovalRequest.status r = PENDING ∧
         Apps.ApprovalRequest.status r' ∈ [PENDING; APPROVED; REJECTED; CANCELLED]).
Proof.
  intros Hstep Hk. apply apps_step_change in Hstep.
  by eapply requests_change_transition.
Qed.

(** [django_server/]: the [review] action refuses a request that is not
    pending. *)
Lemma ds_review_refuses `{!Slugify} user k data now_review now_document st l :
  DjangoServer.ApprovalRequestViewSet.get_object user k st = inr l →
  DjangoServer.ApprovalRequest.status (row (DjangoServer.request l)) ≠ PENDING →
  DjangoServer.ApprovalRequestViewSet.review user k data now_review now_document st
  = Some (inr (ErrorResponse 403 "You do not have permission to review this request"),
          st).
Proof.
  intros Hg Hs. unfold DjangoServer.ApprovalRequestViewSet.review. rewrite Hg.
  unfold DjangoServer.can_user_review. by rewrite bool_decide_eq_false_2.
Qed.

(** [django_server/]: [ApprovalRequest.cancel] looks at who cancels only;
    for the requester it sets CANCELLED whatever the status was. *)
Lemma ds_cancel_by_requester self user now st :
  DjangoServer.User.id user
  = DjangoServer.ApprovalRequest.requested_by (row (DjangoServer.request self)) →
  ∃ after st',
    DjangoServer.cancel self user now st = inr (after, st') ∧
    DjangoServer.ApprovalRequest.status (row (DjangoServer.request after)) = CANCELLED ∧
    DjangoServer.approval_requests st' !! pk (DjangoServer.request self)
    = Some (row (DjangoServer.request after)).
Proof.
  intros Hu. unfold DjangoServer.cancel. rewrite bool_decide_eq_true_2 by done.
  simpl. eexists _, _. split; [reflexivity|]. split; [done|].
  unfold DjangoServer.save_request, save. simpl. by rewrite lookup_insert_eq.
Qed.

(** C8, the defect: in [django_server/] the [cancel] action accepts a
    request that has been approved; the requester's call answers 200 and
    the stored status goes from APPROVED to CANCELLED. *)
Theorem C8_ds_cancel_after_approval :
  DjangoServer.approval_requests (Samples.ds_store APPROVED) !! 1
  = Some (Samples.ds_request APPROVED) ∧
  DjangoServer.ApprovalRequest.status (Samples.ds_request APPROVED) = APPROVED ∧
  http_status
    (DjangoServer.ApprovalRequestViewSet.cancel Samples.ds_vera 1 50
       (Samples.ds_store APPROVED)).1 = 200 ∧
  DjangoServer.approval_requests
    (DjangoServer.ApprovalRequestViewSet.cancel Samples.ds_vera 1 50
       (Samples.ds_store APPROVED)).2 !! 1
  = Some (DjangoServer.ApprovalRequest.set_reviewed_at (DtTime 50)
            (DjangoServer.ApprovalRequest.set_status CANCELLED
               (Samples.ds_request APPROVED))).
Proof. repeat split; by vm_compute. Qed.

(** * Further properties of the code *)

(** ** Request headers ([apps/core/utils.py], [apps/accounts/authentication.py]) *)

Lemma str_split_first (sep : Ascii.ascii) (s : string) :
  str_contains sep (str_split sep s).1 = false ∧
  (s = (str_split sep s).1 ∨
   ∃ rest, s = (str_split sep s).1 +:+ String sep rest).
Proof.
  induction s as [|c s [IH1 IH2]]; simpl; [by auto|].
  destruct (str_split sep s) as [piece pieces] eqn:Hs. simpl in *.
  case_bool_decide as Hc; simpl.
  - subst c. split; [done|]. right. by exists s.
  - rewrite IH1. split.
    + by rewrite bool_decide_eq_false_2.
    + destruct IH2 as [->| [rest ->]]; [by left|right; by exists rest].
Qed.

Lemma str_split_one (sep : Ascii.ascii) (s p : string) :
  str_split sep s = (p, []) ↔ s = p ∧ str_contains sep p = false.
Proof.
  revert p. induction s as [|c s IH]; intros p; simpl.
  - split; [by intros [= <-]|by intros [<- _]].
  - destruct (str_split sep s) as [piece pieces] eqn:Hs.
    case_bool_decide as Hc.
    + split; [done|]. intros [<- Hp]. simpl in Hp.
      by rewrite bool_decide_eq_true_2 in Hp.
    + split.
      * intros [= <- ->]. destruct (IH piece) as [IH1 _].
        destruct (IH1 eq_refl) as [-> Hp]. simpl.
        by rewrite bool_decide_eq_false_2.
      * intros [<- Hp]. simpl in Hp. apply orb_false_iff in Hp as [_ Hp].
        destruct (IH s) as [_ IH2]. specialize (IH2 (conj eq_refl Hp)).
        by simplify_eq.
Qed.

Lemma str_split_pair (sep : Ascii.ascii) (s p t : string) :
  str_split sep s = (p, [t]) ↔
  s = p +:+ String sep t ∧ str_contains sep p = false ∧ str_contains sep t = false.
Proof.
  revert p. induction s as [|c s IH]; intros p; simpl.
  - split; [done|]. intros [H _]. by destruct p.
  - destruct (str_split sep s) as [piece pieces] eqn:Hs.
    case_bool_decide as Hc.
    + subst c. split.
      * intros [= <- -> ->].
        apply str_split_one in Hs as [-> Hp]. done.
      * intros (Heq & Hp & Ht). destruct p as [|c' p]; simpl in *.
        -- injection Heq as ->.
           assert (str_split sep t = (t, [])) as Ht' by by apply str_split_one.
           rewrite Hs in Ht'. by injection Ht' as -> ->.
        -- injection Heq as <- ->. by rewrite bool_decide_eq_true_2 in Hp.
    + split.
      * intros [= <- ->]. destruct (IH piece) as [IH1 _].
        destruct (IH1 eq_refl) as (-> & Hp & Ht).
        simpl. by rewrite bool_decide_eq_false_2.
      * intros (Heq & Hp & Ht). destruct p as [|c' p]; simpl in *.
        -- injection Heq as Heq1 Heq2. congruence.
        -- injection Heq as <- ->. apply orb_false_iff in Hp as [_ Hp].
           destruct (IH p) as [_ IH2]. specialize (IH2 (conj eq_refl (conj Hp Ht))).
           by simplify_eq.
Qed.

Lemma ascii_lower_space (c : Ascii.ascii) : ascii_lower c = space ↔ c = space.
Proof.
  destruct c as [[] [] [] [] [] [] [] []]; vm_compute; split; congruence.
Qed.

Lemma str_lower_contains_space (p : string) :
  str_contains space (str_lower p) = str_contains space p.
Proof.
  induction p as [|c p IH]; simpl; [done|]. rewrite IH. f_equal.
  apply bool_decide_ext, ascii_lower_space.
Qed.

(** X1: [get_client_ip] answers with [REMOTE_ADDR] when the header
    [X-Forwarded-For] is absent or empty; otherwise with the part of that
    header before its first comma (the whole header when it has none),
    which therefore contains no comma. *)
Theorem get_client_ip_first_forwarded (meta : META) :
  (meta !! "HTTP_X_FORWARDED_FOR" = None ∨ meta !! "HTTP_X_FORWARDED_FOR" = Some "" →
   Apps.get_client_ip meta = meta !! "REMOTE_ADDR") ∧
  (∀ forwarded,
     meta !! "HTTP_X_FORWARDED_FOR" = Some forwarded → forwarded ≠ "" →
     ∃ ip,
       Apps.get_client_ip meta = Some ip ∧
       str_contains comma ip = false ∧
       (forwarded = ip ∨ ∃ rest, forwarded = ip +:+ String comma rest)).
Proof.
  unfold Apps.get_client_ip. split.
  - by intros [-> | ->].
  - intros forwarded -> Hne. simpl. rewrite bool_decide_eq_false_2 by done. simpl.
    eexists. split; [done|]. apply str_split_first.
Qed.

(** X2: [get_token_from_request] returns a token exactly when the
    [Authorization] header is one word that reads "bearer" in any
    capitalisation, one space, and the token, the token containing no
    space; in every other case it returns [None]. *)
Theorem get_token_from_request_bearer (meta : META) (token : string) :
  Apps.JWTAuthentication.get_token_from_request meta = Some token ↔
  ∃ prefix,
    meta !! "HTTP_AUTHORIZATION" = Some (prefix +:+ String space token) ∧
    str_lower prefix = "bearer" ∧
    str_contains space token = false.
Proof.
  unfold Apps.JWTAuthentication.get_token_from_request.
  destruct (meta !! "HTTP_AUTHORIZATION") as [header|]; simpl.
  2: { split; [done|]. by intros (? & ? & _). }
  case_bool_decide as Hempty; simpl.
  { subst header. split; [done|]. intros (prefix & Heq & _). by destruct prefix. }
  destruct (str_split space header) as [prefix pieces] eqn:Hsplit.
  split.
  - destruct pieces as [|t [|]]; try done.
    case_bool_decide as Hlower; simpl; [|done]. intros [= ->].
    apply str_split_pair in Hsplit as (-> & _ & Ht). by exists prefix.
  - intros (prefix' & [= ->] & Hlower & Ht).
    assert (str_contains space prefix' = false) as Hp.
    { rewrite <-str_lower_contains_space, Hlower. by vm_compute. }
    assert (str_split space (prefix' +:+ String space token) = (prefix', [token]))
      as Hs by by apply str_split_pair.
    rewrite Hs in Hsplit. injection Hsplit as <- <-.
    by rewrite bool_decide_eq_true_2.
Qed.

(** ** Roles and permission classes ([apps/accounts/models.py],
    [apps/core/permissions.py]) *)

(** X3: the capabilities of a role are nested: who can manage users can
    approve documents, who can approve can create; viewing all documents
    and approving are granted to the same roles; the PUBLIC role cannot
    create; and the role-based permission classes agree with the methods
    of [User] they are named after. *)
Theorem apps_role_capabilities_nest (user : Apps.User.t) :
  (Apps.User.can_manage_users user = true → Apps.User.can_approve_documents user = true) ∧
  (Apps.User.can_approve_documents user = true →
   Apps.User.can_create_documents user = true) ∧
  Apps.User.can_view_all_documents user = Apps.User.can_approve_documents user ∧
  (Apps.User.role user = PUBLIC → Apps.User.can_create_documents user = false) ∧
  (∀ r, Apps.User.has_any_role user [r] = Apps.User.has_role user r) ∧
  Apps.permissions.IsAdminOrPresident.has_permission (Some user)
  = Apps.permissions.CanManageUsers.has_permission (Some user) ∧
  Apps.permissions.IsAdminOrPresidentOrBoardMember.has_permission (Some user)
  = Apps.permissions.CanApproveDocuments.has_permission (Some user) ∧
  Apps.permissions.CanViewAllDocuments.has_permission (Some user)
  = Apps.permissions.CanApproveDocuments.has_permission (Some user).
Proof.
  unfold Apps.User.can_manage_users, Apps.User.can_approve_documents,
    Apps.User.can_create_documents, Apps.User.can_view_all_documents,
    Apps.User.has_any_role, Apps.User.has_role. simpl.
  repeat split; try done.
  - intros H%bool_decide_eq_true. apply bool_decide_eq_true. set_unfold. intuition.
  - intros H%bool_decide_eq_true. apply bool_decide_eq_true. set_unfold. intuition.
  - intros ->. by vm_compute.
  - intros r. apply bool_decide_ext. set_unfold. intuition.
Qed.


(** ** Reading documents ([apps/core/utils.py], [apps/documents/views.py]) *)

Lemma apps_can_user_access_document_alt (user : Apps.User.t) (d : Apps.Document.t) :
  Apps.can_user_access_document user d
  = Apps.User.can_view_all_documents user
    || Apps.Document.is_public d
    || bool_decide (Apps.Document.author d = Apps.User.id user).
Proof.
  unfold Apps.can_user_access_document.
  destruct (Apps.User.can_view_all_documents user), (Apps.Document.is_public d);
    simpl; try done.
  by case_bool_decide.
Qed.

(** X5: [get_user_accessible_documents] returns exactly the documents
    for which [can_user_access_document] is True; the list view and the
    detail view query the same documents; and the detail view finds a
    document under a key exactly when it is one of them, answering 404
    otherwise. *)
Theorem apps_accessible_documents_agree (user : Apps.User.t) (st : Apps.Store) :
  (∀ k d,
     Apps.get_user_accessible_documents user st !! k = Some d ↔
     Apps.documents st !! k = Some d ∧ Apps.can_user_access_document user d = true) ∧
  Apps.DocumentListView.get_queryset user st = Apps.get_user_accessible_documents user st ∧
  Apps.DocumentDetailView.get_queryset user st
  = Apps.get_user_accessible_documents user st ∧
  (∀ k d,
     Apps.DocumentDetailView.get_object user k st = inr (MkInstance k d) ↔
     Apps.documents st !! k = Some d ∧ Apps.can_user_access_document user d = true) ∧
  (∀ k,
     Apps.DocumentDetailView.get_object user k st = inl Http404 ↔
     ∀ d, Apps.documents st !! k = Some d → Apps.can_user_access_document user d = false).
Proof.
  assert (∀ k d,
     Apps.get_user_accessible_documents user st !! k = Some d ↔
     Apps.documents st !! k = Some d ∧ Apps.can_user_access_document user d = true) as Hacc.
  { intros k d. rewrite apps_can_user_access_document_alt.
    unfold Apps.get_user_accessible_documents.
    destruct (Apps.User.can_view_all_documents user); simpl; [tauto|].
    by rewrite objects_filter_lookup_Some. }
  split; [done|]. split; [done|]. split; [done|].
  unfold Apps.DocumentDetailView.get_object, objects_get.
  change (Apps.DocumentDetailView.get_queryset user st)
    with (Apps.get_user_accessible_documents user st).
  split.
  - intros k d. rewrite <-Hacc.
    destruct (Apps.get_user_accessible_documents user st !! k); simpl;
      split; congruence.
  - intros k.
    destruct (Apps.get_user_accessible_documents user st !! k) as [d|] eqn:Hk; simpl.
    + split; [done|]. intros H. apply Hacc in Hk as [Hk Hd]. specialize (H _ Hk). congruence.
    + split; [|done]. intros _ d Hd.
      destruct (Apps.can_user_access_document user d) eqn:Hc; [|done].
      assert (Apps.get_user_accessible_documents user st !! k = Some d) by by apply Hacc.
      congruence.
Qed.

(** ** Writing documents ([apps/documents/views.py],
    [apps/documents/serializers.py]) *)



Lemma apps_document_get_object_inr (user : Apps.User.t) k (st : Apps.Store) i :
  Apps.DocumentDetailView.get_object user k st = inr i →
  pk i = k ∧ Apps.documents st !! k = Some (row i).
Proof.
  unfold Apps.DocumentDetailView.get_object, objects_get.
  destruct (Apps.DocumentDetailView.get_queryset user st !! k) as [d|] eqn:Hk;
    simpl; [|done].
  intros [= <-]. split; [done|]. simpl.
  unfold Apps.DocumentDetailView.get_queryset in Hk.
  destruct (Apps.User.can_view_all_documents user); [done|].
  by apply objects_filter_lookup_Some in Hk as [Hk _].
Qed.

Lemma apps_can_be_edited_by_false (d : Apps.Document.t) (user : Apps.User.t) :
  Apps.Document.can_be_edited_by d user = false ↔
  Apps.User.role user ≠ ADMIN ∧
  (Apps.User.id user ≠ Apps.Document.author d ∨
   Apps.Document.status d ∉ [PENDING; UNDER_REVIEW]).
Proof.
  unfold Apps.Document.can_be_edited_by.
  repeat case_bool_decide; intuition congruence.
Qed.

(** X7: a user who is not an administrator, and who is not the author of
    the document or whose document is neither pending nor under review,
    cannot change or delete it: update and delete raise and leave the
    database as it was. *)
Theorem apps_document_write_guard `{!Slugify} (user : Apps.User.t) (k : nat)
    (st : Apps.Store) (d : Apps.Document.t)
    (Hdoc : Apps.documents st !! k = Some d)
    (Hrole : Apps.User.role user ≠ ADMIN)
    (Hnot : Apps.User.id user ≠ Apps.Document.author d
            ∨ Apps.Document.status d ∉ [PENDING; UNDER_REVIEW]) :
  (∀ vd, ∃ e, Apps.DocumentDetailView.update user k vd st = (inl e, st)) ∧
  (∃ e, Apps.DocumentDetailView.destroy user k st = (inl e, st)).
Proof.
  assert (Apps.Document.can_be_edited_by d user = false) as Hedit
    by by apply apps_can_be_edited_by_false.
  split.
  - intros vd. unfold Apps.DocumentDetailView.update.
    destruct (Apps.DocumentDetailView.get_object user k st) as [e|i] eqn:Hget;
      [by eexists|].
    apply apps_document_get_object_inr in Hget as Hi. destruct Hi as [Hpk Hrow].
    unfold Apps.DocumentDetailView.perform_update. rewrite Hpk, Hget.
    rewrite Hdoc in Hrow. injection Hrow as <-. rewrite Hedit. by eexists.
  - unfold Apps.DocumentDetailView.destroy.
    destruct (Apps.DocumentDetailView.get_object user k st) as [e|i] eqn:Hget;
      [by eexists|].
    apply apps_document_get_object_inr in Hget as [Hpk Hrow].
    unfold Apps.DocumentDetailView.perform_destroy.
    rewrite Hdoc in Hrow. injection Hrow as <-. rewrite Hedit. by eexists.
Qed.

(** X7 at work: Wendy can read the public notice, not write it. *)
Lemma apps_document_write_guard_witness :
  (∀ vd, ∃ e,
     @Apps.DocumentDetailView.update Samples.slugify_id Samples.wendy 2 vd Samples.library
     = (inl e, Samples.library)) ∧
  (∃ e, Apps.DocumentDetailView.destroy Samples.wendy 2 Samples.library
        = (inl e, Samples.library)).
Proof.
  apply (@apps_document_write_guard Samples.slugify_id Samples.wendy 2 Samples.library
           Samples.notice).
  - by vm_compute.
  - by vm_compute.
  - left. by vm_compute.
Defined.

(** X8: when the detail view finds the document for the caller and the
    caller may edit it, delete removes the document together with the
    versions and the approval requests that refer to it, and nothing
    else; afterwards the detail view answers 404 for its key, for every
    user. *)
Theorem apps_document_destroy_cascades (user : Apps.User.t) (k : nat) (st : Apps.Store)
    (i : Instance Apps.Document.t)
    (Hget : Apps.DocumentDetailView.get_object user k st = inr i)
    (Hedit : Apps.Document.can_be_edited_by (row i) user = true) :
  let result := Apps.DocumentDetailView.destroy user k st in
  result.1 = inr () ∧
  Apps.documents result.2 = delete k (Apps.documents st) ∧
  (∀ j v,
     Apps.document_versions result.2 !! j = Some v ↔
     Apps.document_versions st !! j = Some v ∧ Apps.DocumentVersion.document v ≠ k) ∧
  (∀ j r,
     Apps.approval_requests result.2 !! j = Some r ↔
     Apps.approval_requests st !! j = Some r ∧ Apps.ApprovalRequest.document r ≠ k) ∧
  (∀ user', Apps.DocumentDetailView.get_object user' k result.2 = inl Http404).
Proof.
  apply apps_document_get_object_inr in Hget as Hi. destruct Hi as [<- Hrow].
  unfold Apps.DocumentDetailView.destroy. rewrite Hget.
  unfold Apps.DocumentDetailView.perform_destroy. rewrite Hedit. simpl.
  split; [done|]. split; [done|]. split; [|split].
  - intros j v. rewrite objects_filter_lookup_Some, negb_true_iff, bool_decide_eq_false.
    done.
  - intros j r. rewrite objects_filter_lookup_Some, negb_true_iff, bool_decide_eq_false.
    done.
  - intros user'.
    unfold Apps.DocumentDetailView.get_object, Apps.DocumentDetailView.get_queryset,
      objects_get. simpl.
    destruct (Apps.User.can_view_all_documents user').
    + by rewrite lookup_delete_eq.
    + assert (objects_filter
                (λ d, Apps.Document.is_public d
                      || bool_decide (Apps.Document.author d = Apps.User.id user'))
                (delete (pk i) (Apps.documents st)) !! pk i = None) as ->; [|done].
      apply objects_filter_lookup_None. intros r. by rewrite lookup_delete_eq.
Qed.

(** X8 at work: Vic deletes his draft. *)
Lemma apps_document_destroy_cascades_witness :
  (Apps.DocumentDetailView.destroy Samples.vic 1 Samples.archive).1 = inr () ∧
  Apps.documents (Apps.DocumentDetailView.destroy Samples.vic 1 Samples.archive).2
  = delete 1 (Apps.documents Samples.archive).
Proof.
  pose proof (apps_document_destroy_cascades Samples.vic 1 Samples.archive
                (MkInstance 1 Samples.draft)) as H.
  destruct H as (H1 & H2 & _); [by vm_compute|by vm_compute|].
  split; [exact H1|exact H2].
Defined.


(** ** Reviewing and cancelling approval requests ([apps/approvals/views.py],
    [apps/approvals/models.py]) *)










(** ** Decided requests and slugs *)

(** X12: in [apps/], over any sequence of calls of the approval views
    ([request_approval], create, update, destroy), an approval request
    whose status is not PENDING stays exactly as it is. *)
Theorem apps_decided_request_stays `{!Slugify} (st st' : Apps.Store) (k : nat)
    (r : Apps.ApprovalRequest.t)
    (Hsteps : rtc apps_step st st')
    (Hk : Apps.approval_requests st !! k = Some r)
    (Hdecided : Apps.ApprovalRequest.status r ≠ PENDING) :
  Apps.approval_requests st' !! k = Some r.
Proof. by eapply apps_decided_request_is_final. Qed.

(** X12 at work: Vic's DELETE of his approved request changes nothing. *)
Lemma apps_decided_request_stays_witness :
  Apps.approval_requests
    (@Apps.ApprovalRequestDetailView.destroy Samples.slugify_id Samples.vic 1
       Samples.settled).2 !! 1
  = Some (Apps.ApprovalRequest.set_status APPROVED Samples.vic_request).
Proof.
  apply (@apps_decided_request_stays Samples.slugify_id Samples.settled).
  - apply rtc_once. apply step_destroy.
  - by vm_compute.
  - by vm_compute.
Defined.

(** X13: [generate_slug] of [apps/core/utils.py] returns once it may
    test more slugs than the table has rows.  The slug it returns is
    carried by none of the rows it compares with (all rows, without the
    row [exclude_id] when that is given and not zero); it is
    [slugify(title)] when that is free, and otherwise [slugify(title)-n]
    for the least [n >= 1] that is free.  So for the row that alone
    carries [slugify(title)], excluded by its id, the slug is
    [slugify(title)] again; an [exclude_id] of zero excludes nothing. *)
Theorem apps_generate_slug_unused `{!Slugify} {A} (slug_of : A → string) (fuel : nat)
    (title : string) (table : gmap nat A) (exclude : option nat)
    (Hfuel : size table < fuel) :
  ∃ s,
    Apps.generate_slug slug_of fuel title table exclude = Some s ∧
    ¬ slug_used slug_of (compared_rows table exclude) s ∧
    (¬ slug_used slug_of (compared_rows table exclude) (slugify title) →
     s = slugify title) ∧
    (slug_used slug_of (compared_rows table exclude) (slugify title) →
     ∃ n, 1 ≤ n ∧ s = suffixed (slugify title) n ∧
          ∀ j, 1 ≤ j → j < n →
               slug_used slug_of (compared_rows table exclude)
                 (suffixed (slugify title) j)) ∧
    (∀ k, exclude = Some k → k ≠ 0 →
          (∀ j r, table !! j = Some r → slug_of r = slugify title → j = k) →
          s = slugify title) ∧
    (exclude = None ∨ exclude = Some 0 → compared_rows table exclude = table).
Proof.
  destruct (apps_generate_slug_spec slug_of fuel title table exclude Hfuel)
    as (s & Hs & Hunused & Hbase & Hsuffix).
  exists s. split; [done|]. split; [done|]. split; [done|]. split; [done|]. split.
  - intros k -> Hk Honly. apply Hbase. intros (j & r & Hj & Hr).
    unfold compared_rows in Hj. rewrite bool_decide_eq_false_2 in Hj by done.
    apply lookup_delete_Some in Hj as [Hne Hj]. by specialize (Honly _ _ Hj Hr).
  - by intros [-> | ->].
Qed.

(** X13 at work: the slug for the title of the draft, with and without
    excluding the draft. *)
Lemma apps_generate_slug_unused_witness :
  @Apps.generate_slug Samples.slugify_id _ Apps.Document.slug 4 "bylaws"
    (Apps.documents Samples.library) (Some 1) = Some "bylaws" ∧
  @Apps.generate_slug Samples.slugify_id _ Apps.Document.slug 4 "bylaws"
    (Apps.documents Samples.library) None = Some "bylaws-1".
Proof.
  destruct (@apps_generate_slug_unused Samples.slugify_id _ Apps.Document.slug 4
              "bylaws" (Apps.documents Samples.library) (Some 1))
    as (s & Hs & _); [by vm_compute|].
  split; [|by vm_compute].
  rewrite Hs. f_equal. revert Hs. by vm_compute; intros [= <-].
Defined.

Lemma unique_slugs_insert {A} (slug_of : A → string) (table : gmap nat A) k r :
  table !! k = None →
  ¬ slug_used slug_of table (slug_of r) →
  unique_slugs slug_of table →
  unique_slugs slug_of (<[k := r]> table).
Proof.
  intros Hk Hunused Huniq i j r1 r2 Hi Hj Heq.
  destruct (decide (i = k)) as [->|Hik], (decide (j = k)) as [->|Hjk]; [done|..].
  - rewrite lookup_insert_eq in Hi. rewrite lookup_insert_ne in Hj by done.
    injection Hi as <-. destruct Hunused. exists j, r2. by rewrite Heq.
  - rewrite lookup_insert_eq in Hj. rewrite lookup_insert_ne in Hi by done.
    injection Hj as <-. destruct Hunused. by exists i, r1.
  - rewrite lookup_insert_ne in Hi, Hj by done. by eapply Huniq.
Qed.

(** X14: in [django_server/], the first save of a document whose slug is
    empty always completes and stores the document under an unused key
    with a slug no stored document carries: [slugify(title)] when that is
    free, otherwise [slugify(title)-n] for the least [n >= 1] that is
    free.  So if no two stored documents shared a slug before, none do
    afterwards. *)
Theorem ds_create_document_unique_slug `{!Slugify} (d : DjangoServer.Document.t)
    (st : DjangoServer.Store)
    (Hempty : DjangoServer.Document.slug d = "") :
  ∃ k s,
    DjangoServer.create_document d st
    = Some (MkInstance k (DjangoServer.Document.set_slug s d),
            DjangoServer.with_documents
              (<[k := DjangoServer.Document.set_slug s d]> (DjangoServer.documents st))
              st) ∧
    DjangoServer.documents st !! k = None ∧
    ¬ slug_used DjangoServer.Document.slug (DjangoServer.documents st) s ∧
    (¬ slug_used DjangoServer.Document.slug (DjangoServer.documents st)
         (slugify (DjangoServer.Document.title d)) →
     s = slugify (DjangoServer.Document.title d)) ∧
    (slug_used DjangoServer.Document.slug (DjangoServer.documents st)
       (slugify (DjangoServer.Document.title d)) →
     ∃ n, 1 ≤ n ∧ s = suffixed (slugify (DjangoServer.Document.title d)) n ∧
          ∀ j, 1 ≤ j → j < n →
               slug_used DjangoServer.Document.slug (DjangoServer.documents st)
                 (suffixed (slugify (DjangoServer.Document.title d)) j)) ∧
    (unique_slugs DjangoServer.Document.slug (DjangoServer.documents st) →
     unique_slugs DjangoServer.Document.slug
       (<[k := DjangoServer.Document.set_slug s d]> (DjangoServer.documents st))).
Proof.
  destruct (ds_generate_unique_slug_spec (S (size (DjangoServer.documents st))) d
              (DjangoServer.documents st)) as (s & Hs & Hunused & Hbase & Hsuffix);
    [lia|].
  exists (fresh ({[0]} ∪ dom (DjangoServer.documents st))), s.
  split.
  { unfold DjangoServer.create_document, DjangoServer.fill_slug.
    rewrite bool_decide_eq_true_2 by done. rewrite Hs. done. }
  split; [apply fresh_key_unused|]. split; [done|]. split; [done|]. split; [done|].
  intros Huniq. apply unique_slugs_insert; [apply fresh_key_unused| |done].
  by destruct d.
Qed.

(** X14 at work: a second document titled like the slug of the newsletter
    gets the suffix 1. *)
Lemma ds_create_document_unique_slug_witness :
  ∃ k s,
    @DjangoServer.create_document Samples.slugify_id Samples.ds_reprint
      (Samples.ds_store PENDING)
    = Some (MkInstance k (DjangoServer.Document.set_slug s Samples.ds_reprint),
            DjangoServer.with_documents
              (<[k := DjangoServer.Document.set_slug s Samples.ds_reprint]>
                 (DjangoServer.documents (Samples.ds_store PENDING)))
              (Samples.ds_store PENDING)) ∧
    (slug_used DjangoServer.Document.slug
       (DjangoServer.documents (Samples.ds_store PENDING)) "newsletter" →
     ∃ n, 1 ≤ n ∧ s = suffixed "newsletter" n).
Proof.
  destruct (@ds_create_document_unique_slug Samples.slugify_id Samples.ds_reprint
              (Samples.ds_store PENDING)) as (k & s & H1 & _ & _ & _ & H2 & _);
    [by vm_compute|].
  exists k, s. split; [exact H1|].
  intros Hused. destruct (H2 Hused) as (n & Hn & Hs & _). by exists n.
Defined.

(** ** Roles in [django_server/] ([django_server/accounts/models.py],
    [django_server/approvals/views.py],
    [django_server/approvals/serializers.py]) *)

(** The rank of a role: one of the six ranks, and 0 for any other string. *)
Lemma ds_rank_cases (r : string) :
  r = PUBLIC ∧ DjangoServer.User.rank r = 0 ∨
  r = VOLUNTEER ∧ DjangoServer.User.rank r = 1 ∨
  r = COMMITTEE_MEMBER ∧ DjangoServer.User.rank r = 2 ∨
  r = BOARD_MEMBER ∧ DjangoServer.User.rank r = 3 ∨
  r = PRESIDENT ∧ DjangoServer.User.rank r = 4 ∨
  r = ADMIN ∧ DjangoServer.User.rank r = 5 ∨
  ((r ∉ [PUBLIC; VOLUNTEER; COMMITTEE_MEMBER; BOARD_MEMBER; PRESIDENT; ADMIN])
   ∧ DjangoServer.User.rank r = 0).
Proof.
  destruct (decide (r = PUBLIC)) as [->|?]; [by left|right].
  destruct (decide (r = VOLUNTEER)) as [->|?]; [by left|right].
  destruct (decide (r = COMMITTEE_MEMBER)) as [->|?]; [by left|right].
  destruct (decide (r = BOARD_MEMBER)) as [->|?]; [by left|right].
  destruct (decide (r = PRESIDENT)) as [->|?]; [by left|right].
  destruct (decide (r = ADMIN)) as [->|?]; [by left|right].
  split; [set_unfold; intuition|].
  unfold DjangoServer.User.rank, DjangoServer.User.role_hierarchy.
  rewrite (not_elem_of_list_to_map_1 _ r); [done|].
  simpl. set_unfold. intuition.
Qed.

Ltac rank_cases r :=
  let Heq := fresh "Heq" in
  let H := fresh "Hrank" in
  destruct (ds_rank_cases r) as
    [[Heq H]|[[Heq H]|[[Heq H]|[[Heq H]|[[Heq H]|[[Heq H]|[Heq H]]]]]]];
  try rewrite Heq in *.

(** X15: the role hierarchy of [django_server/accounts/models.py].
    [has_role] is monotone: a user who has a role has every role of equal
    or lower rank.  An ADMIN has every role.  A role name outside the
    five ranked ones counts as rank 0, so every user has it, and a user
    whose own role is such a name has exactly the roles of rank 0.
    [can_approve_documents] is [has_role BOARD_MEMBER], and for the six
    role names of the model [can_create_documents] is
    [has_role VOLUNTEER]. *)
Theorem ds_role_hierarchy (user : DjangoServer.User.t) :
  (∀ r r',
     DjangoServer.User.has_role user r = true →
     DjangoServer.User.rank r' ≤ DjangoServer.User.rank r →
     DjangoServer.User.has_role user r' = true) ∧
  (∀ r, DjangoServer.User.role user = ADMIN → DjangoServer.User.has_role user r = true) ∧
  (∀ r,
     r ∉ [VOLUNTEER; COMMITTEE_MEMBER; BOARD_MEMBER; PRESIDENT; ADMIN] →
     DjangoServer.User.has_role user r = true) ∧
  (DjangoServer.User.role user
   ∉ [VOLUNTEER; COMMITTEE_MEMBER; BOARD_MEMBER; PRESIDENT; ADMIN] →
   ∀ r, DjangoServer.User.has_role user r
        = bool_decide (DjangoServer.User.rank r = 0)) ∧
  DjangoServer.User.can_approve_documents user
  = DjangoServer.User.has_role user BOARD_MEMBER ∧
  (DjangoServer.User.role user
   ∈ [PUBLIC; VOLUNTEER; COMMITTEE_MEMBER; BOARD_MEMBER; PRESIDENT; ADMIN] →
   DjangoServer.User.can_create_documents user
   = DjangoServer.User.has_role user VOLUNTEER).
Proof.
  unfold DjangoServer.User.has_role, DjangoServer.User.can_approve_documents,
    DjangoServer.User.can_create_documents.
  split; [|split; [|split; [|split; [|split]]]].
  - intros r r' H%bool_decide_eq_true Hle. apply bool_decide_eq_true. lia.
  - intros r ->. apply bool_decide_eq_true.
    change (DjangoServer.User.rank ADMIN) with 5.
    rank_cases r; lia.
  - intros r Hr. apply bool_decide_eq_true.
    rank_cases r; try lia; set_unfold; intuition.
  - intros Hu r. apply bool_decide_ext.
    rank_cases (DjangoServer.User.role user); try lia; set_unfold; intuition.
  - rank_cases (DjangoServer.User.role user); try by vm_compute.
    rewrite bool_decide_eq_false_2.
    + symmetry. apply bool_decide_eq_false. change (DjangoServer.User.rank BOARD_MEMBER) with 3. lia.
    + set_unfold. intuition.
  - intros Hu. rank_cases (DjangoServer.User.role user); by vm_compute.
Qed.

Lemma ds_reviewable_roles_sound (user : DjangoServer.User.t) (required : string) :
  required ∈ DjangoServer.ApprovalRequestViewSet._get_reviewable_roles user →
  DjangoServer.User.has_role user required = true.
Proof.
  unfold DjangoServer.ApprovalRequestViewSet._get_reviewable_roles,
    DjangoServer.User.has_role.
  intros H. apply bool_decide_eq_true. revert H.
  destruct (decide (DjangoServer.User.role user = COMMITTEE_MEMBER)) as [->|?].
  { change (default [] (DjangoServer.ApprovalRequestViewSet.role_map !! COMMITTEE_MEMBER))
      with [PUBLIC; VOLUNTEER].
    rewrite !elem_of_cons, elem_of_nil. intros [->|[->|[]]]; vm_compute; lia. }
  destruct (decide (DjangoServer.User.role user = BOARD_MEMBER)) as [->|?].
  { change (default [] (DjangoServer.ApprovalRequestViewSet.role_map !! BOARD_MEMBER))
      with [PUBLIC; VOLUNTEER; COMMITTEE_MEMBER; BOARD_MEMBER].
    rewrite !elem_of_cons, elem_of_nil.
    intros [->|[->|[->|[->|[]]]]]; vm_compute; lia. }
  destruct (decide (DjangoServer.User.role user = PRESIDENT)) as [->|?].
  { change (default [] (DjangoServer.ApprovalRequestViewSet.role_map !! PRESIDENT))
      with [PUBLIC; VOLUNTEER; COMMITTEE_MEMBER; BOARD_MEMBER; PRESIDENT].
    rewrite !elem_of_cons, elem_of_nil.
    intros [->|[->|[->|[->|[->|[]]]]]]; vm_compute; lia. }
  destruct (decide (DjangoServer.User.role user = ADMIN)) as [->|?].
  { change (default [] (DjangoServer.ApprovalRequestViewSet.role_map !! ADMIN))
      with [PUBLIC; VOLUNTEER; COMMITTEE_MEMBER; BOARD_MEMBER; PRESIDENT; ADMIN].
    rewrite !elem_of_cons, elem_of_nil.
    intros [->|[->|[->|[->|[->|[->|[]]]]]]]; vm_compute; lia. }
  unfold DjangoServer.ApprovalRequestViewSet.role_map.
  rewrite (not_elem_of_list_to_map_1 _ (DjangoServer.User.role user)).
  - simpl. by intros ?%elem_of_nil.
  - simpl. set_unfold. intuition.
Qed.

Lemma ds_approval_roles_sound (role required : string) :
  role ∈ DjangoServer.ApprovalRequestCreateSerializer._get_approval_roles required →
  DjangoServer.User.rank required ≤ DjangoServer.User.rank role.
Proof.
  unfold DjangoServer.ApprovalRequestCreateSerializer._get_approval_roles.
  destruct (decide (required = PUBLIC)) as [->|?].
  { intros _. change (DjangoServer.User.rank PUBLIC) with 0. lia. }
  destruct (decide (required = VOLUNTEER)) as [->|?].
  { change (default [ADMIN]
              (DjangoServer.ApprovalRequestCreateSerializer.role_hierarchy !! VOLUNTEER))
      with [ADMIN; PRESIDENT; BOARD_MEMBER; COMMITTEE_MEMBER].
    rewrite !elem_of_cons, elem_of_nil.
    intros [->|[->|[->|[->|[]]]]]; vm_compute; lia. }
  destruct (decide (required = COMMITTEE_MEMBER)) as [->|?].
  { change (default [ADMIN]
              (DjangoServer.ApprovalRequestCreateSerializer.role_hierarchy
                 !! COMMITTEE_MEMBER))
      with [ADMIN; PRESIDENT; BOARD_MEMBER].
    rewrite !elem_of_cons, elem_of_nil.
    intros [->|[->|[->|[]]]]; vm_compute; lia. }
  destruct (decide (required = BOARD_MEMBER)) as [->|?].
  { change (default [ADMIN]
              (DjangoServer.ApprovalRequestCreateSerializer.role_hierarchy
                 !! BOARD_MEMBER))
      with [ADMIN; PRESIDENT; BOARD_MEMBER].
    rewrite !elem_of_cons, elem_of_nil.
    intros [->|[->|[->|[]]]]; vm_compute; lia. }
  destruct (decide (required = PRESIDENT)) as [->|?].
  { change (default [ADMIN]
              (DjangoServer.ApprovalRequestCreateSerializer.role_hierarchy !! PRESIDENT))
      with [ADMIN; PRESIDENT].
    rewrite !elem_of_cons, elem_of_nil.
    intros [->|[->|[]]]; vm_compute; lia. }
  destruct (decide (required = ADMIN)) as [->|?].
  { change (default [ADMIN]
              (DjangoServer.ApprovalRequestCreateSerializer.role_hierarchy !! ADMIN))
      with [ADMIN].
    rewrite !elem_of_cons, elem_of_nil.
    intros [->|[]]; vm_compute; lia. }
  unfold DjangoServer.ApprovalRequestCreateSerializer.role_hierarchy.
  rewrite (not_elem_of_list_to_map_1 _ required).
  - simpl. rewrite elem_of_cons, elem_of_nil. intros [->|[]].
    unfold DjangoServer.User.rank at 1, DjangoServer.User.role_hierarchy.
    rewrite (not_elem_of_list_to_map_1 _ required); [simpl; lia|].
    simpl. set_unfold. intuition.
  - simpl. set_unfold. intuition.
Qed.

(** X16: the two hand-written role tables of [django_server/approvals/]
    agree with the hierarchy.  Every role [_get_reviewable_roles] lists for
    a user is a role the user has; every role [_get_approval_roles] lists
    for a required role ranks at least as high.  Hence every user the
    create serializer notifies is an active user other than the
    requester who has the required role, and every request the view set
    shows to a user is their own, or the user is ADMIN or PRESIDENT, or
    the user has the approval role the category of its document requires. *)
Theorem ds_role_tables_follow_hierarchy :
  (∀ (user : DjangoServer.User.t) required,
     required ∈ DjangoServer.ApprovalRequestViewSet._get_reviewable_roles user →
     DjangoServer.User.has_role user required = true) ∧
  (∀ role required,
     role ∈ DjangoServer.ApprovalRequestCreateSerializer._get_approval_roles required →
     DjangoServer.User.rank required ≤ DjangoServer.User.rank role) ∧
  (∀ required requested_by users k u,
     DjangoServer.ApprovalRequestCreateSerializer.approvers required requested_by users
       !! k = Some u →
     users !! k = Some u ∧ k ≠ requested_by ∧
     DjangoServer.UserRow.is_active u = true ∧
     DjangoServer.User.has_role (DjangoServer.user_of k u) required = true) ∧
  (∀ (user : DjangoServer.User.t) st k r,
     DjangoServer.ApprovalRequestViewSet.get_queryset user st !! k = Some r →
     DjangoServer.approval_requests st !! k = Some r ∧
     (DjangoServer.User.role user ∈ [ADMIN; PRESIDENT] ∨
      DjangoServer.ApprovalRequest.requested_by r = DjangoServer.User.id user ∨
      ∃ d, DjangoServer.documents st !! DjangoServer.ApprovalRequest.document r = Some d ∧
           DjangoServer.User.has_role user
             (DjangoServer.DocumentCategory.required_approval_role
                (DjangoServer.Document.category d)) = true)).
Proof.
  split; [exact ds_reviewable_roles_sound|]. split; [exact ds_approval_roles_sound|].
  split.
  - intros required requested_by users k u.
    unfold DjangoServer.ApprovalRequestCreateSerializer.approvers, exclude_id.
    rewrite lookup_delete_Some, objects_filter_lookup_Some, andb_true_iff,
      !bool_decide_eq_true.
    intros (Hne & Hk & Hrole & Hactive). split; [done|]. split; [done|].
    split; [done|]. unfold DjangoServer.User.has_role. apply bool_decide_eq_true.
    by apply ds_approval_roles_sound.
  - intros user st k r. unfold DjangoServer.ApprovalRequestViewSet.get_queryset.
    case_bool_decide as Hrole; simpl.
    + intros Hk. split; [done|]. by left.
    + rewrite objects_filter_lookup_Some, orb_true_iff, bool_decide_eq_true.
      intros [Hk [Hown|Hreview]]; (split; [done|]); right; [by left|right].
      destruct (DjangoServer.documents st !! DjangoServer.ApprovalRequest.document r)
        as [d|]; [|done].
      exists d. split; [done|]. apply ds_reviewable_roles_sound.
      by apply bool_decide_eq_true in Hreview.
Qed.

(** ** Approval requests in [django_server/]
    ([django_server/approvals/views.py],
    [django_server/approvals/serializers.py],
    [django_server/approvals/models.py]) *)

(** Creating one notification after another. *)
Lemma ds_create_notifications {A} (f : A → DjangoServer.ApprovalNotification.t)
    (l : list A) (st : DjangoServer.Store) :
  let st' := foldl (λ st a, DjangoServer.create_notification (f a) st) st l in
  DjangoServer.documents st' = DjangoServer.documents st ∧
  DjangoServer.document_versions st' = DjangoServer.document_versions st ∧
  DjangoServer.approval_requests st' = DjangoServer.approval_requests st ∧
  DjangoServer.activity_logs st' = DjangoServer.activity_logs st ∧
  size (DjangoServer.approval_notifications st')
  = size (DjangoServer.approval_notifications st) + length l ∧
  (∀ key n,
     DjangoServer.approval_notifications st !! key = Some n →
     DjangoServer.approval_notifications st' !! key = Some n) ∧
  (∀ key n,
     DjangoServer.approval_notifications st' !! key = Some n →
     DjangoServer.approval_notifications st !! key = None →
     ∃ a, a ∈ l ∧ n = f a) ∧
  (∀ a, a ∈ l →
        ∃ key, DjangoServer.approval_notifications st !! key = None ∧
               DjangoServer.approval_notifications st' !! key = Some (f a)).
Proof.
  revert st. induction l as [|a l IH]; intros st; simpl.
  { repeat split; try done; try lia.
    - intros key n H1 H2. congruence.
    - by intros a ?%elem_of_nil. }
  specialize (IH (DjangoServer.create_notification (f a) st)).
  destruct IH as (Hd & Hv & Hr & Hl & Hsize & Hold & Hnew & Hall).
  set (k := fresh ({[0]} ∪ dom (DjangoServer.approval_notifications st))) in *.
  assert (DjangoServer.approval_notifications st !! k = None) as Hk
    by apply fresh_key_unused.
  assert (DjangoServer.approval_notifications
            (DjangoServer.create_notification (f a) st)
          = <[k := f a]> (DjangoServer.approval_notifications st)) as Hins by done.
  cbv zeta in *. rewrite ?Hins in *.

  split; [done|]. split; [done|]. split; [done|]. split; [done|]. split.
  { rewrite Hsize, map_size_insert_None by done. lia. }
  split; [|split].
  - intros key n Hkey. apply Hold. rewrite lookup_insert_ne; [done|]. congruence.
  - intros key n Hkey Hnone. destruct (decide (key = k)) as [->|Hne].
    + exists a. split; [left|].
      assert (<[k:=f a]> (DjangoServer.approval_notifications st) !! k = Some (f a))
        as H1 by apply lookup_insert_eq.
      apply Hold in H1. congruence.
    + destruct (Hnew key n Hkey) as (a' & Ha' & ->).
      { by rewrite lookup_insert_ne. }
      exists a'. split; [by right|done].
  - intros a' [->|Ha']%elem_of_cons.
    + exists k. split; [done|]. apply Hold, lookup_insert_eq.
    + destruct (Hall a' Ha') as (key & Hkey & Hkey').
      exists key. split; [|done].
      apply lookup_insert_None in Hkey as [? _]. done.
Qed.

Lemma ds_pending_exists_false (document : nat) (st : DjangoServer.Store) :
  exists_
    (objects_filter
       (λ r, bool_decide (DjangoServer.ApprovalRequest.document r = document)
             && bool_decide (DjangoServer.ApprovalRequest.status r = PENDING))
       (DjangoServer.approval_requests st)) = false ↔
  ∀ k r, DjangoServer.approval_requests st !! k = Some r →
         DjangoServer.ApprovalRequest.document r = document →
         DjangoServer.ApprovalRequest.status r ≠ PENDING.
Proof.
  rewrite exists_filter_false. split.
  - intros H k r Hk Hd Hs. specialize (H k r Hk).
    rewrite !bool_decide_eq_true_2 in H by done. done.
  - intros H k r Hk. apply andb_false_iff.
    destruct (decide (DjangoServer.ApprovalRequest.document r = document)) as [Hd|Hd].
    + right. apply bool_decide_eq_false. by eapply H.
    + left. by apply bool_decide_eq_false.
Qed.

Lemma ds_saved_document_category (d d' : DjangoServer.Document.t) :
  (∀ v, DjangoServer.Document.set_slug v d' = DjangoServer.Document.set_slug v d) →
  DjangoServer.Document.category d' = DjangoServer.Document.category d ∧
  DjangoServer.Document.title d' = DjangoServer.Document.title d ∧
  DjangoServer.Document.status d' = DjangoServer.Document.status d.
Proof.
  intros H. specialize (H ""). destruct d, d'. by injection H as -> -> -> -> -> -> -> -> ->.
Qed.

(** X17: creating an approval request in [django_server/].  When the
    document exists, is neither APPROVED nor LIVE, has no pending request,
    and the caller's role is not PUBLIC, the POST answers 201 with a new
    PENDING request of the caller under an unused key, with the notes or
    the empty string and the priority or MEDIUM.  The document is stored
    UNDER_REVIEW, versions are untouched, every approver gets exactly one
    unread REQUESTED notification under a new key, no other notification
    is created or changed, none goes to the caller, and one
    APPROVAL_REQUESTED activity log is written. *)
Theorem ds_approval_request_creation `{!Slugify} (user : DjangoServer.User.t)
    (users : gmap nat DjangoServer.UserRow.t) (document_id : nat)
    (notes priority : option string) (due_date : dt_value) (st : DjangoServer.Store)
    (d : DjangoServer.Document.t)
    (Hdoc : DjangoServer.documents st !! document_id = Some d)
    (Hrole : DjangoServer.User.can_create_documents user = true)
    (Hstatus : DjangoServer.Document.status d ∉ [APPROVED; LIVE])
    (Hnone : ∀ k r, DjangoServer.approval_requests st !! k = Some r →
                    DjangoServer.ApprovalRequest.document r = document_id →
                    DjangoServer.ApprovalRequest.status r ≠ PENDING) :
  let r :=
    DjangoServer.ApprovalRequest.mk document_id (DjangoServer.User.id user) PENDING
      (default "" notes) None DtNull (default "MEDIUM" priority) due_date in
  let recipients :=
    DjangoServer.ApprovalRequestCreateSerializer.approvers
      (DjangoServer.DocumentCategory.required_approval_role
         (DjangoServer.Document.category d))
      (DjangoServer.User.id user) users in
  ∃ k d' st',
    DjangoServer.ApprovalRequestViewSet.create user users document_id notes priority
      due_date st
    = Some (inr (DataResponse 201 (MkInstance k r)), st') ∧
    DjangoServer.approval_requests st !! k = None ∧
    DjangoServer.approval_requests st' = <[k := r]> (DjangoServer.approval_requests st) ∧
    DjangoServer.documents st' = <[document_id := d']> (DjangoServer.documents st) ∧
    (∀ v, DjangoServer.Document.set_slug v d'
          = DjangoServer.Document.set_slug v
              (DjangoServer.Document.set_status UNDER_REVIEW d)) ∧
    DjangoServer.document_versions st' = DjangoServer.document_versions st ∧
    size (DjangoServer.approval_notifications st')
    = size (DjangoServer.approval_notifications st) + size recipients ∧
    (∀ key n,
       DjangoServer.approval_notifications st !! key = Some n →
       DjangoServer.approval_notifications st' !! key = Some n) ∧
    (∀ j u,
       recipients !! j = Some u →
       ∃ key,
         DjangoServer.approval_notifications st !! key = None ∧
         DjangoServer.approval_notifications st' !! key
         = Some (DjangoServer.ApprovalNotification.mk k j "REQUESTED"
                   ("New approval request for " +:+ DjangoServer.dquote
                    +:+ DjangoServer.Document.title d +:+ DjangoServer.dquote
                    +:+ " from " +:+ DjangoServer.User.full_name user)
                   false)) ∧
    (∀ key n,
       DjangoServer.approval_notifications st' !! key = Some n →
       DjangoServer.approval_notifications st !! key = None →
       DjangoServer.ApprovalNotification.approval_request n = k ∧
       DjangoServer.ApprovalNotification.notification_type n = "REQUESTED" ∧
       DjangoServer.ApprovalNotification.is_read n = false ∧
       DjangoServer.ApprovalNotification.recipient n ≠ DjangoServer.User.id user ∧
       is_Some (recipients !! DjangoServer.ApprovalNotification.recipient n)) ∧
    (∃ key,
       DjangoServer.activity_logs st !! key = None ∧
       DjangoServer.activity_logs st'
       = <[key := DjangoServer.ActivityLog.mk (DjangoServer.User.id user)
                    "APPROVAL_REQUESTED" "ApprovalRequest" k]>
           (DjangoServer.activity_logs st)).
Proof.
  intros r recipients.
  unfold DjangoServer.ApprovalRequestViewSet.create,
    DjangoServer.ApprovalRequestViewSet.has_permission_post.
  rewrite Hrole. simpl. unfold objects_get. rewrite Hdoc. simpl.
  unfold DjangoServer.ApprovalRequestCreateSerializer.validate_document. simpl.
  rewrite bool_decide_eq_false_2 by done.
  assert (exists_
            (objects_filter
               (λ r, bool_decide (DjangoServer.ApprovalRequest.document r = document_id)
                     && bool_decide (DjangoServer.ApprovalRequest.status r = PENDING))
               (DjangoServer.approval_requests st)) = false) as ->
    by by apply ds_pending_exists_false.
  unfold DjangoServer.ApprovalRequestViewSet.perform_create,
    DjangoServer.ApprovalRequestCreateSerializer.create. simpl.
  set (k := fresh ({[0]} ∪ dom (DjangoServer.approval_requests st))).
  fold r.
  set (st1 := DjangoServer.with_approval_requests _ st).
  destruct (ds_save_document_is_Some
              (MkInstance document_id (DjangoServer.Document.set_status UNDER_REVIEW d))
              st1) as (d' & Hsave & Hd').
  rewrite Hsave. simpl.
  destruct (ds_saved_document_category _ _ Hd') as (Hcat & Htitle & _).
  simpl in Hcat, Htitle. rewrite Hcat, Htitle. fold recipients.
  match goal with |- context [foldl ?f ?s ?l] =>
    destruct (ds_create_notifications
                (λ approver : nat * DjangoServer.UserRow.t,
                   DjangoServer.ApprovalNotification.mk k approver.1 "REQUESTED"
                     ("New approval request for " +:+ DjangoServer.dquote
                      +:+ DjangoServer.Document.title d +:+ DjangoServer.dquote
                      +:+ " from " +:+ DjangoServer.User.full_name user)
                     false) l s)
      as (Hdocs & Hvers & Hreqs & Hlogs & Hsize & Hold & Hnew & Hall);
    set (st2 := foldl f s l) in *
  end.
  exists k, d', (DjangoServer.create_activity_log
                   (DjangoServer.ActivityLog.mk (DjangoServer.User.id user)
                      "APPROVAL_REQUESTED" "ApprovalRequest" k) st2).
  split; [done|]. split; [apply fresh_key_unused|].
  simpl. split; [by rewrite Hreqs|]. split; [by rewrite Hdocs|]. split; [done|].
  split; [by rewrite Hvers|]. split.
  { rewrite Hsize, length_map_to_list. done. }
  split; [exact Hold|]. split; [|split].
  - intros j u Hj. apply (Hall (j, u)). by apply elem_of_map_to_list.
  - intros key n Hkey Hnone'. destruct (Hnew key n Hkey Hnone') as ([j u] & Hin & ->).
    apply elem_of_map_to_list in Hin. simpl.
    split; [done|]. split; [done|]. split; [done|]. split; [|by eexists].
    unfold recipients, DjangoServer.ApprovalRequestCreateSerializer.approvers,
      exclude_id in Hin.
    by apply lookup_delete_Some in Hin as [? _].
  - simpl in Hlogs.
    exists (fresh ({[0]} ∪ dom (DjangoServer.activity_logs st))). split.
    + apply fresh_key_unused.
    + unfold DjangoServer.create_activity_log, objects_create. simpl.
      by rewrite Hlogs.
Qed.

(** X17 at work: Vera asks for approval of the newsletter once its earlier
    request has been rejected; the three other members are notified. *)
Lemma ds_approval_request_creation_witness :
  ∃ st',
    @DjangoServer.ApprovalRequestViewSet.create Samples.slugify_id Samples.ds_vera
      Samples.ds_members 1 None None DtNull (Samples.ds_store REJECTED)
    = Some (inr (DataResponse 201
                   (MkInstance 2
                      (DjangoServer.ApprovalRequest.mk 1 8 PENDING "" None DtNull
                         "MEDIUM" DtNull))),
            st') ∧
    size (DjangoServer.approval_notifications st') = 3.
Proof.
  destruct (@ds_approval_request_creation Samples.slugify_id Samples.ds_vera
              Samples.ds_members 1 None None DtNull (Samples.ds_store REJECTED)
              Samples.ds_newsletter)
    as (k & d' & st' & Hcreate & _ & _ & _ & _ & _ & Hsize & _).
  - reflexivity.
  - reflexivity.
  - vm_compute. set_unfold. intuition discriminate.
  - intros k r Hk _.
    change (DjangoServer.approval_requests (Samples.ds_store REJECTED))
      with ({[ 1 := Samples.ds_request REJECTED ]}
            : gmap nat DjangoServer.ApprovalRequest.t) in Hk.
    apply lookup_singleton_Some in Hk as [_ <-]. done.
  - exists st'. split; [|by rewrite Hsize].
    rewrite Hcreate. vm_compute in Hcreate. by simplify_eq.
Defined.

Lemma ds_pending_kept_by_decision (rq : gmap nat DjangoServer.ApprovalRequest.t) k r' :
  DjangoServer.ApprovalRequest.status r' ≠ PENDING →
  ds_at_most_one_pending rq → ds_at_most_one_pending (<[k := r']> rq).
Proof.
  intros Hr' Hinv i j r1 r2 Hi Hj Hdoc H1 H2.
  destruct (decide (i = k)) as [->|Hik].
  { rewrite lookup_insert_eq in Hi. by simplify_eq. }
  destruct (decide (j = k)) as [->|Hjk].
  { rewrite lookup_insert_eq in Hj. by simplify_eq. }
  rewrite lookup_insert_ne in Hi, Hj by done. by eapply Hinv.
Qed.

Lemma ds_pending_kept_by_request (rq : gmap nat DjangoServer.ApprovalRequest.t) k r :
  rq !! k = None →
  (∀ j r', rq !! j = Some r' →
           DjangoServer.ApprovalRequest.document r'
           = DjangoServer.ApprovalRequest.document r →
           DjangoServer.ApprovalRequest.status r' ≠ PENDING) →
  ds_at_most_one_pending rq → ds_at_most_one_pending (<[k := r]> rq).
Proof.
  intros Hk Hnone Hinv i j r1 r2 Hi Hj Hdoc H1 H2.
  destruct (decide (i = k)) as [->|Hik], (decide (j = k)) as [->|Hjk]; [done|..].
  - rewrite lookup_insert_eq in Hi. rewrite lookup_insert_ne in Hj by done.
    injection Hi as <-. by destruct (Hnone j r2 Hj).
  - rewrite lookup_insert_eq in Hj. rewrite lookup_insert_ne in Hi by done.
    injection Hj as <-. by destruct (Hnone i r1 Hi).
  - rewrite lookup_insert_ne in Hi, Hj by done. by eapply Hinv.
Qed.

Lemma ds_create_requests `{!Slugify} user users document_id notes priority due_date
    st result st' :
  DjangoServer.ApprovalRequestViewSet.create user users document_id notes priority
    due_date st = Some (result, st') →
  (st' = st ∧ ∃ e, result = inl e) ∨
  ∃ k r,
    DjangoServer.approval_requests st !! k = None ∧
    DjangoServer.ApprovalRequest.status r = PENDING ∧
    DjangoServer.ApprovalRequest.document r = document_id ∧
    (∀ j r', DjangoServer.approval_requests st !! j = Some r' →
             DjangoServer.ApprovalRequest.document r' = document_id →
             DjangoServer.ApprovalRequest.status r' ≠ PENDING) ∧
    DjangoServer.approval_requests st' = <[k := r]> (DjangoServer.approval_requests st).
Proof.
  unfold DjangoServer.ApprovalRequestViewSet.create.
  destruct (DjangoServer.ApprovalRequestViewSet.has_permission_post user) eqn:Hperm;
    simpl; [|intros [= <- <-]; left; eauto].
  unfold objects_get.
  destruct (DjangoServer.documents st !! document_id) as [d|] eqn:Hdoc; simpl;
    [|intros [= <- <-]; left; eauto].
  unfold DjangoServer.ApprovalRequestCreateSerializer.validate_document. simpl.
  case_bool_decide as Hstatus; [intros [= <- <-]; left; eauto|].
  destruct (exists_ _) eqn:Hpending; [intros [= <- <-]; left; eauto|].
  intros Hcreate. right.
  unfold DjangoServer.ApprovalRequestViewSet.perform_create,
    DjangoServer.ApprovalRequestCreateSerializer.create in Hcreate. simpl in Hcreate.
  set (k := fresh ({[0]} ∪ dom (DjangoServer.approval_requests st))) in *.
  set (st1 := DjangoServer.with_approval_requests _ st) in *.
  destruct (ds_save_document_is_Some
              (MkInstance document_id (DjangoServer.Document.set_status UNDER_REVIEW d))
              st1) as (d' & Hsave & _).
  rewrite Hsave in Hcreate. simpl in Hcreate.
  match type of Hcreate with context [foldl ?f ?s ?l] =>
    destruct (ds_create_notifications
                (λ approver : nat * DjangoServer.UserRow.t,
                   DjangoServer.ApprovalNotification.mk k approver.1 "REQUESTED"
                     ("New approval request for " +:+ DjangoServer.dquote
                      +:+ DjangoServer.Document.title d' +:+ DjangoServer.dquote
                      +:+ " from " +:+ DjangoServer.User.full_name user)
                     false) l s)
      as (_ & _ & Hreqs & _)
  end.
  injection Hcreate as <- <-.
  eexists k, _. split; [apply fresh_key_unused|].
  split; [|split; [|split; [by apply ds_pending_exists_false|]]]; [..|exact Hreqs];
    done.
Qed.

Lemma ds_get_object_inv user k st l :
  DjangoServer.ApprovalRequestViewSet.get_object user k st = inr l →
  ∃ r d,
    l = DjangoServer.MkLoaded (MkInstance k r)
          (MkInstance (DjangoServer.ApprovalRequest.document r) d) ∧
    DjangoServer.approval_requests st !! k = Some r ∧
    DjangoServer.documents st !! DjangoServer.ApprovalRequest.document r = Some d.
Proof.
  unfold DjangoServer.ApprovalRequestViewSet.get_object.
  destruct (negb _); [done|].
  destruct (DjangoServer.ApprovalRequestViewSet.get_queryset user st !! k) as [r|] eqn:Hk;
    [|done].
  unfold DjangoServer.load_request, objects_get.
  destruct (DjangoServer.documents st !! DjangoServer.ApprovalRequest.document r)
    as [d|] eqn:Hd; simpl; [|done].
  destruct (DjangoServer.ApprovalRequestViewSet.has_object_permission _ _); [|done].
  intros [= <-]. exists r, d. split; [done|]. split; [|done].
  unfold DjangoServer.ApprovalRequestViewSet.get_queryset in Hk.
  destruct (negb _); [|done].
  by apply objects_filter_lookup_Some in Hk as [Hk _].
Qed.

(** What [approve] and [reject] of [django_server/] store. *)
Lemma ds_approve_effect `{!Slugify} self user notes now_review now_document st :
  let r' :=
    (if truthy (Some notes) then DjangoServer.ApprovalRequest.set_notes notes else id)
      (DjangoServer.ApprovalRequest.set_reviewed_at (DtTime now_review)
         (DjangoServer.ApprovalRequest.set_reviewed_by (Some (DjangoServer.User.id user))
            (DjangoServer.ApprovalRequest.set_status APPROVED
               (row (DjangoServer.request self))))) in
  ∃ d' key,
    (∀ v, DjangoServer.Document.set_slug v d'
          = DjangoServer.Document.set_slug v
              (DjangoServer.Document.set_approved_at (DtTime now_document)
                 (DjangoServer.Document.set_approved_by (Some (DjangoServer.User.id user))
                    (DjangoServer.Document.set_status APPROVED
                       (row (DjangoServer.request_document self)))))) ∧
    DjangoServer.approval_notifications st !! key = None ∧
    DjangoServer.approve self user notes now_review now_document st
    = Some
        (DjangoServer.MkLoaded (MkInstance (pk (DjangoServer.request self)) r')
           (MkInstance (pk (DjangoServer.request_document self)) d'),
         DjangoServer.MkStore
           (<[pk (DjangoServer.request_document self) := d']> (DjangoServer.documents st))
           (DjangoServer.document_versions st)
           (<[pk (DjangoServer.request self) := r']> (DjangoServer.approval_requests st))
           (<[key := DjangoServer.ApprovalNotification.mk (pk (DjangoServer.request self))
                       (DjangoServer.ApprovalRequest.requested_by
                          (row (DjangoServer.request self)))
                       APPROVED
                       ("Your document " +:+ DjangoServer.dquote
                        +:+ DjangoServer.Document.title d' +:+ DjangoServer.dquote
                        +:+ " has been approved by " +:+ DjangoServer.User.full_name user)
                       false]>
              (DjangoServer.approval_notifications st))
           (DjangoServer.activity_logs st)).
Proof.
  intros r'. unfold DjangoServer.approve.
  match goal with |- context [DjangoServer.save_document ?i ?s] =>
    destruct (ds_save_document_is_Some i s) as (d' & Hsave & Hd') end.
  exists d', (fresh ({[0]} ∪ dom (DjangoServer.approval_notifications st))).
  split; [exact Hd'|]. split; [apply fresh_key_unused|].
  rewrite Hsave. simpl. subst r'. simpl. by destruct (bool_decide (notes = "")).
Qed.

Lemma ds_reject_effect `{!Slugify} self user notes now_review st :
  let r' :=
    DjangoServer.ApprovalRequest.set_notes notes
      (DjangoServer.ApprovalRequest.set_reviewed_at (DtTime now_review)
         (DjangoServer.ApprovalRequest.set_reviewed_by (Some (DjangoServer.User.id user))
            (DjangoServer.ApprovalRequest.set_status REJECTED
               (row (DjangoServer.request self))))) in
  ∃ d' key,
    (∀ v, DjangoServer.Document.set_slug v d'
          = DjangoServer.Document.set_slug v
              (DjangoServer.Document.set_status PENDING
                 (row (DjangoServer.request_document self)))) ∧
    DjangoServer.approval_notifications st !! key = None ∧
    DjangoServer.reject self user notes now_review st
    = Some
        (DjangoServer.MkLoaded (MkInstance (pk (DjangoServer.request self)) r')
           (MkInstance (pk (DjangoServer.request_document self)) d'),
         DjangoServer.MkStore
           (<[pk (DjangoServer.request_document self) := d']> (DjangoServer.documents st))
           (DjangoServer.document_versions st)
           (<[pk (DjangoServer.request self) := r']> (DjangoServer.approval_requests st))
           (<[key := DjangoServer.ApprovalNotification.mk (pk (DjangoServer.request self))
                       (DjangoServer.ApprovalRequest.requested_by
                          (row (DjangoServer.request self)))
                       REJECTED
                       ("Your document " +:+ DjangoServer.dquote
                        +:+ DjangoServer.Document.title d' +:+ DjangoServer.dquote
                        +:+ " has been rejected by " +:+ DjangoServer.User.full_name user)
                       false]>
              (DjangoServer.approval_notifications st))
           (DjangoServer.activity_logs st)).
Proof.
  intros r'. unfold DjangoServer.reject.
  match goal with |- context [DjangoServer.save_document ?i ?s] =>
    destruct (ds_save_document_is_Some i s) as (d' & Hsave & Hd') end.
  exists d', (fresh ({[0]} ∪ dom (DjangoServer.approval_notifications st))).
  split; [exact Hd'|]. split; [apply fresh_key_unused|].
  by rewrite Hsave.
Qed.

Lemma ds_review_requests `{!Slugify} user k data now_review now_document st result st' :
  DjangoServer.ApprovalRequestViewSet.review user k data now_review now_document st
  = Some (result, st') →
  DjangoServer.approval_requests st' = DjangoServer.approval_requests st ∨
  ∃ r', DjangoServer.ApprovalRequest.status r' ≠ PENDING ∧
        DjangoServer.approval_requests st'
        = <[k := r']> (DjangoServer.approval_requests st).
Proof.
  unfold DjangoServer.ApprovalRequestViewSet.review.
  destruct (DjangoServer.ApprovalRequestViewSet.get_object user k st) as [e|l] eqn:Hget;
    [intros [= <- <-]; by left|].
  apply ds_get_object_inv in Hget as (r & d & -> & Hk & Hd).
  destruct (negb _); [intros [= <- <-]; by left|].
  destruct (DjangoServer.ApprovalReviewSerializer.validate data) as [e|vd];
    [intros [= <- <-]; by left|].
  case_bool_decide.
  - match goal with |- context [DjangoServer.approve ?a ?b ?c ?d ?e ?f] =>
      destruct (ds_approve_effect a b c d e f) as (d' & key & _ & _ & ->) end.
    simpl. intros [= <- <-]. right. simpl. eexists. split; [|done].
    by destruct (negb _).
  - match goal with |- context [DjangoServer.reject ?a ?b ?c ?d ?e] =>
      destruct (ds_reject_effect a b c d e) as (d' & key & _ & _ & ->) end.
    simpl. intros [= <- <-]. right. simpl. eexists. split; [|done]. done.
Qed.

Lemma ds_cancel_requests user k now st :
  DjangoServer.approval_requests (DjangoServer.ApprovalRequestViewSet.cancel user k now st).2
  = DjangoServer.approval_requests st ∨
  ∃ r', DjangoServer.ApprovalRequest.status r' ≠ PENDING ∧
        DjangoServer.approval_requests
          (DjangoServer.ApprovalRequestViewSet.cancel user k now st).2
        = <[k := r']> (DjangoServer.approval_requests st).
Proof.
  unfold DjangoServer.ApprovalRequestViewSet.cancel.
  destruct (DjangoServer.ApprovalRequestViewSet.get_object user k st) as [e|l] eqn:Hget;
    [by left|].
  apply ds_get_object_inv in Hget as (r & d & -> & Hk & Hd).
  unfold DjangoServer.cancel. simpl.
  destruct (_ && _); simpl; [by left|]. right. eexists. split; [|reflexivity]. done.
Qed.

Lemma truthy_default (notes : option string) :
  truthy (Some (default "" notes)) = truthy notes.
Proof. by destruct notes. Qed.

(** X18: reviewing a request in [django_server/], for a caller who can
    load the request and may review it.  An action other than approve or
    reject, and a reject without notes, raise a validation error and leave
    the database unchanged.  Otherwise the answer is 200: the request
    becomes APPROVED or REJECTED with the reviewer and the review time,
    its notes are replaced unless an approval brings none, the document
    becomes APPROVED (on approve) or PENDING (on reject), versions are
    untouched, the requester gets one unread notification under a new
    key and one activity log is written. *)
Theorem ds_review_decision `{!Slugify} (user : DjangoServer.User.t) (k : nat)
    (data : DjangoServer.ApprovalReviewSerializer.data) (now_review now_document : Z)
    (st : DjangoServer.Store) (l : DjangoServer.LoadedRequest)
    (Hget : DjangoServer.ApprovalRequestViewSet.get_object user k st = inr l)
    (Hcan : DjangoServer.can_user_review l user = true) :
  let r := row (DjangoServer.request l) in
  let action := DjangoServer.ApprovalReviewSerializer.action data in
  let notes := DjangoServer.ApprovalReviewSerializer.notes data in
  let approving := bool_decide (action = "approve") in
  (action ∉ ["approve"; "reject"] ∨ (action = "reject" ∧ truthy notes = false) →
   ∃ detail,
     DjangoServer.ApprovalRequestViewSet.review user k data now_review now_document st
     = Some (inl (ValidationError detail), st)) ∧
  (action = "approve" ∨ (action = "reject" ∧ truthy notes = true) →
   ∃ r' d' st' key_n key_l n,
     DjangoServer.ApprovalRequestViewSet.review user k data now_review now_document st
     = Some (inr (DataResponse 200
                    (DjangoServer.MkLoaded (MkInstance k r')
                       (MkInstance (DjangoServer.ApprovalRequest.document r) d'))),
             st') ∧
     r' = DjangoServer.ApprovalRequest.mk
            (DjangoServer.ApprovalRequest.document r)
            (DjangoServer.ApprovalRequest.requested_by r)
            (if approving then APPROVED else REJECTED)
            (if approving && negb (truthy notes)
             then DjangoServer.ApprovalRequest.notes r else default "" notes)
            (Some (DjangoServer.User.id user)) (DtTime now_review)
            (DjangoServer.ApprovalRequest.priority r)
            (DjangoServer.ApprovalRequest.due_date r) ∧
     DjangoServer.approval_requests st' = <[k := r']> (DjangoServer.approval_requests st) ∧
     DjangoServer.documents st'
     = <[DjangoServer.ApprovalRequest.document r := d']> (DjangoServer.documents st) ∧
     DjangoServer.Document.status d' = (if approving then APPROVED else PENDING) ∧
     DjangoServer.document_versions st' = DjangoServer.document_versions st ∧
     DjangoServer.approval_notifications st !! key_n = None ∧
     DjangoServer.approval_notifications st'
     = <[key_n := n]> (DjangoServer.approval_notifications st) ∧
     DjangoServer.ApprovalNotification.approval_request n = k ∧
     DjangoServer.ApprovalNotification.recipient n
     = DjangoServer.ApprovalRequest.requested_by r ∧
     DjangoServer.ApprovalNotification.notification_type n
     = (if approving then APPROVED else REJECTED) ∧
     DjangoServer.ApprovalNotification.is_read n = false ∧
     DjangoServer.activity_logs st !! key_l = None ∧
     DjangoServer.activity_logs st'
     = <[key_l := DjangoServer.ActivityLog.mk (DjangoServer.User.id user)
                    (if approving then "APPROVAL_APPROVED" else "APPROVAL_REJECTED")
                    "ApprovalRequest" k]>
         (DjangoServer.activity_logs st)).
Proof.
  intros r action notes approving.
  apply ds_get_object_inv in Hget as Hinv. destruct Hinv as (r0 & d & -> & Hk & Hd).
  simpl in r. subst r.
  unfold DjangoServer.ApprovalRequestViewSet.review. rewrite Hget, Hcan. simpl.
  unfold DjangoServer.ApprovalReviewSerializer.validate. fold action notes.
  split.
  - intros [Hbad|[Hreject Hnotes]].
    + rewrite bool_decide_eq_false_2 by done. by eexists.
    + rewrite bool_decide_eq_true_2 by (rewrite Hreject; set_unfold; tauto). simpl.
      rewrite (bool_decide_eq_true_2 (action = "reject")) by done.
      rewrite Hnotes. by eexists.
  - intros Hcase.
    assert (action ∈ ["approve"; "reject"]) as Hin
      by (destruct Hcase as [->|[-> _]]; set_unfold; tauto).
    rewrite bool_decide_eq_true_2 by done. simpl.
    assert (bool_decide (action = "reject") && negb (truthy notes) = false) as ->.
    { destruct Hcase as [Ha|[_ ->]]; [|apply andb_false_r].
      rewrite bool_decide_eq_false_2; [done|]. rewrite Ha. done. }
    fold action notes. fold approving.
    destruct approving eqn:Happroving.
    + match goal with |- context [DjangoServer.approve ?a ?b ?c ?d ?e ?f] =>
        destruct (ds_approve_effect a b c d e f) as (d' & key & Hd' & Hkey & ->) end.
      simpl.
      destruct (ds_saved_document_category _ _ Hd') as (_ & _ & Hstatus).
      eexists _, d', _, key, _, _. split; [reflexivity|].
      assert (negb (bool_decide (default "" notes = "")) = truthy notes) as Ht
        by (by rewrite <- truthy_default).
      rewrite !Ht. simpl.
      split; [by destruct (truthy notes), r0|].
      split; [by destruct (truthy notes)|]. split; [done|]. split; [done|].
      split; [done|]. split; [done|]. split; [done|]. split; [done|].
      split; [done|]. split; [done|]. split; [done|].
      split; [apply fresh_key_unused|]. done.
    + match goal with |- context [DjangoServer.reject ?a ?b ?c ?d ?e] =>
        destruct (ds_reject_effect a b c d e) as (d' & key & Hd' & Hkey & ->) end.
      simpl.
      destruct (ds_saved_document_category _ _ Hd') as (_ & _ & Hstatus).
      eexists _, d', _, key, _, _. split; [reflexivity|].
      simpl. split; [by destruct r0|].
      split; [done|]. split; [done|]. split; [done|].
      split; [done|]. split; [done|]. split; [done|]. split; [done|].
      split; [done|]. split; [done|]. split; [done|].
      split; [apply fresh_key_unused|]. done.
Qed.

(** X18 at work: Paul rejects Vera's pending request with a note. *)
Lemma ds_review_decision_witness :
  ∃ st',
    (@DjangoServer.ApprovalRequestViewSet.review Samples.slugify_id Samples.ds_paul 1
       Samples.ds_rejection 5 6 (Samples.ds_store PENDING)
     = Some (inr (DataResponse 200
                    (DjangoServer.MkLoaded
                       (MkInstance 1
                          (DjangoServer.ApprovalRequest.mk 1 8 REJECTED "Too long"
                             (Some 9) (DtTime 5) "MEDIUM" DtNull))
                       (MkInstance 1
                          (DjangoServer.Document.set_status PENDING
                             Samples.ds_newsletter)))),
             st')).
Proof.
  destruct (@ds_review_decision Samples.slugify_id Samples.ds_paul 1
              Samples.ds_rejection 5 6 (Samples.ds_store PENDING)
              (Samples.ds_loaded PENDING)) as [_ H]; [reflexivity..|].
  destruct H as (r' & d' & st' & key_n & key_l & n & Hreview & _);
    [right; by vm_compute|].
  exists st'. rewrite Hreview. vm_compute in Hreview. by simplify_eq.
Defined.

(** X19: one pending request per document in [django_server/].  The
    POST is refused with the database unchanged when the document is
    APPROVED or LIVE or already has a pending request; and when no
    document has two pending requests, this still holds after a create,
    a review and a cancel, whatever they answer. *)
Theorem ds_one_pending_request_per_document `{!Slugify} :
  (∀ user users document_id notes priority due_date st d,
     DjangoServer.documents st !! document_id = Some d →
     DjangoServer.Document.status d ∈ [APPROVED; LIVE]
     ∨ (∃ k r, DjangoServer.approval_requests st !! k = Some r ∧
               DjangoServer.ApprovalRequest.document r = document_id ∧
               DjangoServer.ApprovalRequest.status r = PENDING) →
     ∃ e, DjangoServer.ApprovalRequestViewSet.create user users document_id notes
            priority due_date st = Some (inl e, st)) ∧
  (∀ user users document_id notes priority due_date st result st',
     DjangoServer.ApprovalRequestViewSet.create user users document_id notes priority
       due_date st = Some (result, st') →
     ds_at_most_one_pending (DjangoServer.approval_requests st) →
     ds_at_most_one_pending (DjangoServer.approval_requests st')) ∧
  (∀ user k data now_review now_document st result st',
     DjangoServer.ApprovalRequestViewSet.review user k data now_review now_document st
     = Some (result, st') →
     ds_at_most_one_pending (DjangoServer.approval_requests st) →
     ds_at_most_one_pending (DjangoServer.approval_requests st')) ∧
  (∀ user k now st,
     ds_at_most_one_pending (DjangoServer.approval_requests st) →
     ds_at_most_one_pending
       (DjangoServer.approval_requests
          (DjangoServer.ApprovalRequestViewSet.cancel user k now st).2)).
Proof.
  split; [|split; [|split]].
  - intros user users document_id notes priority due_date st d Hdoc Hcase.
    unfold DjangoServer.ApprovalRequestViewSet.create.
    destruct (negb _); [by eexists|].
    unfold objects_get. rewrite Hdoc. simpl.
    unfold DjangoServer.ApprovalRequestCreateSerializer.validate_document. simpl.
    case_bool_decide as Hstatus; [by eexists|].
    destruct Hcase as [?|(k & r & Hk & Hd & Hs)]; [done|].
    destruct (exists_ _) eqn:Hpending; [by eexists|].
    rewrite ds_pending_exists_false in Hpending. by destruct (Hpending k r).
  - intros user users document_id notes priority due_date st result st' Hcreate Hinv.
    destruct (ds_create_requests _ _ _ _ _ _ _ _ _ Hcreate)
      as [[-> _]|(k & r & Hk & Hs & Hd & Hnone & ->)]; [done|].
    apply ds_pending_kept_by_request; [done| |done].
    intros j r' Hj Hdoc. apply (Hnone j r' Hj). congruence.
  - intros user k data now_review now_document st result st' Hreview Hinv.
    destruct (ds_review_requests _ _ _ _ _ _ _ _ Hreview) as [->|(r' & Hr' & ->)];
      [done|].
    by apply ds_pending_kept_by_decision.
  - intros user k now st Hinv.
    destruct (ds_cancel_requests user k now st) as [->|(r' & Hr' & ->)]; [done|].
    by apply ds_pending_kept_by_decision.
Qed.

(** ** Documents in [django_server/] ([django_server/documents/views.py],
    [django_server/documents/models.py],
    [django_server/documents/serializers.py]) *)

Lemma get_unique_singleton {A} (k : nat) (r : A) :
  get_unique ({[ k := r ]} : gmap nat A) = inr (MkInstance k r).
Proof. unfold get_unique. by rewrite map_to_list_singleton. Qed.

Lemma objects_filter_only {A} (p : A → bool) (table : gmap nat A) k r :
  table !! k = Some r → p r = true →
  (∀ j r', table !! j = Some r' → p r' = true → j = k) →
  objects_filter p table = {[ k := r ]}.
Proof.
  intros Hk Hp Honly. apply map_eq. intros j. apply option_eq. intros r'.
  rewrite objects_filter_lookup_Some, lookup_singleton_Some. split.
  - intros [Hj Hp']. assert (j = k) as -> by by eapply Honly.
    split; [done|congruence].
  - by intros [<- <-].
Qed.

(** The rows of the queryset of [DocumentViewSet] are stored documents. *)
Lemma ds_document_queryset_stored user st k d :
  DjangoServer.DocumentViewSet.get_queryset user st !! k = Some d →
  DjangoServer.documents st !! k = Some d.
Proof.
  unfold DjangoServer.DocumentViewSet.get_queryset.
  destruct user as [user|]; [case_bool_decide|];
    rewrite ?objects_filter_lookup_Some; tauto.
Qed.

(** With unique slugs, [get_object] finds the row of the queryset that
    carries the slug and asks for the permission on it. *)
Lemma ds_document_get_object_found method user st k d :
  unique_slugs DjangoServer.Document.slug (DjangoServer.documents st) →
  DjangoServer.DocumentViewSet.get_queryset user st !! k = Some d →
  DjangoServer.DocumentPermission.has_permission method user = true →
  DjangoServer.DocumentViewSet.get_object method user (DjangoServer.Document.slug d) st
  = match DjangoServer.DocumentPermission.has_object_permission method user d with
    | Some true => inr (MkInstance k d)
    | Some false => inl DjangoServer.permission_denied
    | None => inl DjangoServer.attribute_error
    end.
Proof.
  intros Huniq Hk Hperm. unfold DjangoServer.DocumentViewSet.get_object.
  rewrite Hperm. simpl.
  rewrite (objects_filter_only _ _ k d), get_unique_singleton; [done|done| |].
  - by apply bool_decide_eq_true.
  - intros j d' Hj Hslug%bool_decide_eq_true.
    apply ds_document_queryset_stored in Hj, Hk. by eapply Huniq.
Qed.

(** What [get_object] has checked when it returns a document. *)
Lemma ds_document_get_object_inv method user slug st i :
  DjangoServer.DocumentViewSet.get_object method user slug st = inr i →
  DjangoServer.DocumentViewSet.get_queryset user st !! pk i = Some (row i) ∧
  DjangoServer.Document.slug (row i) = slug ∧
  DjangoServer.DocumentPermission.has_permission method user = true ∧
  DjangoServer.DocumentPermission.has_object_permission method user (row i) = Some true.
Proof.
  unfold DjangoServer.DocumentViewSet.get_object.
  destruct (DjangoServer.DocumentPermission.has_permission method user); [|done]. simpl.
  destruct (get_unique _) as [[]|obj] eqn:Hget; try done.
  destruct (DjangoServer.DocumentPermission.has_object_permission method user (row obj))
    as [[|]|] eqn:Hobj; try done.
  intros [= <-]. apply get_unique_inr in Hget.
  apply objects_filter_lookup_Some in Hget as [Hget Hslug%bool_decide_eq_true]. done.
Qed.

(** With unique slugs, a stored document that is not in the queryset is
    not found under its slug. *)
Lemma ds_document_get_object_hidden method user st k d :
  unique_slugs DjangoServer.Document.slug (DjangoServer.documents st) →
  DjangoServer.documents st !! k = Some d →
  DjangoServer.DocumentViewSet.get_queryset user st !! k = None →
  DjangoServer.DocumentPermission.has_permission method user = true →
  DjangoServer.DocumentViewSet.get_object method user (DjangoServer.Document.slug d) st
  = inl DjangoServer.not_found.
Proof.
  intros Huniq Hk Hnone Hperm. unfold DjangoServer.DocumentViewSet.get_object.
  rewrite Hperm. simpl.
  match goal with |- context [get_unique ?q] => assert (q = ∅) as ->; [|done] end.
  apply map_empty. intros j. apply objects_filter_lookup_None.
  intros d' Hj. apply bool_decide_eq_false. intros Hslug.
  apply ds_document_queryset_stored in Hj as Hj'.
  assert (j = k) as -> by by eapply Huniq. congruence.
Qed.

(** X20: looking up a document by its slug for a safe method in
    [django_server/] (requests without query parameters).  The lookup never
    raises [AttributeError].  For a request that is not authenticated it
    never answers with a refusal, and the document it returns is stored,
    carries the slug, is public and is LIVE.  With unique slugs: a public
    LIVE document is returned to everyone; every document is returned to a
    user whose role is not PUBLIC; a user whose role is PUBLIC is refused
    their own private document although the list view shows it; and a
    document that is not both public and LIVE is not found by a visitor
    who is not authenticated and by a PUBLIC user who is not its author. *)
Theorem ds_document_lookup (method : string) (Hsafe : method ∈ SAFE_METHODS) :
  (∀ user slug st,
     DjangoServer.DocumentViewSet.get_object method user slug st
     ≠ inl DjangoServer.attribute_error) ∧
  (∀ slug st,
     DjangoServer.DocumentViewSet.get_object method None slug st
     ≠ inl DjangoServer.permission_denied ∧
     ∀ i, DjangoServer.DocumentViewSet.get_object method None slug st = inr i →
          DjangoServer.documents st !! pk i = Some (row i) ∧
          DjangoServer.Document.slug (row i) = slug ∧
          DjangoServer.Document.is_public (row i) = true ∧
          DjangoServer.Document.status (row i) = LIVE) ∧
  (∀ user st k d,
     unique_slugs DjangoServer.Document.slug (DjangoServer.documents st) →
     DjangoServer.documents st !! k = Some d →
     (DjangoServer.Document.is_public d = true ∧ DjangoServer.Document.status d = LIVE →
      DjangoServer.DocumentViewSet.get_object method user (DjangoServer.Document.slug d) st
      = inr (MkInstance k d)) ∧
     (∀ u, user = Some u → DjangoServer.User.role u ≠ PUBLIC →
           DjangoServer.DocumentViewSet.get_object method user
             (DjangoServer.Document.slug d) st
           = inr (MkInstance k d)) ∧
     (∀ u, user = Some u → DjangoServer.User.role u = PUBLIC →
           DjangoServer.Document.is_public d = false →
           DjangoServer.Document.author d = DjangoServer.User.id u →
           DjangoServer.DocumentViewSet.get_queryset user st !! k = Some d ∧
           DjangoServer.DocumentViewSet.get_object method user
             (DjangoServer.Document.slug d) st
           = inl DjangoServer.permission_denied) ∧
     (¬ (DjangoServer.Document.is_public d = true ∧
         DjangoServer.Document.status d = LIVE) →
      (∀ u, user = Some u →
            DjangoServer.User.role u = PUBLIC ∧
            DjangoServer.Document.author d ≠ DjangoServer.User.id u) →
      DjangoServer.DocumentViewSet.get_object method user (DjangoServer.Document.slug d) st
      = inl DjangoServer.not_found)).
Proof.
  assert (∀ user, DjangoServer.DocumentPermission.has_permission method user = true)
    as Hperm.
  { intros user. unfold DjangoServer.DocumentPermission.has_permission.
    by rewrite bool_decide_eq_true_2. }
  assert (∀ user d,
            DjangoServer.DocumentPermission.has_object_permission method user d
            = DjangoServer.Document.can_user_view d user) as Hobj.
  { intros user d. unfold DjangoServer.DocumentPermission.has_object_permission.
    by rewrite bool_decide_eq_true_2. }
  split; [|split].
  - intros user slug st. unfold DjangoServer.DocumentViewSet.get_object.
    rewrite Hperm. simpl.
    destruct (get_unique _) as [[]|obj] eqn:Hget; try done.
    rewrite Hobj. apply get_unique_inr in Hget.
    apply objects_filter_lookup_Some in Hget as [Hget _].
    unfold DjangoServer.Document.can_user_view.
    destruct user as [user|].
    + destruct (DjangoServer.Document.is_public (row obj)); [done|].
      by destruct (negb _).
    + simpl in Hget. apply objects_filter_lookup_Some in Hget as [_ Hp].
      apply andb_true_iff in Hp as [-> _]. done.
  - intros slug st. split.
    + unfold DjangoServer.DocumentViewSet.get_object. rewrite Hperm. simpl.
      destruct (get_unique _) as [[]|obj] eqn:Hget; try done.
      rewrite Hobj. apply get_unique_inr in Hget.
      apply objects_filter_lookup_Some in Hget as [Hget _].
      simpl in Hget. apply objects_filter_lookup_Some in Hget as [_ Hp].
      apply andb_true_iff in Hp as [Hp _].
      unfold DjangoServer.Document.can_user_view. by rewrite Hp.
    + intros i (Hq & Hslug & _)%ds_document_get_object_inv.
      simpl in Hq. apply objects_filter_lookup_Some in Hq as [Hk Hp].
      apply andb_true_iff in Hp as [Hp Hs%bool_decide_eq_true]. done.
  - intros user st k d Huniq Hk. split; [|split; [|split]].
    + intros [Hpub Hlive].
      rewrite (ds_document_get_object_found method user st k d); [|done| |done].
      * rewrite Hobj. unfold DjangoServer.Document.can_user_view. by rewrite Hpub.
      * unfold DjangoServer.DocumentViewSet.get_queryset.
        destruct user as [u|]; [case_bool_decide; [|done]|];
          apply objects_filter_lookup_Some; split; try done;
          rewrite Hpub, Hlive; done.
    + intros u -> Hrole.
      rewrite (ds_document_get_object_found method (Some u) st k d); [|done| |done].
      * rewrite Hobj. unfold DjangoServer.Document.can_user_view.
        rewrite (bool_decide_eq_false_2 _ Hrole). by destruct (DjangoServer.Document.is_public d).
      * unfold DjangoServer.DocumentViewSet.get_queryset.
        by rewrite bool_decide_eq_false_2.
    + intros u -> Hrole Hpriv Hauthor.
      assert (DjangoServer.DocumentViewSet.get_queryset (Some u) st !! k = Some d) as Hq.
      { unfold DjangoServer.DocumentViewSet.get_queryset.
        rewrite bool_decide_eq_true_2 by done.
        apply objects_filter_lookup_Some. split; [done|].
        rewrite Hpriv. simpl. by apply bool_decide_eq_true. }
      split; [done|].
      rewrite (ds_document_get_object_found method (Some u) st k d); [|done..].
      rewrite Hobj. unfold DjangoServer.Document.can_user_view.
      rewrite Hpriv. by rewrite bool_decide_eq_true_2.
    + intros Hhidden Huser.
      apply (ds_document_get_object_hidden method user st k d); [done..| |done].
      destruct (DjangoServer.DocumentViewSet.get_queryset user st !! k) as [d'|] eqn:Hj;
        [exfalso|done].
      apply ds_document_queryset_stored in Hj as Hj'.
      assert (d' = d) as -> by congruence.
      unfold DjangoServer.DocumentViewSet.get_queryset in Hj.
      destruct user as [u|].
      * destruct (Huser u eq_refl) as [Hrole Hauthor].
        rewrite bool_decide_eq_true_2 in Hj by done.
        apply objects_filter_lookup_Some in Hj as [_ Hp].
        apply orb_true_iff in Hp as [Hp|Hp%bool_decide_eq_true]; [|done].
        apply andb_true_iff in Hp as [Hp Hs%bool_decide_eq_true]. tauto.
      * apply objects_filter_lookup_Some in Hj as [_ Hp].
        apply andb_true_iff in Hp as [Hp Hs%bool_decide_eq_true]. tauto.
Qed.

(** X20 at work: the newsletter is under review and not public; a visitor
    does not find it, Carol gets it. *)
Lemma ds_document_lookup_witness :
  DjangoServer.DocumentViewSet.get_object "GET" None "newsletter"
    (Samples.ds_store PENDING) = inl DjangoServer.not_found ∧
  DjangoServer.DocumentViewSet.get_object "GET" (Some Samples.ds_carol) "newsletter"
    (Samples.ds_store PENDING) = inr (MkInstance 1 Samples.ds_newsletter).
Proof.
  destruct (ds_document_lookup "GET") as (_ & _ & H); [by apply elem_of_cons; left|].
  assert (unique_slugs DjangoServer.Document.slug
            (DjangoServer.documents (Samples.ds_store PENDING))) as Huniq.
  { intros i j d1 d2 Hi Hj _. unfold Samples.ds_store in Hi, Hj. simpl in Hi, Hj.
    apply lookup_singleton_Some in Hi as [<- _].
    by apply lookup_singleton_Some in Hj as [<- _]. }
  destruct (H None (Samples.ds_store PENDING) 1 Samples.ds_newsletter Huniq eq_refl)
    as (_ & _ & _ & Hnone).
  destruct (H (Some Samples.ds_carol) (Samples.ds_store PENDING) 1 Samples.ds_newsletter
              Huniq eq_refl) as (_ & Hsome & _).
  split.
  - apply Hnone; [by intros [? _]|done].
  - by apply (Hsome Samples.ds_carol).
Defined.

(** X21: deleting a document in [django_server/], when the lookup for
    the DELETE succeeds.  The caller may edit the document.  A document
    that is neither PENDING nor ARCHIVED gives 400 and the database is
    unchanged.  Otherwise the answer is 204: the document is removed, with
    exactly the versions and approval requests that refer to it and the
    notifications of those requests; one DOCUMENT_DELETED activity log is
    written; and, with unique slugs, the slug is no longer found by
    anyone. *)
Theorem ds_document_destroy (user : DjangoServer.User.t) (slug : string)
    (st : DjangoServer.Store) (i : Instance DjangoServer.Document.t)
    (Hget : DjangoServer.DocumentViewSet.get_object "DELETE" (Some user) slug st = inr i) :
  let result := DjangoServer.DocumentViewSet.destroy user slug st in
  DjangoServer.documents st !! pk i = Some (row i) ∧
  DjangoServer.Document.can_user_edit (row i) user = true ∧
  (DjangoServer.Document.status (row i) ∉ [PENDING; ARCHIVED] →
   result = (inr (ErrorResponse 400 "Can only delete draft or archived documents"), st)) ∧
  (DjangoServer.Document.status (row i) ∈ [PENDING; ARCHIVED] →
   result.1 = inr (DataResponse 204 ()) ∧
   DjangoServer.documents result.2 = delete (pk i) (DjangoServer.documents st) ∧
   (∀ k v, DjangoServer.document_versions result.2 !! k = Some v ↔
           DjangoServer.document_versions st !! k = Some v ∧
           DjangoServer.DocumentVersion.document v ≠ pk i) ∧
   (∀ k r, DjangoServer.approval_requests result.2 !! k = Some r ↔
           DjangoServer.approval_requests st !! k = Some r ∧
           DjangoServer.ApprovalRequest.document r ≠ pk i) ∧
   (∀ k n, DjangoServer.approval_notifications result.2 !! k = Some n ↔
           DjangoServer.approval_notifications st !! k = Some n ∧
           ∃ r, DjangoServer.approval_requests st
                  !! DjangoServer.ApprovalNotification.approval_request n = Some r ∧
                DjangoServer.ApprovalRequest.document r ≠ pk i) ∧
   (∃ key,
      DjangoServer.activity_logs st !! key = None ∧
      DjangoServer.activity_logs result.2
      = <[key := DjangoServer.ActivityLog.mk (DjangoServer.User.id user)
                   "DOCUMENT_DELETED" "Document" (pk i)]>
          (DjangoServer.activity_logs st)) ∧
   (unique_slugs DjangoServer.Document.slug (DjangoServer.documents st) →
    ∀ method reader,
      method ∈ SAFE_METHODS →
      DjangoServer.DocumentViewSet.get_object method reader slug result.2
      = inl DjangoServer.not_found)).
Proof.
  intros result.
  apply ds_document_get_object_inv in Hget as Hinv.
  destruct Hinv as (Hq & Hslug & _ & Hobj).
  apply ds_document_queryset_stored in Hq as Hk.
  unfold DjangoServer.DocumentPermission.has_object_permission in Hobj.
  rewrite bool_decide_eq_false_2 in Hobj by (by vm_compute; set_unfold; intuition discriminate).
  simpl in Hobj. injection Hobj as Hedit.
  split; [done|]. split; [done|].
  subst result. unfold DjangoServer.DocumentViewSet.destroy. rewrite Hget.
  split.
  - intros Hstatus. by rewrite bool_decide_eq_false_2.
  - intros Hstatus. rewrite bool_decide_eq_true_2 by done. simpl.
    split; [done|]. split; [done|]. split.
    { intros k v. rewrite objects_filter_lookup_Some, negb_true_iff, bool_decide_eq_false.
      done. }
    split.
    { intros k r. rewrite objects_filter_lookup_Some, negb_true_iff, bool_decide_eq_false.
      done. }
    split.
    { intros k n. rewrite objects_filter_lookup_Some, bool_decide_eq_true.
      unfold is_Some. setoid_rewrite objects_filter_lookup_Some.
      setoid_rewrite negb_true_iff. setoid_rewrite bool_decide_eq_false. done. }
    split.
    { eexists. split; [|reflexivity]. apply fresh_key_unused. }
    intros Huniq method reader Hsafe.
    unfold DjangoServer.DocumentViewSet.get_object.
    unfold DjangoServer.DocumentPermission.has_permission.
    rewrite bool_decide_eq_true_2 by done. simpl.
    match goal with |- context [get_unique ?q] => assert (q = ∅) as ->; [|done] end.
    apply map_empty. intros j. apply objects_filter_lookup_None.
    intros d' Hj%ds_document_queryset_stored. apply bool_decide_eq_false. intros Hslug'.
    simpl in Hj. apply lookup_delete_Some in Hj as [Hne Hj].
    destruct Hne. eapply Huniq; [done..|]. congruence.
Qed.

(** X21 at work: Vera deletes her leaflet; only the newsletter is left. *)
Lemma ds_document_destroy_witness :
  (DjangoServer.DocumentViewSet.destroy Samples.ds_vera "leaflet" Samples.ds_desk).1
  = inr (DataResponse 204 ()) ∧
  DjangoServer.documents
    (DjangoServer.DocumentViewSet.destroy Samples.ds_vera "leaflet" Samples.ds_desk).2
  = {[ 1 := Samples.ds_newsletter ]}.
Proof.
  destruct (ds_document_destroy Samples.ds_vera "leaflet" Samples.ds_desk
              (MkInstance 2 Samples.ds_leaflet)) as (_ & _ & _ & H);
    [by vm_compute|].
  destruct H as (H1 & H2 & _); [apply elem_of_cons; by left|].
  split; [exact H1|]. rewrite H2. by vm_compute.
Defined.







(** ** Notifications and cancelling in [django_server/]
    ([django_server/approvals/views.py], [django_server/approvals/models.py]) *)

(** What [mark_as_read] stores. *)
Lemma ds_mark_as_read_spec k n st :
  DjangoServer.approval_notifications st !! k = Some n →
  DjangoServer.mark_as_read (MkInstance k n) st
  = DjangoServer.with_approval_notifications
      (<[k := DjangoServer.ApprovalNotification.set_is_read true n]>
         (DjangoServer.approval_notifications st)) st.
Proof.
  intros Hk. unfold DjangoServer.mark_as_read. simpl.
  destruct (DjangoServer.ApprovalNotification.is_read n) eqn:Hread; simpl; [|done].
  assert (DjangoServer.ApprovalNotification.set_is_read true n = n) as ->
    by (destruct n as [a b c d e]; unfold DjangoServer.ApprovalNotification.set_is_read;
        simpl in *; by rewrite Hread).
  rewrite insert_id by done. by destruct st.
Qed.

(** X24: notifications in [django_server/].  The list view shows a user
    only notifications addressed to them, and all of them when there are
    no query parameters; the [is_read] and [type] parameters only narrow
    the list.  Marking answers 404 for a missing notification and 403 for
    a notification of someone else, the database unchanged in both cases.
    Marking one's own notification answers 200 and stores it as read,
    nothing else changes, and doing it again changes nothing; afterwards
    it is in the user's read list, not in the unread list, and the lists
    of all other users are as before. *)
Theorem ds_notifications_private :
  (∀ user query_params st k n,
     DjangoServer.ApprovalNotificationView.get_queryset user query_params st !! k = Some n →
     DjangoServer.approval_notifications st !! k = Some n ∧
     DjangoServer.ApprovalNotification.recipient n = DjangoServer.User.id user ∧
     (∀ v, query_params !! "is_read" = Some v →
           DjangoServer.ApprovalNotification.is_read n
           = bool_decide (str_lower v = "true")) ∧
     (∀ t, query_params !! "type" = Some t → t ≠ "" →
           DjangoServer.ApprovalNotification.notification_type n = t)) ∧
  (∀ user st k n,
     DjangoServer.approval_notifications st !! k = Some n →
     DjangoServer.ApprovalNotification.recipient n = DjangoServer.User.id user →
     DjangoServer.ApprovalNotificationView.get_queryset user ∅ st !! k = Some n) ∧
  (∀ user k st,
     DjangoServer.approval_notifications st !! k = None →
     DjangoServer.MarkNotificationReadView.update user k st = (inl Http404, st)) ∧
  (∀ user k st n,
     DjangoServer.approval_notifications st !! k = Some n →
     DjangoServer.ApprovalNotification.recipient n ≠ DjangoServer.User.id user →
     DjangoServer.MarkNotificationReadView.update user k st
     = (inr (ErrorResponse 403 "You can only mark your own notifications as read"), st)) ∧
  (∀ user k st n,
     DjangoServer.approval_notifications st !! k = Some n →
     DjangoServer.ApprovalNotification.recipient n = DjangoServer.User.id user →
     let st' :=
       DjangoServer.with_approval_notifications
         (<[k := DjangoServer.ApprovalNotification.set_is_read true n]>
            (DjangoServer.approval_notifications st)) st in
     DjangoServer.MarkNotificationReadView.update user k st
     = (inr (DataResponse 200 "Notification marked as read"), st') ∧
     DjangoServer.MarkNotificationReadView.update user k st'
     = (inr (DataResponse 200 "Notification marked as read"), st') ∧
     DjangoServer.ApprovalNotificationView.get_queryset user {[ "is_read" := "false" ]} st'
       !! k = None ∧
     DjangoServer.ApprovalNotificationView.get_queryset user {[ "is_read" := "true" ]} st'
       !! k = Some (DjangoServer.ApprovalNotification.set_is_read true n) ∧
     ∀ other query_params,
       DjangoServer.User.id other ≠ DjangoServer.User.id user →
       DjangoServer.ApprovalNotificationView.get_queryset other query_params st'
       = DjangoServer.ApprovalNotificationView.get_queryset other query_params st).
Proof.
  split; [|split; [|split; [|split]]].
  - intros user query_params st k n.
    unfold DjangoServer.ApprovalNotificationView.get_queryset.
    destruct (query_params !! "type") as [t|] eqn:Ht;
      destruct (query_params !! "is_read") as [v|] eqn:Hv; simpl;
      try destruct (bool_decide (t = "")) eqn:Hempty; simpl;
      rewrite ?objects_filter_lookup_Some, ?bool_decide_eq_true;
      try apply bool_decide_eq_false in Hempty;
      try apply bool_decide_eq_true in Hempty;
      intros H; destruct_and?; (split; [done|]); (split; [done|]);
      (split; [intros ? [= <-] || done; done|]); intros ? [= <-] ?; congruence.
  - intros user st k n Hk Hrecipient.
    unfold DjangoServer.ApprovalNotificationView.get_queryset.
    rewrite !lookup_empty. simpl.
    apply objects_filter_lookup_Some. split; [done|]. by apply bool_decide_eq_true.
  - intros user k st Hk. unfold DjangoServer.MarkNotificationReadView.update, objects_get.
    by rewrite Hk.
  - intros user k st n Hk Hother.
    unfold DjangoServer.MarkNotificationReadView.update, objects_get.
    rewrite Hk. simpl. by rewrite bool_decide_eq_false_2.
  - intros user k st n Hk Hown st'.
    assert (∀ st0 n0, DjangoServer.approval_notifications st0 !! k = Some n0 →
              DjangoServer.ApprovalNotification.recipient n0 = DjangoServer.User.id user →
              DjangoServer.MarkNotificationReadView.update user k st0
              = (inr (DataResponse 200 "Notification marked as read"),
                 DjangoServer.with_approval_notifications
                   (<[k := DjangoServer.ApprovalNotification.set_is_read true n0]>
                      (DjangoServer.approval_notifications st0)) st0)) as Hupdate.
    { intros st0 n0 Hk0 Hown0.
      unfold DjangoServer.MarkNotificationReadView.update, objects_get.
      rewrite Hk0. simpl. rewrite bool_decide_eq_true_2 by done. simpl.
      by rewrite ds_mark_as_read_spec. }
    split; [by apply Hupdate|]. split.
    { rewrite (Hupdate st' (DjangoServer.ApprovalNotification.set_is_read true n)).
      - subst st'. simpl. by rewrite insert_insert_eq.
      - subst st'. simpl. apply lookup_insert_eq.
      - done. }
    split.
    { unfold DjangoServer.ApprovalNotificationView.get_queryset.
      rewrite lookup_singleton_eq, lookup_singleton_ne by done. simpl.
      apply objects_filter_lookup_None. intros n0.
      rewrite objects_filter_lookup_Some. subst st'. simpl.
      rewrite lookup_insert_eq. by intros [[= <-] _]. }
    split.
    { unfold DjangoServer.ApprovalNotificationView.get_queryset.
      rewrite lookup_singleton_eq, lookup_singleton_ne by done. simpl.
      rewrite !objects_filter_lookup_Some. subst st'. simpl.
      rewrite lookup_insert_eq. split; [split; [done|]|done].
      by apply bool_decide_eq_true. }
    intros other query_params Hother.
    unfold DjangoServer.ApprovalNotificationView.get_queryset.
    assert (objects_filter
              (λ n0, bool_decide (DjangoServer.ApprovalNotification.recipient n0
                                  = DjangoServer.User.id other))
              (DjangoServer.approval_notifications st')
            = objects_filter
                (λ n0, bool_decide (DjangoServer.ApprovalNotification.recipient n0
                                    = DjangoServer.User.id other))
                (DjangoServer.approval_notifications st)) as ->; [|done].
    subst st'. simpl. apply map_eq. intros j. apply option_eq. intros n0.
    rewrite !objects_filter_lookup_Some, !bool_decide_eq_true.
    destruct (decide (j = k)) as [->|Hne].
    + rewrite lookup_insert_eq, Hk. split.
      * intros [[= <-] Hr]. simpl in Hr. congruence.
      * intros [[= <-] Hr]. congruence.
    + by rewrite lookup_insert_ne.
Qed.

(** When [create] of the view set accepts a request. *)
Lemma ds_create_accepts `{!Slugify} (user : DjangoServer.User.t)
    (users : gmap nat DjangoServer.UserRow.t) (document_id : nat)
    (notes priority : option string) (due_date : dt_value) (st : DjangoServer.Store)
    (d : DjangoServer.Document.t) :
  DjangoServer.documents st !! document_id = Some d →
  DjangoServer.User.can_create_documents user = true →
  DjangoServer.Document.status d ∉ [APPROVED; LIVE] →
  (∀ k r, DjangoServer.approval_requests st !! k = Some r →
          DjangoServer.ApprovalRequest.document r = document_id →
          DjangoServer.ApprovalRequest.status r ≠ PENDING) →
  ∃ i st',
    DjangoServer.ApprovalRequestViewSet.create user users document_id notes priority
      due_date st
    = Some (inr (DataResponse 201 i), st').
Proof.
  intros Hdoc Hrole Hstatus Hnone.
  unfold DjangoServer.ApprovalRequestViewSet.create,
    DjangoServer.ApprovalRequestViewSet.has_permission_post.
  rewrite Hrole. simpl. unfold objects_get. rewrite Hdoc. simpl.
  unfold DjangoServer.ApprovalRequestCreateSerializer.validate_document. simpl.
  rewrite bool_decide_eq_false_2 by done.
  assert (exists_
            (objects_filter
               (λ r, bool_decide (DjangoServer.ApprovalRequest.document r = document_id)
                     && bool_decide (DjangoServer.ApprovalRequest.status r = PENDING))
               (DjangoServer.approval_requests st)) = false) as ->
    by by apply ds_pending_exists_false.
  unfold DjangoServer.ApprovalRequestViewSet.perform_create,
    DjangoServer.ApprovalRequestCreateSerializer.create. simpl.
  match goal with |- context [DjangoServer.save_document ?i ?s] =>
    destruct (ds_save_document_is_Some i s) as (d' & Hsave & Hd') end.
  rewrite Hsave. simpl. by eexists _, _.
Qed.

(** X25: cancelling in [django_server/], when the view set finds the
    request for the caller.  A caller who is neither the requester nor
    ADMIN or PRESIDENT gets 403 and the database is unchanged.  The
    requester, an ADMIN and a PRESIDENT get 200: the request is stored
    CANCELLED with the time of the call, documents, versions and
    notifications are untouched, and one APPROVAL_CANCELLED activity log
    is written.  If the request was PENDING, no document had two pending
    requests and the document is neither APPROVED nor LIVE, the caller's
    next request for the document is accepted with 201. *)
Theorem ds_cancel_then_request `{!Slugify} (user : DjangoServer.User.t) (k : nat)
    (now : Z) (st : DjangoServer.Store) (l : DjangoServer.LoadedRequest)
    (Hget : DjangoServer.ApprovalRequestViewSet.get_object user k st = inr l) :
  let r := row (DjangoServer.request l) in
  let r' :=
    DjangoServer.ApprovalRequest.set_reviewed_at (DtTime now)
      (DjangoServer.ApprovalRequest.set_status CANCELLED r) in
  let result := DjangoServer.ApprovalRequestViewSet.cancel user k now st in
  (DjangoServer.User.id user ≠ DjangoServer.ApprovalRequest.requested_by r →
   DjangoServer.User.role user ∉ [ADMIN; PRESIDENT] →
   result = (inr (ErrorResponse 403 "You don't have permission to cancel this request"),
             st)) ∧
  (DjangoServer.User.id user = DjangoServer.ApprovalRequest.requested_by r
   ∨ DjangoServer.User.role user ∈ [ADMIN; PRESIDENT] →
   (∃ key,
      DjangoServer.activity_logs st !! key = None ∧
      result
      = (inr (DataResponse 200
                (DjangoServer.MkLoaded (MkInstance k r') (DjangoServer.request_document l))),
         DjangoServer.MkStore (DjangoServer.documents st)
           (DjangoServer.document_versions st)
           (<[k := r']> (DjangoServer.approval_requests st))
           (DjangoServer.approval_notifications st)
           (<[key := DjangoServer.ActivityLog.mk (DjangoServer.User.id user)
                       "APPROVAL_CANCELLED" "ApprovalRequest" k]>
              (DjangoServer.activity_logs st)))) ∧
   (DjangoServer.ApprovalRequest.status r = PENDING →
    ds_at_most_one_pending (DjangoServer.approval_requests st) →
    DjangoServer.Document.status (row (DjangoServer.request_document l))
    ∉ [APPROVED; LIVE] →
    ∀ users notes priority due_date,
      ∃ i st',
        DjangoServer.ApprovalRequestViewSet.create user users
          (DjangoServer.ApprovalRequest.document r) notes priority due_date result.2
        = Some (inr (DataResponse 201 i), st'))).
Proof.
  intros r r' result.
  assert (DjangoServer.User.can_create_documents user = true) as Hrole.
  { unfold DjangoServer.ApprovalRequestViewSet.get_object,
      DjangoServer.ApprovalRequestViewSet.has_permission_post in Hget.
    by destruct (DjangoServer.User.can_create_documents user). }
  apply ds_get_object_inv in Hget as Hinv. destruct Hinv as (r0 & d & -> & Hk & Hd).
  simpl in r. subst r. simpl.
  subst result. unfold DjangoServer.ApprovalRequestViewSet.cancel. rewrite Hget.
  unfold DjangoServer.cancel. simpl.
  split.
  - intros Hother Hplain.
    rewrite (bool_decide_eq_false_2 _ Hother), (bool_decide_eq_false_2 _ Hplain). done.
  - intros Hmay.
    assert (negb (bool_decide (DjangoServer.User.id user
                               = DjangoServer.ApprovalRequest.requested_by r0))
            && negb (bool_decide (DjangoServer.User.role user ∈ [ADMIN; PRESIDENT]))
            = false) as ->.
    { destruct Hmay as [Hown|Hadmin].
      - by rewrite (bool_decide_eq_true_2 _ Hown).
      - rewrite (bool_decide_eq_true_2 _ Hadmin). apply andb_false_r. }
    simpl. split.
    { eexists. split; [|reflexivity]. apply fresh_key_unused. }
    intros Hpending Hone Hstatus users notes priority due_date.
    apply (ds_create_accepts user users _ notes priority due_date _ d);
      [done|done|done|].
    intros j r Hj Hdoc Hs. simpl in Hj. unfold save in Hj. simpl in Hj.
    destruct (decide (j = k)) as [->|Hne].
    + rewrite lookup_insert_eq in Hj. injection Hj as <-. done.
    + rewrite lookup_insert_ne in Hj by done.
      destruct Hne. by eapply (Hone j k r r0).
Qed.

(** X25 at work: Vera cancels her pending request for the newsletter. *)
Lemma ds_cancel_then_request_witness :
  (@DjangoServer.ApprovalRequestViewSet.cancel Samples.ds_vera 1 5
     (Samples.ds_store PENDING)).1
  = inr (DataResponse 200
           (DjangoServer.MkLoaded
              (MkInstance 1
                 (DjangoServer.ApprovalRequest.mk 1 8 CANCELLED "" None (DtTime 5)
                    "MEDIUM" DtNull))
              (MkInstance 1 Samples.ds_newsletter))).
Proof.
  destruct (@ds_cancel_then_request Samples.slugify_id Samples.ds_vera 1 5
              (Samples.ds_store PENDING) (Samples.ds_loaded PENDING)) as [_ H];
    [reflexivity|].
  destruct H as [(key & _ & H) _]; [by left|].
  by rewrite H.
Defined.

(** ** Categories ([apps/categories/models.py], [apps/categories/views.py],
    [apps/categories/serializers.py], [django_server/documents/models.py],
    [django_server/documents/views.py]) *)

Lemma ancestor_chain_unique table p l1 l2 :
  ancestor_chain table p l1 → ancestor_chain table p l2 → l1 = l2.
Proof.
  intros H1. revert l2. induction H1 as [|p r l Hp _ IH]; intros l2 H2.
  - by inversion H2.
  - inversion H2 as [|p' r' l' Hp' Hl']; subst.
    assert (r' = r) as -> by congruence. f_equal. by apply IH.
Qed.

Lemma string_app_assoc (a b c : string) : (a +:+ b) +:+ c = a +:+ (b +:+ c).
Proof.
  induction a as [|x a IH]; [done|].
  change (String x ((a +:+ b) +:+ c) = String x (a +:+ (b +:+ c))). by f_equal.
Qed.

(** [sep.join(l + [z])] for a list [l] that is not empty. *)
Lemma concat_snoc (sep : string) (l : list string) (z : string) :
  l ≠ [] → String.concat sep (l ++ [z]) = String.concat sep l +:+ sep +:+ z.
Proof.
  induction l as [|y [|y2 l] IH]; intros Hne; [done|done|].
  change (String.concat sep ((y :: y2 :: l) ++ [z]))
    with (y +:+ sep +:+ String.concat sep ((y2 :: l) ++ [z])).
  change (String.concat sep (y :: y2 :: l))
    with (y +:+ sep +:+ String.concat sep (y2 :: l)).
  rewrite IH by done. by rewrite !string_app_assoc.
Qed.

Lemma ancestors_loop_chain table cur l :
  ancestor_chain table cur l →
  ∀ acc fuel, length l < fuel →
    Categories.DocumentCategory.ancestors_loop fuel table cur acc = Some (inr (acc ++ l)).
Proof.
  induction 1 as [|p r l Hp _ IH]; intros acc fuel Hfuel;
    (destruct fuel as [|fuel]; [simpl in Hfuel; lia|]); simpl.
  - by rewrite app_nil_r.
  - rewrite Hp, IH by (simpl in Hfuel; lia). by rewrite <- app_assoc.
Qed.

Lemma path_loop_chain table cur l :
  ancestor_chain table cur l →
  ∀ path fuel, length l < fuel →
    Categories.DocumentCategory.path_loop fuel table cur path
    = Some (inr (reverse (Categories.DocumentCategory.name ∘ row <$> l) ++ path)).
Proof.
  induction 1 as [|p r l Hp _ IH]; intros path fuel Hfuel;
    (destruct fuel as [|fuel]; [simpl in Hfuel; lia|]); simpl.
  - done.
  - rewrite Hp, IH by (simpl in Hfuel; lia).
    rewrite reverse_cons, <- app_assoc. done.
Qed.

Lemma full_path_chain table l :
  ∀ self fuel,
    ancestor_chain table (Categories.DocumentCategory.parent self) l → length l < fuel →
    Categories.DocumentCategory.full_path fuel table self
    = Some (inr (String.concat " > "
                   (reverse (Categories.DocumentCategory.name ∘ row <$> l)
                    ++ [Categories.DocumentCategory.name self]))).
Proof.
  induction l as [|i l IH]; intros self fuel Hchain Hfuel;
    (destruct fuel as [|fuel]; [simpl in Hfuel; lia|]); simpl;
    inversion Hchain as [Hnone|p r l' Hp Hl' Hsome]; subst.
  - done.
  - rewrite Hp. rewrite (IH r fuel) by (done || simpl in Hfuel; lia).
    rewrite reverse_cons. simpl.
    do 2 f_equal. symmetry. apply concat_snoc. by destruct (reverse _).
Qed.

(** A loop that returns has followed a chain. *)
Lemma ancestors_loop_returns table fuel :
  ∀ cur acc res,
    Categories.DocumentCategory.ancestors_loop fuel table cur acc = Some (inr res) →
    ∃ l, ancestor_chain table cur l ∧ res = acc ++ l ∧ length l < fuel.
Proof.
  induction fuel as [|fuel IH]; intros cur acc res; simpl; [done|].
  destruct cur as [p|].
  - destruct (table !! p) as [r|] eqn:Hp; [|done].
    intros (l & Hl & -> & Hfuel)%IH. exists (MkInstance p r :: l).
    split; [by constructor|]. split; [by rewrite <- app_assoc|]. simpl. lia.
  - intros [= <-]. exists []. split; [constructor|]. split; [by rewrite app_nil_r|].
    simpl. lia.
Qed.

Lemma path_loop_returns table fuel :
  ∀ cur path res,
    Categories.DocumentCategory.path_loop fuel table cur path = Some (inr res) →
    ∃ l, ancestor_chain table cur l.
Proof.
  induction fuel as [|fuel IH]; intros cur path res; simpl; [done|].
  destruct cur as [p|].
  - destruct (table !! p) as [r|] eqn:Hp; [|done].
    intros (l & Hl)%IH. exists (MkInstance p r :: l). by constructor.
  - intros _. exists []. constructor.
Qed.

Lemma full_path_returns table fuel :
  ∀ self res,
    Categories.DocumentCategory.full_path fuel table self = Some (inr res) →
    ∃ l, ancestor_chain table (Categories.DocumentCategory.parent self) l.
Proof.
  induction fuel as [|fuel IH]; intros self res; simpl; [done|].
  destruct (Categories.DocumentCategory.parent self) as [p|].
  - destruct (table !! p) as [r|] eqn:Hp; [|done].
    destruct (Categories.DocumentCategory.full_path fuel table r) as [[e|path]|] eqn:Hr; try done.
    intros _. destruct (IH r path Hr) as (l & Hl).
    exists (MkInstance p r :: l). by constructor.
  - intros _. exists []. constructor.
Qed.

(** With every parent stored, no loop raises. *)
Lemma ancestors_loop_no_raise table fuel :
  parents_stored table →
  ∀ cur acc e,
    (∀ p, cur = Some p → is_Some (table !! p)) →
    Categories.DocumentCategory.ancestors_loop fuel table cur acc ≠ Some (inl e).
Proof.
  intros Hstored. induction fuel as [|fuel IH]; intros cur acc e Hcur; simpl; [done|].
  destruct cur as [p|]; [|done].
  destruct (Hcur p eq_refl) as [r Hp]. rewrite Hp. apply IH.
  intros q Hq. by eapply Hstored.
Qed.

Lemma path_loop_no_raise table fuel :
  parents_stored table →
  ∀ cur path e,
    (∀ p, cur = Some p → is_Some (table !! p)) →
    Categories.DocumentCategory.path_loop fuel table cur path ≠ Some (inl e).
Proof.
  intros Hstored. induction fuel as [|fuel IH]; intros cur path e Hcur; simpl; [done|].
  destruct cur as [p|]; [|done].
  destruct (Hcur p eq_refl) as [r Hp]. rewrite Hp. apply IH.
  intros q Hq. by eapply Hstored.
Qed.

Lemma full_path_no_raise table fuel :
  parents_stored table →
  ∀ self e,
    (∀ p, Categories.DocumentCategory.parent self = Some p → is_Some (table !! p)) →
    Categories.DocumentCategory.full_path fuel table self ≠ Some (inl e).
Proof.
  intros Hstored. induction fuel as [|fuel IH]; intros self e Hself; simpl; [done|].
  destruct (Categories.DocumentCategory.parent self) as [p|] eqn:Hparent; [|done].
  destruct (Hself p eq_refl) as [r Hp]. rewrite Hp.
  destruct (Categories.DocumentCategory.full_path fuel table r) as [[e'|path]|] eqn:Hr; try done.
  intros [= ->]. eapply IH; [|exact Hr]. intros q Hq. by eapply Hstored.
Qed.

(** Without a chain, and with every parent stored, nothing is returned. *)
Lemma category_no_chain_no_result table self :
  parents_stored table →
  (∀ p, Categories.DocumentCategory.parent self = Some p → is_Some (table !! p)) →
  (∀ l, ¬ ancestor_chain table (Categories.DocumentCategory.parent self) l) →
  ∀ fuel,
    Categories.DocumentCategory.get_ancestors fuel table self = None ∧
    Categories.DocumentCategory.full_path fuel table self = None ∧
    Categories.DocumentCategory.get_full_path fuel table self = None.
Proof.
  intros Hstored Hself Hnone fuel. split; [|split].
  - unfold Categories.DocumentCategory.get_ancestors.
    destruct (Categories.DocumentCategory.ancestors_loop _ _ _ _) as [[e|res]|] eqn:H; [| |done].
    + by apply ancestors_loop_no_raise in H.
    + apply ancestors_loop_returns in H as (l & Hl & _ & _). by destruct (Hnone l).
  - destruct (Categories.DocumentCategory.full_path _ _ _) as [[e|res]|] eqn:H; [| |done].
    + by apply full_path_no_raise in H.
    + apply full_path_returns in H as (l & Hl). by destruct (Hnone l).
  - unfold Categories.DocumentCategory.get_full_path.
    destruct (Categories.DocumentCategory.path_loop _ _ _ _) as [[e|res]|] eqn:H; [| |done].
    + by apply path_loop_no_raise in H.
    + apply path_loop_returns in H as (l & Hl). by destruct (Hnone l).
Qed.

(** X26: the paths of a category, in both trees.  When following the
    parents from a category ends at a root and the bound exceeds the
    number of ancestors, [get_ancestors] returns the ancestors, nearest
    first, [full_path] returns the names from the root down to the
    category joined by [" > "], and [get_full_path] of [django_server/]
    returns the same string.  Whatever [get_ancestors] returns is that
    chain of ancestors.  When every parent is stored and following the
    parents never ends, none of the three returns, whatever the bound. *)
Theorem category_paths (table : gmap nat Categories.DocumentCategory.t) (self : Categories.DocumentCategory.t) :
  (∀ l fuel,
     ancestor_chain table (Categories.DocumentCategory.parent self) l → length l < fuel →
     Categories.DocumentCategory.get_ancestors fuel table self = Some (inr l) ∧
     Categories.DocumentCategory.full_path fuel table self
     = Some (inr (String.concat " > "
                    (reverse (Categories.DocumentCategory.name ∘ row <$> l)
                     ++ [Categories.DocumentCategory.name self]))) ∧
     Categories.DocumentCategory.get_full_path fuel table self
     = Categories.DocumentCategory.full_path fuel table self) ∧
  (∀ fuel l,
     Categories.DocumentCategory.get_ancestors fuel table self = Some (inr l) →
     ancestor_chain table (Categories.DocumentCategory.parent self) l ∧ length l < fuel) ∧
  (parents_stored table →
   (∀ p, Categories.DocumentCategory.parent self = Some p → is_Some (table !! p)) →
   (∀ l, ¬ ancestor_chain table (Categories.DocumentCategory.parent self) l) →
   ∀ fuel,
     Categories.DocumentCategory.get_ancestors fuel table self = None ∧
     Categories.DocumentCategory.full_path fuel table self = None ∧
     Categories.DocumentCategory.get_full_path fuel table self = None).
Proof.
  split; [|split].
  - intros l fuel Hchain Hfuel.
    rewrite (full_path_chain table l self fuel Hchain Hfuel).
    unfold Categories.DocumentCategory.get_ancestors, Categories.DocumentCategory.get_full_path.
    rewrite (ancestors_loop_chain _ _ _ Hchain), (path_loop_chain _ _ _ Hchain) by done.
    done.
  - intros fuel l H. unfold Categories.DocumentCategory.get_ancestors in H.
    apply ancestors_loop_returns in H as (l' & Hl' & -> & Hfuel). done.
  - apply category_no_chain_no_result.
Qed.

Lemma reaches_insert table a ra' k :
  reaches table k a → reaches (<[a := ra']> table) k a.
Proof.
  induction 1 as [k|k r p a Hk Hp _ IH]; [constructor|].
  destruct (decide (k = a)) as [->|Hne]; [constructor|].
  eapply reaches_parent; [|done..]. by rewrite lookup_insert_ne.
Qed.

Lemma ancestor_chain_reaches table k a :
  reaches table k a →
  ∀ l, ancestor_chain table (Some k) l →
       ∃ l1 l2, l = l1 ++ l2 ∧ ancestor_chain table (Some a) l2.
Proof.
  induction 1 as [k|k r p a Hk Hp _ IH]; intros l Hl.
  - by exists [], l.
  - inversion Hl as [|k' r' l' Hk' Hl' Heq]; subst.
    assert (r' = r) as -> by congruence. rewrite Hp in Hl'.
    destruct (IH l' Hl') as (l1 & l2 & -> & Hl2).
    by exists (MkInstance k r :: l1), l2.
Qed.

(** No chain starts at a category that is reached from its own parent. *)
Lemma ancestor_chain_cycle table a r p :
  table !! a = Some r → Categories.DocumentCategory.parent r = Some p → reaches table p a →
  ∀ l, ¬ ancestor_chain table (Some p) l.
Proof.
  intros Ha Hp Hreach l Hl.
  destruct (ancestor_chain_reaches table p a Hreach l Hl) as (l1 & l2 & -> & Hl2).
  inversion Hl2 as [|a' r' l' Ha' Hl' Heq]; subst.
  assert (r' = r) as -> by congruence. rewrite Hp in Hl'.
  pose proof (ancestor_chain_unique _ _ _ _ Hl Hl') as Heq.
  apply (f_equal length) in Heq. rewrite length_app in Heq. simpl in Heq. lia.
Qed.

Lemma parents_stored_insert table a r :
  parents_stored table →
  (∀ p, Categories.DocumentCategory.parent r = Some p → is_Some (table !! p)) →
  parents_stored (<[a := r]> table).
Proof.
  intros Hstored Hr k r' p Hk Hp.
  assert (is_Some (table !! p)) as [x Hx].
  { destruct (decide (k = a)) as [->|Hne].
    - rewrite lookup_insert_eq in Hk. injection Hk as <-. by apply Hr.
    - rewrite lookup_insert_ne in Hk by done. by eapply Hstored. }
  destruct (decide (p = a)) as [->|Hne].
  - rewrite lookup_insert_eq. by eexists.
  - rewrite lookup_insert_ne by done. by eexists.
Qed.

Lemma ancestor_chain_insert table a r cur l :
  ancestor_chain table cur l → (∀ i, i ∈ l → pk i ≠ a) →
  ancestor_chain (<[a := r]> table) cur l.
Proof.
  induction 1 as [|p r' l Hp Hl IH]; intros Hnot; [constructor|].
  constructor.
  - rewrite lookup_insert_ne; [done|]. intros <-.
    by apply (Hnot (MkInstance a r')); [left|].
  - apply IH. intros i Hi. apply Hnot. by right.
Qed.

(** X27: moving a category under another one through the detail view of
    [apps/], by a user who may manage users, both categories being
    stored.  Naming the category itself as parent is refused with a
    validation error and nothing changes.  Any other parent is accepted
    with 200 and stored, and every parent is still a stored category.  If
    following the parents from the new parent ends at a root without
    passing the category, the ancestors of the category are afterwards the
    new parent and its ancestors.  But a parent from which following the
    parents leads to the category is accepted as well, and then
    [get_ancestors], [full_path] and [get_full_path] of the category no
    longer return, whatever the bound. *)
Theorem category_parent_validation (user : Apps.User.t) (st : Categories.Store) (a b : nat)
    (ra rb : Categories.DocumentCategory.t)
    (Hmanager : Apps.User.can_manage_users user = true)
    (Ha : Categories.categories st !! a = Some ra)
    (Hb : Categories.categories st !! b = Some rb)
    (Hstored : parents_stored (Categories.categories st)) :
  let vd :=
    Categories.DocumentCategoryUpdateSerializer.mk None (Some (Some (MkInstance b rb))) None in
  let moved := Categories.DocumentCategory.set_parent (Some b) ra in
  let table' := <[a := moved]> (Categories.categories st) in
  (b = a →
   Categories.DocumentCategoryDetailView.update user a vd st
   = (inl (ValidationError "A category cannot be its own parent"), st)) ∧
  (b ≠ a →
   Categories.DocumentCategoryDetailView.update user a vd st
   = (inr (DataResponse 200 (MkInstance a moved)), Categories.MkStore table' (Categories.documents st)) ∧
   parents_stored table' ∧
   (reaches (Categories.categories st) b a →
    ∀ fuel,
      Categories.DocumentCategory.get_ancestors fuel table' moved = None ∧
      Categories.DocumentCategory.full_path fuel table' moved = None ∧
      Categories.DocumentCategory.get_full_path fuel table' moved = None) ∧
   (∀ l, ancestor_chain (Categories.categories st) (Some b) l →
         (∀ i, i ∈ l → pk i ≠ a) →
         ancestor_chain table' (Categories.DocumentCategory.parent moved) l)).
Proof.
  intros vd moved table'.
  unfold Categories.DocumentCategoryDetailView.update, Categories.DocumentCategoryDetailView.get_object,
    objects_get.
  rewrite Ha. simpl. split.
  - intros ->. by rewrite bool_decide_eq_true_2.
  - intros Hne. rewrite bool_decide_eq_false_2 by done.
    unfold Categories.DocumentCategoryDetailView.perform_update. rewrite Hmanager. simpl.
    split; [done|].
    assert (parents_stored table') as Hstored'.
    { apply parents_stored_insert; [done|]. intros p [= <-]. by eexists. }
    split; [done|]. split.
    + intros Hreach. apply category_no_chain_no_result; [done| |].
      * intros p [= <-]. subst table'. rewrite lookup_insert_ne by done. by eexists.
      * simpl. apply (ancestor_chain_cycle table' a moved b).
        -- subst table'. apply lookup_insert_eq.
        -- done.
        -- by apply reaches_insert.
    + intros l Hl Hnot. by apply ancestor_chain_insert.
Qed.

(** X27 at work: Alice moves Policies, the root of the shelves, under
    Budgets, its grandchild; its path is no longer computed. *)
Lemma category_parent_validation_witness :
  Categories.DocumentCategory.full_path 100
    (<[1 := Categories.DocumentCategory.set_parent (Some 3) Samples.policies]>
       (Categories.categories Samples.shelves))
    (Categories.DocumentCategory.set_parent (Some 3) Samples.policies)
  = None.
Proof.
  destruct (category_parent_validation Samples.alice Samples.shelves 1 3
              Samples.policies Samples.budgets) as [_ H].
  - reflexivity.
  - reflexivity.
  - reflexivity.
  - intros k r p Hk Hp. unfold Samples.shelves in *. simpl in *.
    repeat (apply lookup_insert_Some in Hk as [[<- <-]|[_ Hk]]);
      try apply lookup_singleton_Some in Hk as [<- <-];
      simpl in Hp; try done; injection Hp as <-; by eexists.
  - destruct H as (_ & _ & H & _); [done|].
    apply H.
    eapply reaches_parent; [reflexivity|reflexivity|].
    eapply reaches_parent; [reflexivity|reflexivity|].
    constructor.
Defined.

Lemma objects_filter_all {A} (p : A → bool) (table : gmap nat A) :
  (∀ k r, table !! k = Some r → p r = true) → objects_filter p table = table.
Proof.
  intros H. apply map_eq. intros k. apply option_eq. intros r.
  rewrite objects_filter_lookup_Some. split; [tauto|]. intros Hk. split; [done|].
  by eapply H.
Qed.

(** Deleting a category without Categories.documents and Categories.children removes its row. *)
Lemma delete_category_leaf k st :
  exists_ (Categories.documents_of k st) = false →
  exists_ (Categories.children k st) = false →
  Categories.delete_category k st = Categories.MkStore (delete k (Categories.categories st)) (Categories.documents st).
Proof.
  unfold Categories.documents_of, Categories.children. rewrite !exists_filter_false. intros Hdocs Hchildren.
  unfold Categories.delete_category. f_equal.
  - apply objects_filter_all. intros j r Hj. apply lookup_delete_Some in Hj as [_ Hj].
    by rewrite (Hchildren j r Hj).
  - apply objects_filter_all. intros d c Hd. by rewrite (Hdocs d c Hd).
Qed.

Lemma references_stored_delete_leaf k st :
  references_stored st →
  exists_ (Categories.documents_of k st) = false →
  exists_ (Categories.children k st) = false →
  references_stored (Categories.MkStore (delete k (Categories.categories st)) (Categories.documents st)).
Proof.
  unfold Categories.documents_of, Categories.children. rewrite !exists_filter_false.
  intros [Hparents Hdocs] Hnodocs Hnochildren. split; simpl.
  - intros j r p Hj Hp. apply lookup_delete_Some in Hj as [Hne Hj].
    destruct (Hparents j r p Hj Hp) as [x Hx]. exists x.
    apply lookup_delete_Some. split; [|done]. intros <-.
    specialize (Hnochildren j r Hj). apply bool_decide_eq_false in Hnochildren. done.
  - intros d c Hd. destruct (Hdocs d c Hd) as [x Hx]. exists x.
    apply lookup_delete_Some. split; [|done]. intros <-.
    specialize (Hnodocs d k Hd). by apply bool_decide_eq_false in Hnodocs.
Qed.

(** What the two [destroy] views do to the tables. *)
Lemma apps_category_destroy_cases user k st :
  (∃ e, Categories.DocumentCategoryDetailView.destroy user k st = (inl e, st)) ∨
  (Categories.DocumentCategoryDetailView.destroy user k st
   = (inr (DataResponse 204 ()), Categories.MkStore (delete k (Categories.categories st)) (Categories.documents st)) ∧
   Apps.User.can_manage_users user = true ∧
   is_Some (Categories.categories st !! k) ∧
   exists_ (Categories.documents_of k st) = false ∧
   exists_ (Categories.children k st) = false).
Proof.
  unfold Categories.DocumentCategoryDetailView.destroy, Categories.DocumentCategoryDetailView.perform_destroy,
    Categories.DocumentCategoryDetailView.get_object, objects_get.
  destruct (Categories.categories st !! k) as [r|] eqn:Hk; simpl; [|left; by eexists].
  destruct (Apps.User.can_manage_users user); simpl; [|left; by eexists].
  destruct (exists_ (Categories.documents_of k st)) eqn:Hdocs; [left; by eexists|].
  destruct (exists_ (Categories.children k st)) eqn:Hchildren; [left; by eexists|].
  right. rewrite delete_category_leaf by done. by eauto.
Qed.

Lemma ds_category_destroy_cases k st :
  (∃ result, Categories.DocumentCategoryViewSet.destroy k st = (result, st) ∧ 400 ≤ http_status result) ∨
  (Categories.DocumentCategoryViewSet.destroy k st
   = (inr (DataResponse 204 ()), Categories.MkStore (delete k (Categories.categories st)) (Categories.documents st)) ∧
   is_Some (Categories.categories st !! k) ∧
   exists_ (Categories.documents_of k st) = false ∧
   exists_ (Categories.children k st) = false).
Proof.
  unfold Categories.DocumentCategoryViewSet.destroy, Categories.DocumentCategoryDetailView.get_object,
    objects_get.
  destruct (Categories.categories st !! k) as [r|] eqn:Hk; simpl;
    [|left; eexists; split; [done|simpl; lia]].
  destruct (exists_ (Categories.documents_of k st)) eqn:Hdocs;
    [left; eexists; split; [done|simpl; lia]|].
  destruct (exists_ (Categories.children k st)) eqn:Hchildren;
    [left; eexists; split; [done|simpl; lia]|].
  right. rewrite delete_category_leaf by done. by eauto.
Qed.

(** X28: the category views.  For a user who may not manage users,
    [perform_create], [update] and [destroy] of [apps/] raise and leave the
    tables unchanged.  A category with a document or a child category is
    not deleted: [apps/] raises, [django_server/] answers 400, the tables
    unchanged.  A stored category without documents and children is
    deleted with 204 (in [apps/], by a user who may manage users), and
    only its row goes.  So if every parent and every category of a
    document is a stored category, this still holds after [destroy] in
    both trees, and after [perform_create] and [update] of [apps/] when
    the validated parent is a stored category. *)
Theorem category_views_keep_references :
  (∀ user vd k vd' st,
     Apps.User.can_manage_users user = false →
     (∃ e, Categories.DocumentCategoryListView.perform_create user vd st = (inl e, st)) ∧
     (∃ e, Categories.DocumentCategoryDetailView.update user k vd' st = (inl e, st)) ∧
     (∃ e, Categories.DocumentCategoryDetailView.destroy user k st = (inl e, st))) ∧
  (∀ user k st r,
     Categories.categories st !! k = Some r →
     ((∃ d, Categories.documents st !! d = Some k) ∨
      (∃ j c, Categories.categories st !! j = Some c ∧ Categories.DocumentCategory.parent c = Some k)) →
     (∃ e, Categories.DocumentCategoryDetailView.destroy user k st = (inl e, st)) ∧
     (∃ e, Categories.DocumentCategoryViewSet.destroy k st = (inr (ErrorResponse 400 e), st))) ∧
  (∀ user k st r,
     Categories.categories st !! k = Some r →
     (∀ d, Categories.documents st !! d ≠ Some k) →
     (∀ j c, Categories.categories st !! j = Some c → Categories.DocumentCategory.parent c ≠ Some k) →
     (Apps.User.can_manage_users user = true →
      Categories.DocumentCategoryDetailView.destroy user k st
      = (inr (DataResponse 204 ()), Categories.MkStore (delete k (Categories.categories st)) (Categories.documents st))) ∧
     Categories.DocumentCategoryViewSet.destroy k st
     = (inr (DataResponse 204 ()), Categories.MkStore (delete k (Categories.categories st)) (Categories.documents st))) ∧
  (∀ user k st,
     references_stored st →
     references_stored (Categories.DocumentCategoryDetailView.destroy user k st).2 ∧
     references_stored (Categories.DocumentCategoryViewSet.destroy k st).2) ∧
  (∀ user vd st,
     references_stored st →
     (∀ i, Categories.DocumentCategoryCreateSerializer.parent vd = Some i →
           is_Some (Categories.categories st !! pk i)) →
     references_stored (Categories.DocumentCategoryListView.perform_create user vd st).2) ∧
  (∀ user k vd st,
     references_stored st →
     (∀ i, Categories.DocumentCategoryUpdateSerializer.parent vd = Some (Some i) →
           is_Some (Categories.categories st !! pk i)) →
     references_stored (Categories.DocumentCategoryDetailView.update user k vd st).2).
Proof.
  split; [|split; [|split; [|split; [|split]]]].
  - intros user vd k vd' st Hplain. split; [|split].
    + unfold Categories.DocumentCategoryListView.perform_create. rewrite Hplain. by eexists.
    + unfold Categories.DocumentCategoryDetailView.update, Categories.DocumentCategoryDetailView.perform_update.
      rewrite Hplain. simpl.
      destruct (Categories.DocumentCategoryDetailView.get_object k st) as [e|i]; [by eexists|].
      destruct (Categories.DocumentCategoryUpdateSerializer.parent vd') as [value|]; [|by eexists].
      destruct (Categories.DocumentCategoryUpdateSerializer.validate_parent i value); by eexists.
    + destruct (apps_category_destroy_cases user k st) as [?|(_ & Hm & _)]; [done|].
      congruence.
  - intros user k st r Hk Hused.
    assert (exists_ (Categories.documents_of k st) = true ∨ exists_ (Categories.children k st) = true) as Hex.
    { unfold Categories.documents_of, Categories.children. rewrite !exists_filter_true.
      destruct Hused as [[d Hd]|(j & c & Hj & Hc)]; [left|right].
      - exists d, k. split; [done|]. by apply bool_decide_eq_true.
      - exists j, c. split; [done|]. by apply bool_decide_eq_true. }
    split.
    + destruct (apps_category_destroy_cases user k st) as [?|(_ & _ & _ & H1 & H2)];
        [done|]. destruct Hex; congruence.
    + unfold Categories.DocumentCategoryViewSet.destroy, Categories.DocumentCategoryDetailView.get_object,
        objects_get. rewrite Hk. simpl.
      destruct (exists_ (Categories.documents_of k st)) eqn:Hdocs; [by eexists|].
      destruct Hex as [Hex|Hex]; [done|]. rewrite Hex. by eexists.
  - intros user k st r Hk Hnodocs Hnochildren.
    assert (exists_ (Categories.documents_of k st) = false) as Hdocs.
    { unfold Categories.documents_of. apply exists_filter_false. intros d c Hd.
      apply bool_decide_eq_false. intros ->. by destruct (Hnodocs d). }
    assert (exists_ (Categories.children k st) = false) as Hchildren.
    { unfold Categories.children. apply exists_filter_false. intros j c Hj.
      apply bool_decide_eq_false. by apply Hnochildren in Hj. }
    split.
    + intros Hmanager.
      unfold Categories.DocumentCategoryDetailView.destroy,
        Categories.DocumentCategoryDetailView.perform_destroy,
        Categories.DocumentCategoryDetailView.get_object, objects_get.
      rewrite Hk, Hmanager. simpl. rewrite Hdocs, Hchildren.
      by rewrite delete_category_leaf.
    + unfold Categories.DocumentCategoryViewSet.destroy, Categories.DocumentCategoryDetailView.get_object,
        objects_get.
      rewrite Hk. simpl. rewrite Hdocs, Hchildren. by rewrite delete_category_leaf.
  - intros user k st Hrefs. split.
    + destruct (apps_category_destroy_cases user k st)
        as [[e ->]|(-> & _ & _ & Hdocs & Hchildren)]; [done|].
      by apply references_stored_delete_leaf.
    + destruct (ds_category_destroy_cases k st)
        as [(result & -> & _)|(-> & _ & Hdocs & Hchildren)]; [done|].
      by apply references_stored_delete_leaf.
  - intros user vd st [Hparents Hdocs] Hparent.
    unfold Categories.DocumentCategoryListView.perform_create.
    destruct (negb _); [done|]. simpl. split; simpl.
    + apply parents_stored_insert; [done|]. simpl. intros p Hp.
      destruct (Categories.DocumentCategoryCreateSerializer.parent vd) as [i|]; [|done].
      injection Hp as <-. by apply Hparent.
    + intros d c Hd. destruct (Hdocs d c Hd) as [x Hx].
      destruct (decide (c = fresh ({[0]} ∪ dom (Categories.categories st)))) as [->|Hne].
      * rewrite lookup_insert_eq. by eexists.
      * rewrite lookup_insert_ne by done. by eexists.
  - intros user k vd st [Hparents Hdocs] Hparent.
    unfold Categories.DocumentCategoryDetailView.update, Categories.DocumentCategoryDetailView.perform_update,
      Categories.DocumentCategoryDetailView.get_object, objects_get.
    destruct (Categories.categories st !! k) as [r|] eqn:Hk; simpl; [|done].
    assert (references_stored
              (Categories.DocumentCategoryUpdateSerializer.update (MkInstance k r) vd st).2) as Hgoal.
    { unfold Categories.DocumentCategoryUpdateSerializer.update, save. simpl. split; simpl.
      - apply parents_stored_insert; [done|]. intros p.
        destruct (Categories.DocumentCategoryUpdateSerializer.required_approval_role vd),
          (Categories.DocumentCategoryUpdateSerializer.name vd),
          (Categories.DocumentCategoryUpdateSerializer.parent vd) as [[i|]|]; simpl;
          intros Hp; try done; try (injection Hp as <-; by apply Hparent);
          by eapply Hparents.
      - intros d c Hd. destruct (Hdocs d c Hd) as [x Hx].
        destruct (decide (c = k)) as [->|Hne].
        + rewrite lookup_insert_eq. by eexists.
        + rewrite lookup_insert_ne by done. by eexists. }
    destruct (Categories.DocumentCategoryUpdateSerializer.parent vd) as [value|] eqn:Hvalue.
    + destruct (Categories.DocumentCategoryUpdateSerializer.validate_parent _ value); [done|].
      by destruct (negb _).
    + by destruct (negb _).
Qed.

(** ** Users and activity logs ([django_server/accounts/views.py]) *)

(** The list of users holds stored rows, and only active ones for a user
    who is not an administrator. *)
Lemma ds_user_list_sound user query_params users j u :
  Accounts.UserListView.get_queryset user query_params users !! j = Some u →
  users !! j = Some u ∧
  (DjangoServer.User.role user ≠ ADMIN → DjangoServer.UserRow.is_active u = true).
Proof.
  unfold Accounts.UserListView.get_queryset.
  destruct (truthy (query_params !! "role")), (query_params !! "active") as [v|],
    (bool_decide (DjangoServer.User.role user = ADMIN)) eqn:Hadmin; simpl;
    rewrite ?objects_filter_lookup_Some;
    try apply bool_decide_eq_true in Hadmin;
    try apply bool_decide_eq_false in Hadmin;
    intros H; destruct_and?; done.
Qed.

(** X29: users and activity logs of [django_server/].  The list of users
    holds stored rows, and only active ones for a user who is not an
    administrator, whatever the query parameters.  [destroy] never
    removes a row and never touches the row of another key; for a caller
    who is not an administrator, for the caller's own key and for a
    missing key it fails and changes nothing.  An administrator who
    deletes another stored user gets 204: the row is kept with
    [is_active] off, and one USER_DEACTIVATED activity log is written,
    which the administrator's list of logs shows.  Afterwards nobody but
    an administrator sees the user in the list, the user is not among the
    approvers a new approval request notifies, and doing it again leaves
    the table as it is.  The list of activity logs holds stored logs,
    and only the caller's own for a caller who is not an administrator. *)
Theorem ds_user_deactivation :
  (∀ user query_params users j u,
     Accounts.UserListView.get_queryset user query_params users !! j = Some u →
     users !! j = Some u ∧
     (DjangoServer.User.role user ≠ ADMIN → DjangoServer.UserRow.is_active u = true)) ∧
  (∀ user k users st,
     let result := Accounts.UserDetailView.destroy user k users st in
     dom result.1.2 = dom users ∧
     (∀ j, j ≠ k → result.1.2 !! j = users !! j) ∧
     (DjangoServer.User.role user ≠ ADMIN ∨ k = DjangoServer.User.id user
      ∨ users !! k = None →
      400 ≤ http_status result.1.1 ∧ result.1.2 = users ∧ result.2 = st)) ∧
  (∀ user k users st u,
     DjangoServer.User.role user = ADMIN →
     k ≠ DjangoServer.User.id user →
     users !! k = Some u →
     let users' := <[k := DjangoServer.UserRow.set_is_active false u]> users in
     (∃ key,
        DjangoServer.activity_logs st !! key = None ∧
        Accounts.UserDetailView.destroy user k users st
        = (inr (DataResponse 204 ()), users',
           DjangoServer.with_activity_logs
             (<[key := DjangoServer.ActivityLog.mk (DjangoServer.User.id user)
                         "USER_DEACTIVATED" "User" k]>
                (DjangoServer.activity_logs st)) st) ∧
        Accounts.ActivityLogView.get_queryset user ∅
          (Accounts.UserDetailView.destroy user k users st).2 !! key
        = Some (DjangoServer.ActivityLog.mk (DjangoServer.User.id user)
                  "USER_DEACTIVATED" "User" k)) ∧
     (∀ viewer query_params,
        DjangoServer.User.role viewer ≠ ADMIN →
        Accounts.UserListView.get_queryset viewer query_params users' !! k = None) ∧
     Accounts.UserListView.get_queryset user {[ "active" := "false" ]} users' !! k
     = Some (DjangoServer.UserRow.set_is_active false u) ∧
     (∀ required requested_by,
        DjangoServer.ApprovalRequestCreateSerializer.approvers required requested_by users'
          !! k = None) ∧
     (∀ st', (Accounts.UserDetailView.destroy user k users' st').1.2 = users')) ∧
  (∀ user query_params st key l,
     Accounts.ActivityLogView.get_queryset user query_params st !! key = Some l →
     DjangoServer.activity_logs st !! key = Some l ∧
     (DjangoServer.User.role user ≠ ADMIN →
      DjangoServer.ActivityLog.user l = DjangoServer.User.id user)).
Proof.
  split; [exact ds_user_list_sound|]. split; [|split].
  - intros user k users st result. subst result.
    unfold Accounts.UserDetailView.destroy, Accounts.UserDetailView.get_object, objects_get,
      Accounts.IsOwnerOrAdmin.has_object_permission.
    destruct (users !! k) as [u|] eqn:Hk; simpl.
    + destruct (bool_decide (DjangoServer.User.role user = ADMIN)) eqn:Hadmin; simpl.
      * destruct (bool_decide (k = DjangoServer.User.id user)) eqn:Hself; simpl;
          rewrite ?Hself; simpl.
        -- split; [done|]. split; [done|]. intros _. split; [lia|done].
        -- apply bool_decide_eq_true in Hadmin. apply bool_decide_eq_false in Hself.
           unfold save. simpl. split.
           { rewrite dom_insert_L. apply elem_of_dom_2 in Hk.
             apply set_eq. intros x. set_unfold. intuition congruence. }
           split; [intros j Hj; by rewrite lookup_insert_ne|].
           intros [?|[?|?]]; congruence.
      * destruct (bool_decide (k = DjangoServer.User.id user)) eqn:Hself; simpl;
          rewrite ?Hself; simpl.
        -- split; [done|]. split; [done|]. intros _. split; [lia|done].
        -- split; [done|]. split; [done|]. intros _. split; [lia|done].
    + split; [done|]. split; [done|]. intros _. split; [lia|done].
  - intros user k users st u Hadmin Hother Hk users'.
    assert (∀ users0 st0 u0,
              users0 !! k = Some u0 →
              Accounts.UserDetailView.destroy user k users0 st0
              = (inr (DataResponse 204 ()),
                 <[k := DjangoServer.UserRow.set_is_active false u0]> users0,
                 DjangoServer.with_activity_logs
                   (<[fresh ({[0]} ∪ dom (DjangoServer.activity_logs st0))
                      := DjangoServer.ActivityLog.mk (DjangoServer.User.id user)
                           "USER_DEACTIVATED" "User" k]>
                      (DjangoServer.activity_logs st0)) st0)) as Hdestroy.
    { intros users0 st0 u0 Hk0.
      unfold Accounts.UserDetailView.destroy, Accounts.UserDetailView.get_object, objects_get,
        Accounts.IsOwnerOrAdmin.has_object_permission.
      rewrite Hk0. simpl. rewrite (bool_decide_eq_true_2 _ Hadmin). simpl.
      by rewrite (bool_decide_eq_false_2 _ Hother). }
    split; [|split; [|split; [|split]]].
    + eexists. split; [apply fresh_key_unused|]. split; [by apply Hdestroy|].
      rewrite (Hdestroy users st u Hk). simpl.
      unfold Accounts.ActivityLogView.get_queryset. rewrite !lookup_empty. simpl.
      rewrite (bool_decide_eq_true_2 _ Hadmin). simpl. apply lookup_insert_eq.
    + intros viewer query_params Hviewer.
      destruct (Accounts.UserListView.get_queryset viewer query_params users' !! k) as [u'|] eqn:H;
        [|done].
      apply ds_user_list_sound in H as [H Hactive]. specialize (Hactive Hviewer).
      subst users'. rewrite lookup_insert_eq in H. injection H as <-.
      simpl in Hactive. done.
    + unfold Accounts.UserListView.get_queryset.
      rewrite lookup_singleton_eq, lookup_singleton_ne by done. simpl.
      rewrite (bool_decide_eq_true_2 _ Hadmin). simpl.
      apply objects_filter_lookup_Some. subst users'. rewrite lookup_insert_eq.
      split; [done|]. by apply bool_decide_eq_true.
    + intros required requested_by.
      unfold DjangoServer.ApprovalRequestCreateSerializer.approvers, exclude_id.
      apply lookup_delete_None. right. apply objects_filter_lookup_None.
      intros u'. subst users'. rewrite lookup_insert_eq. intros [= <-]. simpl.
      apply andb_false_r.
    + intros st'. rewrite (Hdestroy users' st' (DjangoServer.UserRow.set_is_active false u)).
      * simpl. subst users'. by rewrite insert_insert_eq.
      * subst users'. apply lookup_insert_eq.
  - intros user query_params st key l.
    unfold Accounts.ActivityLogView.get_queryset.
    destruct (truthy (query_params !! "entity_type")), (truthy (query_params !! "action")),
      (bool_decide (DjangoServer.User.role user = ADMIN)) eqn:Hadmin; simpl;
      rewrite ?objects_filter_lookup_Some, ?bool_decide_eq_true;
      try apply bool_decide_eq_true in Hadmin;
      try apply bool_decide_eq_false in Hadmin;
      intros H; destruct_and?; done.
Qed.

(** ** The fillable PDF ([django_server/documents/pdf_utils.py]) *)




